(** * jicgeometry: Point2D and Point3D

    A shallow embedding of [jicgeometry/__init__.py] (version 0.6.0) and the
    properties of its two point classes.

    Conventions of the embedding.
    - The module is read under Python 3, as CPython 3.11 runs it with its
      default settings: [round] rounds half to even, [/] is true division
      and reaches [__truediv__], [int] is unbounded, and the conversion of
      an [int] of more than 4300 decimal digits to text raises
      [ValueError].
    - A Python [int] is a [Z]; a [bool] is kept apart from it because it
      prints differently, although [isinstance(True, int)] holds; a [float]
      is an IEEE 754 binary64 value, a [spec_float] of the Standard Library
      taken at precision 53 and maximal exponent 1024.
    - A raised exception is the [Raise] outcome of the [result] monad. *)

From Stdlib Require Import ZArith Lia Bool List String Ascii.
From Stdlib Require Import SpecFloat.
From Stdlib Require Import DecimalString DecimalZ.
Import ListNotations.

Local Open Scope string_scope.
Local Open Scope Z_scope.

(** ** Exceptions and the error monad

    The exceptions the module raises or lets through. The error kinds of
    the specification are read as follows: TypeMismatch is the
    [RuntimeError] of [_set_types], InvalidArgument is the [TypeError] of a
    constructor call that lacks a component and the [RuntimeError] of
    [astype] on an unknown dtype, IndexOutOfRange is [IndexError]. *)

Inductive exn : Type :=
| TypeError
| ValueError
| RuntimeError
| IndexError
| OverflowError
| ZeroDivisionError.

Inductive result (A : Type) : Type :=
| Ok (a : A)
| Raise (e : exn).

Arguments Ok {A} a.
Arguments Raise {A} e.

Definition bind {A B : Type} (r : result A) (k : A -> result B) : result B :=
  match r with
  | Ok a => k a
  | Raise e => Raise e
  end.

Notation "x <- r ;; k" := (bind r (fun x => k))
  (at level 61, r at next level, right associativity).

(** ** Python numbers *)

Definition float := spec_float.

Definition prec : Z := 53.
Definition emax : Z := 1024.

Definition fmul : float -> float -> float := SFmul prec emax.
Definition fadd : float -> float -> float := SFadd prec emax.
Definition fsub : float -> float -> float := SFsub prec emax.
Definition fdiv : float -> float -> float := SFdiv prec emax.
Definition fsqrt : float -> float := SFsqrt prec emax.

(** A float of the machine: its mantissa and exponent are in range. *)
Definition is_binary64 (f : float) : bool := valid_binary prec emax f.

Definition is_finite (f : float) : bool :=
  match f with
  | S754_zero _ | S754_finite _ _ _ => true
  | S754_infinity _ | S754_nan => false
  end.

Definition is_zero (f : float) : bool :=
  match f with
  | S754_zero _ => true
  | _ => false
  end.

(** The nearest float to an integer, ties to even; an infinity beyond the
    largest float. *)
Definition float_of_Z (z : Z) : float := binary_normalize prec emax z 0 false.

(** A decimal literal of the source text, [5.9] as [literal 59 10]: the
    division of two exactly represented integers is correctly rounded, as
    the parsing of the literal is. *)
Definition literal (n : Z) (scale : Z) : float :=
  fdiv (float_of_Z n) (float_of_Z scale).

(** The values that pass [isinstance(c, int) or isinstance(c, float)]. *)
Inductive num : Type :=
| NInt (z : Z)
| NBool (b : bool)
| NFloat (f : float).

(** [isinstance(c, int)]: [bool] is a subclass of [int]. *)
Definition isinstance_int (n : num) : bool :=
  match n with
  | NInt _ | NBool _ => true
  | NFloat _ => false
  end.

Definition isinstance_float (n : num) : bool :=
  match n with
  | NFloat _ => true
  | _ => false
  end.

(** The arguments a caller may hand to a constructor. *)
#[warnings="-register-all"]
Inductive pyval : Type :=
| VNum (n : num)
| VStr (s : string)
| VNone
| VSeq (l : list pyval).

Definition VInt (z : Z) : pyval := VNum (NInt z).
Definition VFloat (f : float) : pyval := VNum (NFloat f).
Definition VBool (b : bool) : pyval := VNum (NBool b).

Definition is_None (v : pyval) : bool :=
  match v with
  | VNone => true
  | _ => false
  end.

(** [float(c)] on a number: exact on floats, rounding on integers, with
    [OverflowError] when the integer is beyond the largest float. *)
Definition py_float_of_int (z : Z) : result float :=
  match float_of_Z z with
  | S754_infinity _ => Raise OverflowError
  | f => Ok f
  end.

Definition py_float (n : num) : result float :=
  match n with
  | NInt z => py_float_of_int z
  | NBool b => py_float_of_int (Z.b2z b)
  | NFloat f => Ok f
  end.

(** The integer a float is equal to, when there is one: the comparison of an
    [int] with a [float] is exact in Python. *)
Definition float_eq_Z (f : float) (z : Z) : bool :=
  match f with
  | S754_zero _ => z =? 0
  | S754_finite s m e =>
      if 0 <=? e then z =? cond_Zopp s (Zpos m) * 2 ^ e
      else z * 2 ^ (- e) =? cond_Zopp s (Zpos m)
  | S754_infinity _ | S754_nan => false
  end.

Definition int_value (n : num) : option Z :=
  match n with
  | NInt z => Some z
  | NBool b => Some (Z.b2z b)
  | NFloat _ => None
  end.

(** [a == b] on numbers. *)
Definition num_eqb (a b : num) : bool :=
  match a, b with
  | NFloat f, NFloat g => SFeqb f g
  | NFloat f, NInt z | NInt z, NFloat f => float_eq_Z f z
  | NFloat f, NBool c | NBool c, NFloat f => float_eq_Z f (Z.b2z c)
  | NInt z, NInt w => z =? w
  | NInt z, NBool c | NBool c, NInt z => z =? Z.b2z c
  | NBool c, NBool d => Bool.eqb c d
  end.

(** [a * b], [a + b], [a - b]: exact on two integers, otherwise the integer
    operand is converted and the float operation applies. *)
Definition num_arith (fz : Z -> Z -> Z) (ff : float -> float -> float)
    (a b : num) : result num :=
  match int_value a, int_value b with
  | Some z, Some w => Ok (NInt (fz z w))
  | _, _ =>
      x <- py_float a ;;
      y <- py_float b ;;
      Ok (NFloat (ff x y))
  end.

Definition num_mul : num -> num -> result num := num_arith Z.mul fmul.
Definition num_add : num -> num -> result num := num_arith Z.add fadd.
Definition num_sub : num -> num -> result num := num_arith Z.sub fsub.

(** [a / d] with a float divisor, the only division the module performs. *)
Definition truediv_float (a : num) (d : float) : result float :=
  x <- py_float a ;;
  if is_zero d then Raise ZeroDivisionError else Ok (fdiv x d).

(** [c ** 2]: exact on an integer. On a float CPython takes the absolute
    value of the operand and calls the C library's [pow], then raises
    [OverflowError] when a finite operand gives an infinity. The value of
    [pow] is within one unit in the last place of the square and may
    differ from the correctly rounded square in the last bit; the model
    takes the correctly rounded square [fmul x x]. What is proved below of
    [magnitude], [distance] and [unit_vector] rests only on what the two
    share: the sign of the result, its value on zeros, infinities and NaN,
    its symmetry in the sign of the operand, and when it overflows. *)
Definition num_pow2 (c : num) : result num :=
  match int_value c with
  | Some z => Ok (NInt (z * z))
  | None =>
      x <- py_float c ;;
      let r := fmul x x in
      if is_finite x && negb (is_finite r) then Raise OverflowError
      else Ok (NFloat r)
  end.

(** [math.sqrt(v)]. *)
Definition math_sqrt (v : num) : result float :=
  x <- py_float v ;;
  match x with
  | S754_finite true _ _ | S754_infinity true => Raise ValueError
  | _ => Ok (fsqrt x)
  end.

(** The quotient [a / b] of integers, [0 < b], rounded to the nearest
    integer, ties to the even one. *)
Definition round_half_even (a b : Z) : Z :=
  let q := a / b in
  let r := a mod b in
  match 2 * r ?= b with
  | Lt => q
  | Gt => q + 1
  | Eq => if Z.even q then q else q + 1
  end.

(** [round(c, 0)]: an integer is returned as an [int]; a float is rounded to
    the nearest integral float, ties to even, its sign kept. *)
Definition float_round0 (f : float) : float :=
  match f with
  | S754_finite s m e =>
      if 0 <=? e then f
      else binary_normalize prec emax
             (cond_Zopp s (round_half_even (Zpos m) (2 ^ (- e)))) 0 s
  | _ => f
  end.

Definition py_round0 (c : num) : num :=
  match c with
  | NInt z => NInt z
  | NBool b => NInt (Z.b2z b)
  | NFloat f => NFloat (float_round0 f)
  end.

(** [int(c)]: truncation toward zero of a finite float. *)
Definition int_of_float (f : float) : result Z :=
  match f with
  | S754_nan => Raise ValueError
  | S754_infinity _ => Raise OverflowError
  | S754_zero _ => Ok 0
  | S754_finite s m e =>
      Ok (cond_Zopp s (if 0 <=? e then Zpos m * 2 ^ e
                       else Zpos m / 2 ^ (- e)))
  end.

Definition py_int (c : num) : result Z :=
  match c with
  | NInt z => Ok z
  | NBool b => Ok (Z.b2z b)
  | NFloat f => int_of_float f
  end.

(** ** Text: [str] of an integer and the format specification [:.2f] *)

(** The decimal numeral of an integer. *)
Definition decimal_str (z : Z) : string :=
  NilZero.string_of_int (Z.to_int z).

(** The number of decimal digits of an integer, the sign not counted. *)
Definition num_digits (z : Z) : nat := String.length (decimal_str (Z.abs z)).

(** The largest number of decimal digits an [int] may have when it is
    converted to text ([sys.get_int_max_str_digits()], by default). *)
Definition int_max_str_digits : nat := 4300.

(** [str(z)], also what the replacement field [{}] makes of an [int]: the
    numeral, or [ValueError] when it has more digits than the limit. *)
Definition py_str_int (z : Z) : result string :=
  if (num_digits z <=? int_max_str_digits)%nat then Ok (decimal_str z)
  else Raise ValueError.

(** The reader of decimal numerals, used to state that [decimal_str] loses
    nothing. *)
Definition int_of_str (s : string) : option Z :=
  option_map Z.of_int (NilZero.int_of_string s).

Definition py_str_bool (b : bool) : string := if b then "True" else "False".

Definition digit_char (d : Z) : ascii := ascii_of_N (Z.to_N (48 + d)).

Definition sign_str (s : bool) : string := if s then "-" else "".

(** The integer nearest to [100 * m * 2^e], ties to even. *)
Definition hundredths (m : positive) (e : Z) : Z :=
  if 0 <=? e then 100 * Zpos m * 2 ^ e
  else round_half_even (100 * Zpos m) (2 ^ (- e)).

Definition fixed2_digits (n : Z) : string :=
  decimal_str (n / 100) ++ "." ++
  String (digit_char (n mod 100 / 10)) (String (digit_char (n mod 10)) "").

(** [format(f, ".2f")]: the exact binary value is rounded to two decimals,
    ties to even, and the sign of the float is printed even before zero. *)
Definition format_2f (f : float) : string :=
  match f with
  | S754_nan => "nan"
  | S754_infinity s => sign_str s ++ "inf"
  | S754_zero s => sign_str s ++ "0.00"
  | S754_finite s m e => sign_str s ++ fixed2_digits (hundredths m e)
  end.

Inductive fmt_arg : Type :=
| ANum (n : num)
| AStr (s : string).

Section Format.

(** [repr] of a float, the shortest numeral that reads back to it. The
    module reaches it only through the replacement field [{}]; it is a
    parameter of the formatter. *)
Variable float_repr : float -> string.

Definition py_str (a : fmt_arg) : result string :=
  match a with
  | ANum (NInt z) => py_str_int z
  | ANum (NBool b) => Ok (py_str_bool b)
  | ANum (NFloat f) => Ok (float_repr f)
  | AStr s => Ok s
  end.

Definition format_field (spec : string) (a : fmt_arg) : result string :=
  if String.eqb spec "" then py_str a
  else if String.eqb spec ":.2f" then
    match a with
    | ANum n => f <- py_float n ;; Ok (format_2f f)
    | AStr _ => Raise ValueError
    end
  else Raise ValueError.

(** [tpl.format( *args )] for templates whose fields are [{}] or
    [{:.2f}]; [field] holds the text read since an opening brace. *)
Fixpoint format_from (tpl : string) (field : option string)
    (args : list fmt_arg) : result string :=
  match tpl with
  | EmptyString =>
      match field with
      | None => Ok EmptyString
      | Some _ => Raise ValueError
      end
  | String c rest =>
      match field with
      | None =>
          if Ascii.eqb c "{" then format_from rest (Some EmptyString) args
          else r <- format_from rest None args ;; Ok (String c r)
      | Some spec =>
          if Ascii.eqb c "}" then
            match args with
            | [] => Raise IndexError
            | a :: args' =>
                s <- format_field spec a ;;
                r <- format_from rest None args' ;;
                Ok (s ++ r)
            end
          else format_from rest (Some (spec ++ String c EmptyString)) args
      end
  end.

Definition format (tpl : string) (args : list fmt_arg) : result string :=
  format_from tpl None args.

End Format.

(** ** Unpacking a constructor argument *)

Definition chars (s : string) : list pyval :=
  map (fun c => VStr (String c EmptyString)) (list_ascii_of_string s).

(** [t1, .., tn = v]: a number or [None] is not iterable, a sequence or a
    string of another length does not fit. *)
Definition unpack (n : nat) (v : pyval) : result (list pyval) :=
  match v with
  | VSeq l => if Nat.eqb (List.length l) n then Ok l else Raise ValueError
  | VStr s => if Nat.eqb (String.length s) n then Ok (chars s)
              else Raise ValueError
  | VNum _ | VNone => Raise TypeError
  end.

(** The test of [_set_types]: anything that is neither an [int] nor a
    [float] raises. *)
Definition check_number (c : pyval) : result num :=
  match c with
  | VNum n => if isinstance_int n || isinstance_float n then Ok n
              else Raise RuntimeError
  | _ => Raise RuntimeError
  end.

(** [key == k] for an integer constant [k]. *)
Definition key_eqb (key : pyval) (k : Z) : bool :=
  match key with
  | VNum n => num_eqb n (NInt k)
  | _ => false
  end.

(** ** Point2D *)

Module Point2D.

Record t : Type := Point { x : num; y : num; _dtype : string }.

Definition _set_types (cx cy : pyval) : result t :=
  nx <- check_number cx ;;
  ny <- check_number cy ;;
  if isinstance_int nx && isinstance_int ny then Ok (Point nx ny "int")
  else
    fx <- py_float nx ;;
    fy <- py_float ny ;;
    Ok (Point (NFloat fx) (NFloat fy) "float").

(** [Point2D(a1, a2=None)] *)
Definition __init__ (a1 a2 : pyval) : result t :=
  if is_None a2 then
    l <- unpack 2 a1 ;;
    match l with
    | [cx; cy] => _set_types cx cy
    | _ => Raise ValueError
    end
  else _set_types a1 a2.

Definition dtype (self : t) : string := _dtype self.

Definition magnitude (self : t) : result float :=
  x2 <- num_pow2 (x self) ;;
  y2 <- num_pow2 (y self) ;;
  s <- num_add x2 y2 ;;
  math_sqrt s.

Definition unit_vector (self : t) : result t :=
  m <- magnitude self ;;
  ux <- truediv_float (x self) m ;;
  m' <- magnitude self ;;
  uy <- truediv_float (y self) m' ;;
  __init__ (VFloat ux) (VFloat uy).

Definition __eq__ (self other : t) : bool :=
  if negb (String.eqb (dtype self) (dtype other)) then false
  else num_eqb (x self) (x other) && num_eqb (y self) (y other).

Definition __add__ (self other : t) : result t :=
  ax <- num_add (x self) (x other) ;;
  ay <- num_add (y self) (y other) ;;
  __init__ (VNum ax) (VNum ay).

Definition __sub__ (self other : t) : result t :=
  ax <- num_sub (x self) (x other) ;;
  ay <- num_sub (y self) (y other) ;;
  __init__ (VNum ax) (VNum ay).

Definition distance (self other : t) : result float :=
  tmp <- __sub__ self other ;;
  magnitude tmp.

(** [other] is a numeric scalar. *)
Definition __mul__ (self : t) (other : num) : result t :=
  ax <- num_mul (x self) other ;;
  ay <- num_mul (y self) other ;;
  __init__ (VNum ax) (VNum ay).

Definition __div__ (self : t) (other : num) : result t :=
  d <- py_float other ;;
  r <- truediv_float (NInt 1) d ;;
  __mul__ self (NFloat r).

Definition __truediv__ (self : t) (other : num) : result t :=
  __div__ self other.

Definition __len__ (self : t) : Z := 2.

Definition __getitem__ (self : t) (key : pyval) : result num :=
  if key_eqb key 0 then Ok (x self)
  else if key_eqb key 1 then Ok (y self)
  else Raise IndexError.

Definition __iter__ (self : t) : list num := [x self; y self].

Definition astype (self : t) (dtype : string) : result t :=
  if String.eqb dtype "int" then
    ix <- py_int (py_round0 (x self)) ;;
    iy <- py_int (py_round0 (y self)) ;;
    __init__ (VInt ix) (VInt iy)
  else if String.eqb dtype "float" then
    fx <- py_float (x self) ;;
    fy <- py_float (y self) ;;
    __init__ (VFloat fx) (VFloat fy)
  else Raise RuntimeError.

Definition astuple (self : t) : num * num := (x self, y self).

Section Repr.
Variable float_repr : float -> string.

Definition __repr__ (self : t) : result string :=
  let s := "<Point2D(x={}, y={}, dtype={})>" in
  let s := if String.eqb (dtype self) "float"
           then "<Point2D(x={:.2f}, y={:.2f}, dtype={})>" else s in
  format float_repr s [ANum (x self); ANum (y self); AStr (dtype self)].
End Repr.

End Point2D.

(** ** Point3D *)

Module Point3D.

Record t : Type := Point { x : num; y : num; z : num; _dtype : string }.

Definition _set_types (cx cy cz : pyval) : result t :=
  nx <- check_number cx ;;
  ny <- check_number cy ;;
  nz <- check_number cz ;;
  if isinstance_int nx && isinstance_int ny && isinstance_int nz
  then Ok (Point nx ny nz "int")
  else
    fx <- py_float nx ;;
    fy <- py_float ny ;;
    fz <- py_float nz ;;
    Ok (Point (NFloat fx) (NFloat fy) (NFloat fz) "float").

(** [Point3D(a1, a2=None, a3=None)] *)
Definition __init__ (a1 a2 a3 : pyval) : result t :=
  if negb (is_None a2) && negb (is_None a3) then _set_types a1 a2 a3
  else
    l <- unpack 3 a1 ;;
    match l with
    | [cx; cy; cz] => _set_types cx cy cz
    | _ => Raise ValueError
    end.

Definition dtype (self : t) : string := _dtype self.

Definition __iter__ (self : t) : list num := [x self; y self; z self].

Section Repr.
Variable float_repr : float -> string.

Definition __repr__ (self : t) : result string :=
  let s := "<Point3D(x={}, y={}, z={}, dtype={})>" in
  let s := if String.eqb (dtype self) "float"
           then "<Point2D(x={:.2f}, y={:.2f}, z={:.2f}, dtype={})>"
           else s in
  format float_repr s
    [ANum (x self); ANum (y self); ANum (z self); AStr (dtype self)].
End Repr.

Definition __eq__ (self other : t) : bool :=
  if negb (String.eqb (dtype self) (dtype other)) then false
  else num_eqb (x self) (x other) && num_eqb (y self) (y other)
       && num_eqb (z self) (z other).

Definition __add__ (self other : t) : result t :=
  ax <- num_add (x self) (x other) ;;
  ay <- num_add (y self) (y other) ;;
  az <- num_add (z self) (z other) ;;
  __init__ (VNum ax) (VNum ay) (VNum az).

Definition __sub__ (self other : t) : result t :=
  ax <- num_sub (x self) (x other) ;;
  ay <- num_sub (y self) (y other) ;;
  az <- num_sub (z self) (z other) ;;
  __init__ (VNum ax) (VNum ay) (VNum az).

(** [other] is a numeric scalar. *)
Definition __mul__ (self : t) (other : num) : result t :=
  ax <- num_mul (x self) other ;;
  ay <- num_mul (y self) other ;;
  az <- num_mul (z self) other ;;
  __init__ (VNum ax) (VNum ay) (VNum az).

Definition __div__ (self : t) (other : num) : result t :=
  d <- py_float other ;;
  r <- truediv_float (NInt 1) d ;;
  __mul__ self (NFloat r).

Definition __truediv__ (self : t) (other : num) : result t :=
  __div__ self other.

Definition __len__ (self : t) : Z := 3.

Definition __getitem__ (self : t) (key : pyval) : result num :=
  if key_eqb key 0 then Ok (x self)
  else if key_eqb key 1 then Ok (y self)
  else if key_eqb key 2 then Ok (z self)
  else Raise IndexError.

Definition magnitude (self : t) : result float :=
  x2 <- num_pow2 (x self) ;;
  y2 <- num_pow2 (y self) ;;
  s <- num_add x2 y2 ;;
  z2 <- num_pow2 (z self) ;;
  s' <- num_add s z2 ;;
  math_sqrt s'.

Definition unit_vector (self : t) : result t :=
  m <- magnitude self ;;
  ux <- truediv_float (x self) m ;;
  m' <- magnitude self ;;
  uy <- truediv_float (y self) m' ;;
  m'' <- magnitude self ;;
  uz <- truediv_float (z self) m'' ;;
  __init__ (VFloat ux) (VFloat uy) (VFloat uz).

Definition distance (self other : t) : result float :=
  tmp <- __sub__ self other ;;
  magnitude tmp.

Definition astype (self : t) (dtype : string) : result t :=
  if String.eqb dtype "int" then
    ix <- py_int (py_round0 (x self)) ;;
    iy <- py_int (py_round0 (y self)) ;;
    iz <- py_int (py_round0 (z self)) ;;
    __init__ (VInt ix) (VInt iy) (VInt iz)
  else if String.eqb dtype "float" then
    fx <- py_float (x self) ;;
    fy <- py_float (y self) ;;
    fz <- py_float (z self) ;;
    __init__ (VFloat fx) (VFloat fy) (VFloat fz)
  else Raise RuntimeError.

Definition astuple (self : t) : num * num * num :=
  (x self, y self, z self).

End Point3D.

(** ** Vocabulary of the properties *)

(** The float [1.0], the numerator of the reciprocal in [__div__]. *)
Definition one : float := float_of_Z 1.

(** An integer that a float holds exactly: it has at most 53 significant
    bits, the zero bits below them left aside, and is in range. *)
Definition exact_in_float (z : Z) : bool :=
  let d := Zdigits2 z in
  (d <=? prec) || ((d <=? emax) && (Z.abs z mod 2 ^ (d - prec) =? 0)).

(** An operand whose integer, if it is one, a float holds exactly. *)
Definition fits_float (c : num) : Prop :=
  match c with
  | NInt z => exact_in_float z = true
  | NBool _ | NFloat _ => True
  end.

(** [stored] is the float that carries the value of [given]: the same float,
    or a float equal to the integer. *)
Definition promoted (given : num) (stored : float) : Prop :=
  match given with
  | NFloat f => stored = f
  | NInt z => float_eq_Z stored z = true
  | NBool b => float_eq_Z stored (Z.b2z b) = true
  end.

(** The two constructor forms of a call agree on the outcome [r]. *)
Definition both_forms2 (a b : pyval) (r : result Point2D.t) : Prop :=
  Point2D.__init__ a b = r /\ Point2D.__init__ (VSeq [a; b]) VNone = r.

Definition both_forms3 (a b c : pyval) (r : result Point3D.t) : Prop :=
  Point3D.__init__ a b c = r
  /\ Point3D.__init__ (VSeq [a; b; c]) VNone VNone = r.

(** A value that is neither an [int] (a [bool] is one) nor a [float]. *)
Definition not_number (v : pyval) : Prop :=
  match v with
  | VNum _ => False
  | VStr _ | VNone | VSeq _ => True
  end.

(** A component whose float, if it is one, is a finite machine float. *)
Definition finite_component (c : num) : Prop :=
  match c with
  | NFloat f => is_binary64 f = true /\ is_finite f = true
  | NInt _ | NBool _ => True
  end.

(** [n] is the integer nearest to the quotient [a / b], [0 < b], and the
    even one of the two when [a / b] lies halfway. *)
Definition nearest_even (a b n : Z) : Prop :=
  2 * Z.abs (n * b - a) <= b
  /\ (2 * Z.abs (n * b - a) = b -> Z.even n = true).

(** [n] is the value of [c] rounded to the nearest integer, ties to even. *)
Definition rounds_to (c : num) (n : Z) : Prop :=
  match c with
  | NInt z => n = z
  | NBool b => n = Z.b2z b
  | NFloat (S754_zero _) => n = 0
  | NFloat (S754_finite s m e) =>
      if 0 <=? e then n = cond_Zopp s (Zpos m * 2 ^ e)
      else nearest_even (cond_Zopp s (Zpos m)) (2 ^ (- e)) n
  | NFloat (S754_infinity _) | NFloat S754_nan => False
  end.

(** The rounding of a finite float by [round(c, 0)], read as an integer. *)
Definition nearest_even_of_float (f : float) : Z :=
  match f with
  | S754_finite s m e =>
      cond_Zopp s (if 0 <=? e then Zpos m * 2 ^ e
                   else round_half_even (Zpos m) (2 ^ (- e)))
  | _ => 0
  end.

(** [n] is [100 * m * 2^e] rounded to the nearest integer, ties to even. *)
Definition is_hundredths (m : positive) (e : Z) (n : Z) : Prop :=
  if 0 <=? e then n = 100 * Zpos m * 2 ^ e
  else nearest_even (100 * Zpos m) (2 ^ (- e)) n.

(** A component equal to zero: [0], [False], [0.0] or [-0.0]. *)
Definition is_zero_num (c : num) : bool :=
  match c with
  | NInt z => z =? 0
  | NBool b => negb b
  | NFloat f => is_zero f
  end.

(** An integer component short enough to be converted to text. *)
Definition str_fits (c : num) : Prop :=
  match c with
  | NInt z => (num_digits z <= int_max_str_digits)%nat
  | NBool _ | NFloat _ => True
  end.

(** The text of an integer component: the decimal numeral of an [int],
    the name of a [bool]. *)
Definition int_text (c : num) : string :=
  match c with
  | NInt z => decimal_str z
  | NBool b => py_str_bool b
  | NFloat _ => EmptyString
  end.

(** *** Readings of the specification that the code does not follow *)

(** The quotient [c / s] computed by one true division, as the
    specification words scalar division. *)
Definition true_quotient (c s : num) : result float :=
  d <- py_float s ;;
  truediv_float c d.

(** The quotient [a / b] of non-negative integers rounded half away from
    zero, as the specification words the two decimals of a float. *)
Definition round_half_away (a b : Z) : Z := (2 * a + b) / (2 * b).

Definition hundredths_half_away (m : positive) (e : Z) : Z :=
  if 0 <=? e then 100 * Zpos m * 2 ^ e
  else round_half_away (100 * Zpos m) (2 ^ (- e)).

Definition format_2f_half_away (f : float) : string :=
  match f with
  | S754_nan => "nan"
  | S754_infinity s => sign_str s ++ "inf"
  | S754_zero s => sign_str s ++ "0.00"
  | S754_finite s m e =>
      sign_str s ++ fixed2_digits (hundredths_half_away m e)
  end.

(** *** Points and floats of the examples *)

Definition half : float := literal 5 10.
Definition two53 : Z := 2 ^ prec.
Definition pos_inf : float := S754_infinity false.

Definition P2 (a b : Z) : Point2D.t := Point2D.Point (NInt a) (NInt b) "int".
Definition P3 (a b c : Z) : Point3D.t :=
  Point3D.Point (NInt a) (NInt b) (NInt c) "int".
Definition F2 (a b : float) : Point2D.t :=
  Point2D.Point (NFloat a) (NFloat b) "float".
Definition F3 (a b c : float) : Point3D.t :=
  Point3D.Point (NFloat a) (NFloat b) (NFloat c) "float".

Arguments fmul : simpl never.
Arguments fadd : simpl never.
Arguments fsub : simpl never.
Arguments fdiv : simpl never.
Arguments fsqrt : simpl never.
Arguments float_of_Z : simpl never.
Arguments py_float_of_int : simpl never.
Arguments float_round0 : simpl never.
Arguments py_str_int : simpl never.
Arguments decimal_str : simpl never.
Arguments format_2f : simpl never.


(** ** Vocabulary of the further properties *)

(** The invariant of a point: dtype "int" over integers, or dtype "float"
    over floats. *)
Definition consistent2 (p : Point2D.t) : Prop :=
  (Point2D.dtype p = "int"
   /\ isinstance_int (Point2D.x p) && isinstance_int (Point2D.y p) = true)
  \/ (Point2D.dtype p = "float"
      /\ isinstance_float (Point2D.x p) && isinstance_float (Point2D.y p)
         = true).

Definition consistent3 (p : Point3D.t) : Prop :=
  (Point3D.dtype p = "int"
   /\ isinstance_int (Point3D.x p) && isinstance_int (Point3D.y p)
      && isinstance_int (Point3D.z p) = true)
  \/ (Point3D.dtype p = "float"
      /\ isinstance_float (Point3D.x p) && isinstance_float (Point3D.y p)
         && isinstance_float (Point3D.z p) = true).

(** A float whose sign bit is clear, or a NaN. *)
Definition sign_clear (f : float) : bool :=
  match f with
  | S754_zero s | S754_infinity s | S754_finite s _ _ => negb s
  | S754_nan => true
  end.

Definition is_nan (c : num) : bool :=
  match c with
  | NFloat S754_nan => true
  | _ => false
  end.

(** A component that is an integer or a finite float. *)
Definition finite_num (c : num) : Prop :=
  match c with
  | NFloat f => is_finite f = true
  | NInt _ | NBool _ => True
  end.

(** A component whose float, if it is one, is a machine float. *)
Definition binary64_num (c : num) : Prop :=
  match c with
  | NFloat f => is_binary64 f = true
  | NInt _ | NBool _ => True
  end.

(** Two floats that are opposite, or the same zero: what [a - b] and
    [b - a] are to each other. *)
Definition mirror_float (u v : float) : Prop :=
  v = SFopp u \/ (u = v /\ is_zero u = true).

Definition mirror_num (u v : num) : Prop :=
  match u, v with
  | NInt z, NInt w => w = - z
  | NFloat f, NFloat g => mirror_float f g
  | _, _ => False
  end.

(** Two outcomes that raise the same exception, or return related
    values. *)
Definition result_rel {A : Type} (R : A -> A -> Prop) (r r' : result A)
    : Prop :=
  match r, r' with
  | Ok u, Ok v => R u v
  | Raise e, Raise e' => e = e'
  | _, _ => False
  end.

Definition mirror_point2 (r r' : Point2D.t) : Prop :=
  mirror_num (Point2D.x r) (Point2D.x r')
  /\ mirror_num (Point2D.y r) (Point2D.y r').

Definition mirror_point3 (r r' : Point3D.t) : Prop :=
  mirror_num (Point3D.x r) (Point3D.x r')
  /\ mirror_num (Point3D.y r) (Point3D.y r')
  /\ mirror_num (Point3D.z r) (Point3D.z r').

(** A number that is not negative: an integer from zero on, or a float
    whose sign bit is clear. *)
Definition nonneg_num (c : num) : Prop :=
  match c with
  | NInt n => 0 <= n
  | NBool _ => True
  | NFloat f => sign_clear f = true
  end.

(** An outcome that returns a value with the property [P], or raises
    [OverflowError]. *)
Definition overflow_or {A : Type} (P : A -> Prop) (r : result A) : Prop :=
  match r with
  | Ok v => P v
  | Raise e => e = OverflowError
  end.

(** A finite float of absolute value [2^512] at least: a full mantissa at
    an exponent from 460 on. An infinity is not one. *)
Definition huge (c : num) : bool :=
  match c with
  | NFloat (S754_finite _ m e) =>
      (Zpos (digits2_pos m) =? prec) && (460 <=? e)
  | _ => false
  end.

(** * The examples of the module's documentation and of its unit tests *)

Section Examples.

Variable float_repr : float -> string.

Example doc_addition :
  (p1 <- Point2D.__init__ (VInt 3) (VInt 0) ;;
   p2 <- Point2D.__init__ (VSeq [VInt 0; VInt 4]) VNone ;;
   s <- Point2D.__add__ p1 p2 ;;
   Point2D.__repr__ float_repr s)
  = Ok "<Point2D(x=3, y=4, dtype=int)>".
Proof. reflexivity. Qed.

Example doc_subtraction :
  (d <- Point2D.__sub__ (P2 3 0) (P2 0 4) ;; Point2D.__repr__ float_repr d)
  = Ok "<Point2D(x=3, y=-4, dtype=int)>".
Proof. reflexivity. Qed.

Example doc_scalar_multiplication :
  (m <- Point2D.__mul__ (P2 3 4) (NInt 2) ;; Point2D.__repr__ float_repr m)
  = Ok "<Point2D(x=6, y=8, dtype=int)>".
Proof. reflexivity. Qed.

Example doc_scalar_division :
  (q <- Point2D.__truediv__ (P2 3 0) (NInt 2) ;;
   Point2D.__repr__ float_repr q)
  = Ok "<Point2D(x=1.50, y=0.00, dtype=float)>".
Proof. vm_compute. reflexivity. Qed.

Example doc_distance :
  Point2D.distance (P2 3 0) (P2 0 4) = Ok (float_of_Z 5).
Proof. vm_compute. reflexivity. Qed.

Example doc_unit_vector :
  (u <- Point2D.unit_vector (P2 3 4) ;; Point2D.__repr__ float_repr u)
  = Ok "<Point2D(x=0.60, y=0.80, dtype=float)>"
  /\ Point2D.magnitude (P2 3 4) = Ok (float_of_Z 5).
Proof. split; vm_compute; reflexivity. Qed.

(** The second part squares floats: it holds of the correctly rounded
    square, as the test shows it to hold of the C library's [pow]. *)
Example test_unit_vector :
  (u <- Point3D.unit_vector (P3 2 3 4) ;; Point3D.__repr__ float_repr u)
  = Ok "<Point2D(x=0.37, y=0.56, z=0.74, dtype=float)>"
  /\ (u <- Point3D.unit_vector (P3 2 3 4) ;;
      x2 <- num_pow2 (Point3D.x u) ;;
      y2 <- num_pow2 (Point3D.y u) ;;
      z2 <- num_pow2 (Point3D.z u) ;;
      s <- num_add x2 y2 ;;
      num_add s z2)
     = Ok (NFloat one).
Proof. split; vm_compute; reflexivity. Qed.

Example test_repr_float :
  Point3D.__repr__ float_repr
    (F3 (literal 133333333333333 100000000000000)
        (literal 266666666667 100000000000) (literal 3 1))
  = Ok "<Point2D(x=1.33, y=2.67, z=3.00, dtype=float)>".
Proof. vm_compute. reflexivity. Qed.

Example test_distance :
  Point3D.distance (P3 6 0 8) (P3 3 0 4) = Ok (float_of_Z 5).
Proof. vm_compute. reflexivity. Qed.

Example test_astype_float :
  Point3D.astype (P3 5 8 10) "float"
  = Ok (F3 (float_of_Z 5) (float_of_Z 8) (float_of_Z 10)).
Proof. vm_compute. reflexivity. Qed.

Example test_astype_invalid_type :
  Point3D.astype (P3 5 8 10) "Idontexist" = Raise RuntimeError.
Proof. reflexivity. Qed.

Example test_different_dtypes_not_equal :
  Point3D.__eq__ (P3 1 2 3)
    (F3 (float_of_Z 1) (float_of_Z 2) (float_of_Z 3)) = false.
Proof. reflexivity. Qed.

End Examples.

Example exact_in_float_values :
  exact_in_float (2 ^ 53) = true
  /\ exact_in_float (2 ^ 53 + 1) = false
  /\ exact_in_float (2 ^ 53 + 2) = true
  /\ exact_in_float (- 3 * 2 ^ 1000) = true
  /\ exact_in_float (2 ^ 1024 - 2 ^ 971) = true
  /\ exact_in_float (2 ^ 1024) = false.
Proof. repeat split. Qed.
(** * Integers that floats hold exactly *)

Lemma digits2_pos_iter_xO (k p : positive) :
  digits2_pos (Pos.iter xO p k) = (digits2_pos p + k)%positive.
Proof.
  induction k as [|k IH] using Pos.peano_ind.
  - simpl. lia.
  - rewrite Pos.iter_succ. simpl. rewrite IH. lia.
Qed.

Lemma Zpos_iter_xO (k p : positive) :
  Zpos (Pos.iter xO p k) = Zpos p * 2 ^ Zpos k.
Proof.
  induction k as [|k IH] using Pos.peano_ind.
  - simpl. lia.
  - rewrite Pos.iter_succ, Pos2Z.inj_xO, IH, Pos2Z.inj_succ.
    rewrite Z.pow_succ_r by lia. ring.
Qed.

Lemma digits2_pos_bounds (p : positive) :
  2 ^ (Zpos (digits2_pos p) - 1) <= Zpos p < 2 ^ Zpos (digits2_pos p).
Proof.
  induction p as [p IH|p IH|]; cbn [digits2_pos].
  - rewrite Pos2Z.inj_succ, Z.pow_succ_r by lia.
    replace (Z.succ (Zpos (digits2_pos p)) - 1)
      with (Z.succ (Zpos (digits2_pos p) - 1)) by lia.
    rewrite Z.pow_succ_r by lia. lia.
  - rewrite Pos2Z.inj_succ, Z.pow_succ_r by lia.
    replace (Z.succ (Zpos (digits2_pos p)) - 1)
      with (Z.succ (Zpos (digits2_pos p) - 1)) by lia.
    rewrite Z.pow_succ_r by lia. lia.
  - simpl. lia.
Qed.

Lemma digits2_pos_le (p : positive) (n : Z) :
  Zpos p < 2 ^ n -> Zpos (digits2_pos p) <= n.
Proof.
  intros H.
  destruct (Z.le_gt_cases (Zpos (digits2_pos p)) n) as [|Hgt]; [assumption|].
  exfalso.
  assert (Hn : 0 <= n).
  { destruct (Z.le_gt_cases 0 n); [assumption|].
    rewrite Z.pow_neg_r in H by lia. lia. }
  pose proof (digits2_pos_bounds p) as [Hlo _].
  assert (2 ^ n <= 2 ^ (Zpos (digits2_pos p) - 1))
    by (apply Z.pow_le_mono_r; lia).
  lia.
Qed.

(** A mantissa of full width at an exponent in range is left as it is. *)
Lemma binary_round_aux_full (s : bool) (m : positive) (e : Z) :
  Zpos (digits2_pos m) = prec -> -1074 <= e <= 971 ->
  binary_round_aux prec emax s (Zpos m) e loc_Exact = S754_finite s m e.
Proof.
  intros Hd He.
  assert (Hshift : fexp prec emax (prec + e) - e = 0).
  { unfold fexp, emin, prec, emax. lia. }
  unfold binary_round_aux, shr_fexp.
  cbn [Zdigits2 shr_record_of_loc]. rewrite Hd, Hshift.
  cbn [shr shr_m loc_of_shr_record round_nearest_even Zdigits2
       shr_record_of_loc].
  rewrite Hd, Hshift. cbn [shr shr_m].
  replace (e <=? emax - prec) with true; [reflexivity|].
  symmetry. apply Z.leb_le. unfold emax, prec. lia.
Qed.

Lemma binary_round_small (s : bool) (p : positive) :
  Zpos p < 2 ^ prec ->
  exists m e,
    binary_round prec emax s p 0 = S754_finite s m e
    /\ -52 <= e <= 0 /\ Zpos m = Zpos p * 2 ^ (- e).
Proof.
  intros Hp.
  pose proof (digits2_pos_le p prec Hp) as Hd.
  assert (Hf : fexp prec emax (Zpos (digits2_pos p) + 0)
               = Zpos (digits2_pos p) - prec).
  { unfold fexp, emin, prec, emax in *. lia. }
  unfold binary_round. rewrite Hf. unfold shl_align.
  destruct (Zpos (digits2_pos p) - prec - 0) as [|k|k] eqn:Hk.
  - exists p, 0. split; [|split].
    + apply binary_round_aux_full; unfold prec in *; lia.
    + lia.
    + simpl. lia.
  - unfold prec in *. lia.
  - exists (Pos.iter xO p k), (Zpos (digits2_pos p) - prec).
    split; [|split].
    + apply binary_round_aux_full.
      * rewrite digits2_pos_iter_xO. unfold prec in *. lia.
      * unfold prec in *. lia.
    + unfold prec in *. lia.
    + rewrite Zpos_iter_xO. f_equal. f_equal. unfold prec in *. lia.
Qed.

Lemma is_binary64_mantissa (s : bool) (m : positive) (e : Z) :
  is_binary64 (S754_finite s m e) = true -> Zpos m < 2 ^ prec.
Proof.
  unfold is_binary64, valid_binary, bounded, canonical_mantissa.
  intros H. apply andb_prop in H. destruct H as [H _].
  apply Z.eqb_eq in H.
  assert (Hd : Zpos (digits2_pos m) <= prec).
  { unfold fexp, emin, prec, emax in *. lia. }
  pose proof (digits2_pos_bounds m) as [_ Hhi].
  assert (2 ^ Zpos (digits2_pos m) <= 2 ^ prec)
    by (apply Z.pow_le_mono_r; lia).
  lia.
Qed.

Lemma iter_shr_1_exact (k q : positive) :
  iter_pos shr_1 k
    {| shr_m := Zpos (Pos.iter xO q k); shr_r := false; shr_s := false |}
  = {| shr_m := Zpos q; shr_r := false; shr_s := false |}.
Proof.
  revert q. induction k as [k IH|k IH|]; intros q; cbn [iter_pos Pos.iter].
  - cbn [shr_1 orb]. rewrite IH, IH. reflexivity.
  - rewrite IH, IH. reflexivity.
  - reflexivity.
Qed.

Lemma exact_in_float_cases (p : positive) :
  exact_in_float (Zpos p) = true ->
  Zpos (digits2_pos p) <= prec
  \/ exists k q : positive,
       Zpos k = Zpos (digits2_pos p) - prec
       /\ Zpos (digits2_pos p) <= emax
       /\ p = Pos.iter xO q k.
Proof.
  unfold exact_in_float. cbn [Zdigits2 Z.abs]. intros H.
  apply orb_prop in H. destruct H as [H|H].
  - left. apply Z.leb_le, H.
  - apply andb_prop in H. destruct H as [Hd Hm].
    apply Z.leb_le in Hd. apply Z.eqb_eq in Hm.
    destruct (Z.le_gt_cases (Zpos (digits2_pos p)) prec) as [Hle|Hgt];
      [left; exact Hle|right].
    destruct (Zpos (digits2_pos p) - prec) as [|k|k] eqn:Hk; try lia.
    assert (Hpow : 0 < 2 ^ Zpos k) by (apply Z.pow_pos_nonneg; lia).
    pose proof (Z.div_mod (Zpos p) (2 ^ Zpos k) ltac:(lia)) as Hdm.
    rewrite Hm, Z.add_0_r in Hdm.
    destruct (Zpos p / 2 ^ Zpos k) as [|q|q] eqn:Hq; try lia.
    exists k, q. split; [reflexivity|split; [exact Hd|]].
    apply Pos2Z.inj. rewrite Zpos_iter_xO. lia.
Qed.

(** The float of an integer that fits: the integer itself, written with a
    mantissa of at most 53 bits. *)
Lemma binary_round_exact (s : bool) (p : positive) :
  exact_in_float (Zpos p) = true ->
  exists m e,
    binary_round prec emax s p 0 = S754_finite s m e
    /\ (e <= 0 -> Zpos m = Zpos p * 2 ^ (- e))
    /\ (0 <= e -> Zpos p = Zpos m * 2 ^ e).
Proof.
  intros H. destruct (exact_in_float_cases p H) as [Hd|(k & q & Hk & Hd & ->)].
  - assert (Hp : Zpos p < 2 ^ prec).
    { pose proof (digits2_pos_bounds p) as [_ Hhi].
      assert (2 ^ Zpos (digits2_pos p) <= 2 ^ prec)
        by (apply Z.pow_le_mono_r; lia).
      lia. }
    destruct (binary_round_small s p Hp) as (m & e & Hf & He & Hm).
    exists m, e. split; [exact Hf|split; [intros _; exact Hm|]].
    intros H0. assert (e = 0) by lia. subst e. simpl in Hm. simpl. lia.
  - exists q, (Zpos k).
    rewrite digits2_pos_iter_xO in Hk, Hd.
    assert (Hq : Zpos (digits2_pos q) = prec) by lia.
    split; [|split; [lia|intros _; apply Zpos_iter_xO]].
    unfold binary_round.
    assert (Hf : fexp prec emax
                   (Zpos (digits2_pos (Pos.iter xO q k)) + 0) = Zpos k).
    { rewrite digits2_pos_iter_xO. unfold fexp, emin, prec, emax in *. lia. }
    rewrite Hf. unfold shl_align. cbn [Z.sub Z.add Z.opp].
    unfold binary_round_aux, shr_fexp.
    cbn [Zdigits2 shr_record_of_loc].
    rewrite digits2_pos_iter_xO.
    replace (fexp prec emax (Zpos (digits2_pos q + k) + 0) - 0)
      with (Zpos k)
      by (unfold fexp, emin, prec, emax in *; lia).
    cbn [shr]. rewrite iter_shr_1_exact.
    cbn [shr_m loc_of_shr_record round_nearest_even Zdigits2
         shr_record_of_loc].
    replace (fexp prec emax (Zpos (digits2_pos q) + (0 + Zpos k))
             - (0 + Zpos k)) with 0
      by (unfold fexp, emin, prec, emax in *; lia).
    cbn [shr shr_m].
    replace (0 + Zpos k <=? emax - prec) with true
      by (symmetry; apply Z.leb_le; unfold prec, emax in *; lia).
    reflexivity.
Qed.

Lemma small_int_exact (z : Z) :
  Z.abs z <= 2 ^ prec -> exact_in_float z = true.
Proof.
  intros Hz.
  assert (Hcases : Z.abs z = 2 ^ prec \/ Z.abs z < 2 ^ prec).
  { generalize dependent (2 ^ prec). intros. lia. }
  destruct Hcases as [He|Hlt].
  - assert (Hz' : z = 2 ^ prec \/ z = - 2 ^ prec).
    { generalize dependent (2 ^ prec). intros. lia. }
    destruct Hz' as [-> | ->]; reflexivity.
  - unfold exact_in_float. apply orb_true_iff. left. apply Z.leb_le.
    destruct z as [|p|p]; cbn [Zdigits2].
    + unfold prec. lia.
    + apply digits2_pos_le. exact Hlt.
    + apply digits2_pos_le. exact Hlt.
Qed.

(** ** Rounding half to even *)

Lemma round_half_even_nearest (a b : Z) :
  0 < b ->
  2 * Z.abs (round_half_even a b * b - a) <= b
  /\ (2 * Z.abs (round_half_even a b * b - a) = b ->
      Z.even (round_half_even a b) = true).
Proof.
  intros Hb. unfold round_half_even.
  pose proof (Z.div_mod a b ltac:(lia)) as Hdm.
  pose proof (Z.mod_pos_bound a b Hb) as Hr.
  set (q := a / b) in *. set (r := a mod b) in *.
  destruct (Z.compare_spec (2 * r) b) as [Heq|Hlt|Hgt].
  - destruct (Z.even q) eqn:Hq.
    + split; [nia|intros _; exact Hq].
    + split; [nia|intros _].
      rewrite Z.even_add, Hq. reflexivity.
  - split; [nia|nia].
  - split; [nia|nia].
Qed.

Lemma round_half_even_range (a b : Z) :
  0 < b -> 0 <= a -> 0 <= round_half_even a b <= a / b + 1.
Proof.
  intros Hb Ha. unfold round_half_even.
  assert (0 <= a / b) by (apply Z.div_pos; lia).
  destruct (2 * (a mod b) ?= b); [destruct (Z.even (a / b))| |]; lia.
Qed.

Lemma round_half_even_exact (q b : Z) :
  0 < b -> round_half_even (q * b) b = q.
Proof.
  intros Hb. unfold round_half_even.
  rewrite Z.div_mul, Z.mod_mul by lia.
  destruct b; try lia. reflexivity.
Qed.

Lemma nearest_even_unique (a b n n' : Z) :
  0 < b -> nearest_even a b n -> nearest_even a b n' -> n = n'.
Proof.
  intros Hb [H1 E1] [H2 E2].
  assert (Hd : n' = n \/ n' = n + 1 \/ n = n' + 1) by nia.
  destruct Hd as [->|[->| ->]]; [reflexivity| |].
  - assert (T1 : 2 * Z.abs (n * b - a) = b) by nia.
    assert (T2 : 2 * Z.abs ((n + 1) * b - a) = b) by nia.
    specialize (E1 T1). specialize (E2 T2).
    rewrite Z.even_add in E2. rewrite E1 in E2. discriminate.
  - assert (T1 : 2 * Z.abs ((n' + 1) * b - a) = b) by nia.
    assert (T2 : 2 * Z.abs (n' * b - a) = b) by nia.
    specialize (E1 T1). specialize (E2 T2).
    rewrite Z.even_add in E1. rewrite E2 in E1. discriminate.
Qed.


(** ** Reading back the float of a small integer *)

Lemma int_of_binary_round (s : bool) (q : positive) :
  exact_in_float (Zpos q) = true ->
  let f := binary_round prec emax s q 0 in
  int_of_float f = Ok (cond_Zopp s (Zpos q))
  /\ float_eq_Z f (cond_Zopp s (Zpos q)) = true
  /\ float_round0 f = f
  /\ is_finite f = true.
Proof.
  intros Hq f. subst f.
  destruct (binary_round_exact s q Hq) as (m & e & Hf & Hneg & Hpos).
  rewrite Hf. unfold float_round0. cbn [int_of_float float_eq_Z is_finite].
  destruct (Z.leb_spec 0 e) as [H0|H0].
  - rewrite <- (Hpos H0).
    replace (cond_Zopp s (Zpos m) * 2 ^ e) with (cond_Zopp s (Zpos q))
      by (rewrite (Hpos H0); destruct s; unfold cond_Zopp; ring).
    rewrite Z.eqb_refl. auto.
  - assert (Hpow : 0 < 2 ^ (- e)) by (apply Z.pow_pos_nonneg; lia).
    rewrite (Hneg ltac:(lia)), Z.div_mul by lia.
    replace (cond_Zopp s (Zpos q) * 2 ^ (- e))
      with (cond_Zopp s (Zpos q * 2 ^ (- e)))
      by (destruct s; unfold cond_Zopp; ring).
    rewrite Z.eqb_refl. rewrite round_half_even_exact by lia.
    repeat split.
    destruct s; simpl; exact Hf.
Qed.

Lemma float_of_Z_signed (s : bool) (q : positive) :
  float_of_Z (cond_Zopp s (Zpos q)) = binary_round prec emax s q 0.
Proof. destruct s; reflexivity. Qed.

(** An integer that fits converts to a float of the same value, which
    rounds and truncates back to the integer. *)
Lemma py_float_of_int_exact (z : Z) :
  exact_in_float z = true ->
  exists f,
    py_float_of_int z = Ok f
    /\ float_eq_Z f z = true
    /\ py_int (py_round0 (NFloat f)) = Ok z.
Proof.
  intros Hz. destruct z as [|q|q].
  - exists (S754_zero false). repeat split.
  - destruct (int_of_binary_round false q Hz) as (Hi & He & Hr & Hfin).
    exists (binary_round prec emax false q 0).
    unfold py_float_of_int, float_of_Z. cbn [binary_normalize].
    cbn [py_round0 py_int]. rewrite Hr.
    split; [|split; assumption].
    destruct (binary_round prec emax false q 0); try reflexivity;
      discriminate.
  - destruct (int_of_binary_round true q Hz) as (Hi & He & Hr & Hfin).
    exists (binary_round prec emax true q 0).
    unfold py_float_of_int, float_of_Z. cbn [binary_normalize].
    cbn [py_round0 py_int]. rewrite Hr.
    split; [|split; assumption].
    destruct (binary_round prec emax true q 0); try reflexivity;
      discriminate.
Qed.

(** ** The float of an integer that does not fit *)

Lemma shr_1_m (mrs : shr_record) :
  0 <= shr_m mrs -> shr_m (shr_1 mrs) = shr_m mrs / 2.
Proof.
  destruct mrs as [m r s]. cbn [shr_m]. intros Hm.
  destruct m as [|[p|p|]|p]; cbn [shr_1 shr_m].
  - reflexivity.
  - rewrite Pos2Z.inj_xI. apply Z.div_unique with 1; lia.
  - rewrite Pos2Z.inj_xO. apply Z.div_unique with 0; lia.
  - reflexivity.
  - lia.
Qed.

Lemma iter_shr_1_m (k : positive) (mrs : shr_record) :
  0 <= shr_m mrs ->
  shr_m (iter_pos shr_1 k mrs) = shr_m mrs / 2 ^ Zpos k.
Proof.
  revert mrs.
  induction k as [k IH|k IH|]; intros mrs Hm; cbn [iter_pos].
  - assert (H1 : 0 <= shr_m (shr_1 mrs))
      by (rewrite shr_1_m by lia; apply Z.div_pos; lia).
    assert (Hp : 0 < 2 ^ Zpos k) by (apply Z.pow_pos_nonneg; lia).
    assert (H2 : 0 <= shr_m (iter_pos shr_1 k (shr_1 mrs)))
      by (rewrite IH by lia; apply Z.div_pos; lia).
    rewrite IH, IH, shr_1_m by lia.
    rewrite !Z.div_div by lia.
    f_equal. rewrite Pos2Z.inj_xI.
    rewrite Z.pow_add_r, Z.pow_mul_r by lia.
    change (2 ^ 2) with 4. change (2 ^ 1) with 2.
    replace (4 ^ Zpos k) with (2 ^ Zpos k * 2 ^ Zpos k); [ring|].
    rewrite <- Z.pow_add_r by lia.
    replace (Zpos k + Zpos k) with (2 * Zpos k) by lia.
    rewrite Z.pow_mul_r by lia. reflexivity.
  - assert (Hp : 0 < 2 ^ Zpos k) by (apply Z.pow_pos_nonneg; lia).
    assert (H2 : 0 <= shr_m (iter_pos shr_1 k mrs))
      by (rewrite IH by lia; apply Z.div_pos; lia).
    rewrite IH, IH by lia.
    rewrite !Z.div_div by lia.
    f_equal. rewrite Pos2Z.inj_xO.
    rewrite <- Z.pow_add_r by lia. f_equal. lia.
  - rewrite shr_1_m by lia. reflexivity.
Qed.

Lemma digits2_pos_eq (m : positive) (d : Z) :
  2 ^ (d - 1) <= Zpos m < 2 ^ d -> Zpos (digits2_pos m) = d.
Proof.
  intros [Hlo Hhi].
  pose proof (digits2_pos_bounds m) as [Blo Bhi].
  pose proof (digits2_pos_le m d Hhi) as Hle.
  destruct (Z.eq_dec (Zpos (digits2_pos m)) d) as [|Hne]; [assumption|].
  exfalso.
  assert (Hd : 0 < d) by lia.
  assert (2 ^ Zpos (digits2_pos m) <= 2 ^ (d - 1))
    by (apply Z.pow_le_mono_r; lia).
  lia.
Qed.

(** Rounding an integer of more than 53 bits leaves a mantissa of 53 bits
    at an exponent that is the number of bits dropped, or one more when
    the rounding carries to the next power of two. *)
Lemma binary_round_large (s : bool) (p k : positive) (f : float) :
  Zpos k = Zpos (digits2_pos p) - prec ->
  binary_round prec emax s p 0 = f -> is_finite f = true ->
  exists m e,
    f = S754_finite s m e /\ e <= emax - prec
    /\ ((e = Zpos k /\ Zpos m < 2 ^ prec)
        \/ (e = Zpos k + 1 /\ Zpos m = 2 ^ (prec - 1))).
Proof.
  intros Hk Hf Hfin.
  pose proof (digits2_pos_bounds p) as [Plo Phi].
  assert (Hpk : 0 < 2 ^ Zpos k) by (apply Z.pow_pos_nonneg; lia).
  unfold binary_round in Hf.
  replace (fexp prec emax (Zpos (digits2_pos p) + 0)) with (Zpos k) in Hf
    by (unfold fexp, emin, prec, emax in *; lia).
  unfold shl_align in Hf. cbn [Z.sub Z.add Z.opp] in Hf.
  unfold binary_round_aux, shr_fexp in Hf.
  cbn [Zdigits2 shr_record_of_loc] in Hf.
  replace (fexp prec emax (Zpos (digits2_pos p) + 0) - 0) with (Zpos k)
    in Hf by (unfold fexp, emin, prec, emax in *; lia).
  cbn [shr] in Hf.
  set (mrs := iter_pos shr_1 k
                {| shr_m := Zpos p; shr_r := false; shr_s := false |}) in Hf.
  assert (Hm1 : shr_m mrs = Zpos p / 2 ^ Zpos k).
  { subst mrs. rewrite iter_shr_1_m; cbn [shr_m]; [reflexivity|lia]. }
  assert (Hb1 : 2 ^ (prec - 1) <= shr_m mrs < 2 ^ prec).
  { rewrite Hm1.
    assert (E1 : 2 ^ (Zpos (digits2_pos p) - 1)
                 = 2 ^ (prec - 1) * 2 ^ Zpos k).
    { rewrite <- Z.pow_add_r by (unfold prec; lia). f_equal. lia. }
    assert (E2 : 2 ^ Zpos (digits2_pos p) = 2 ^ prec * 2 ^ Zpos k).
    { rewrite <- Z.pow_add_r by (unfold prec; lia). f_equal. lia. }
    split.
    - apply Z.div_le_lower_bound; lia.
    - apply Z.div_lt_upper_bound; lia. }
  set (m2 := round_nearest_even (shr_m mrs) (loc_of_shr_record mrs)) in Hf.
  assert (Hm2 : m2 = shr_m mrs \/ m2 = shr_m mrs + 1).
  { subst m2. unfold round_nearest_even.
    destruct (loc_of_shr_record mrs) as [|[| |]]; auto.
    destruct (Z.even (shr_m mrs)); auto. }
  assert (Hpow : 2 ^ prec = 2 * 2 ^ (prec - 1)) by reflexivity.
  assert (Hcase : m2 < 2 ^ prec \/ m2 = 2 ^ prec) by lia.
  destruct Hcase as [Hlt|Heq].
  - destruct m2 as [|q|q] eqn:Eq; try lia.
    assert (Hq : Zpos (digits2_pos q) = prec)
      by (apply digits2_pos_eq; lia).
    cbn [Zdigits2] in Hf. rewrite Hq in Hf.
    replace (fexp prec emax (prec + (0 + Zpos k)) - (0 + Zpos k)) with 0
      in Hf by (unfold fexp, emin, prec, emax in *; lia).
    cbn [shr shr_m] in Hf.
    destruct (Z.leb_spec (0 + Zpos k) (emax - prec)) as [Hle|Hgt].
    + exists q, (Zpos k). subst f.
      split; [reflexivity|split; [lia|left; split; [reflexivity|lia]]].
    + subst f. discriminate.
  - rewrite Heq in Hf.
    change (Zdigits2 (2 ^ prec)) with (prec + 1) in Hf.
    replace (fexp prec emax (prec + 1 + (0 + Zpos k)) - (0 + Zpos k))
      with 1 in Hf by (unfold fexp, emin, prec, emax in *; lia).
    change (shr_record_of_loc (2 ^ prec) loc_Exact)
      with {| shr_m := 2 ^ prec; shr_r := false; shr_s := false |} in Hf.
    cbn [shr iter_pos] in Hf.
    change (shr_1 {| shr_m := 2 ^ prec; shr_r := false; shr_s := false |})
      with {| shr_m := 2 ^ (prec - 1); shr_r := false; shr_s := false |}
      in Hf.
    cbn [shr_m] in Hf.
    change (2 ^ (prec - 1)) with (Zpos 4503599627370496) in Hf.
    destruct (Z.leb_spec (0 + Zpos k + 1) (emax - prec)) as [Hle|Hgt].
    + exists 4503599627370496%positive, (Zpos k + 1). subst f.
      split; [f_equal; lia|split; [lia|right; split; reflexivity]].
    + subst f. discriminate.
Qed.

(** An integer whose float has its value is one that fits. *)
Lemma py_float_of_int_exact_inv (z : Z) (f : float) :
  py_float_of_int z = Ok f -> float_eq_Z f z = true ->
  exact_in_float z = true.
Proof.
  intros Hf He.
  assert (Hfin : is_finite f = true).
  { destruct f; try reflexivity; discriminate. }
  assert (Hfz : float_of_Z z = f).
  { unfold py_float_of_int in Hf.
    destruct (float_of_Z z); try discriminate; congruence. }
  destruct (Z.le_gt_cases (Zdigits2 z) prec) as [Hle|Hgt].
  { unfold exact_in_float. apply orb_true_iff. left.
    apply Z.leb_le, Hle. }
  assert (Hmain : forall s p,
             prec < Zpos (digits2_pos p) ->
             binary_round prec emax s p 0 = f ->
             float_eq_Z f (cond_Zopp s (Zpos p)) = true ->
             Zpos (digits2_pos p) <= emax
             /\ Zpos p mod 2 ^ (Zpos (digits2_pos p) - prec) = 0).
  { intros s p Hd Hr Hv.
    destruct (Zpos (digits2_pos p) - prec) as [|k|k] eqn:Hk; try lia.
    destruct (binary_round_large s p k f (eq_sym Hk) Hr Hfin)
      as (m & e & -> & Hemax & Hme).
    pose proof (digits2_pos_bounds p) as [Plo Phi].
    assert (Hpk : 0 < 2 ^ Zpos k) by (apply Z.pow_pos_nonneg; lia).
    cbn [float_eq_Z] in Hv.
    assert (He0 : 0 <= e) by lia.
    destruct (Z.leb_spec 0 e); [|lia].
    apply Z.eqb_eq in Hv.
    assert (Hp : Zpos p = Zpos m * 2 ^ e)
      by (destruct s; unfold cond_Zopp in Hv; lia).
    destruct Hme as [[-> Hm]|[-> Hm]].
    - split; [unfold prec, emax in *; lia|].
      rewrite Hp. apply Z.mod_mul. lia.
    - exfalso. rewrite Hm in Hp.
      rewrite <- Z.pow_add_r in Hp by (unfold prec; lia).
      replace (prec - 1 + (Zpos k + 1)) with (Zpos (digits2_pos p))
        in Hp by lia.
      lia. }
  unfold exact_in_float. apply orb_true_iff. right.
  destruct z as [|p|p].
  - cbn [Zdigits2] in Hgt. unfold prec in Hgt. lia.
  - destruct (Hmain false p Hgt Hfz He) as [H1 H2].
    cbn [Zdigits2 Z.abs]. apply andb_true_iff.
    split; [apply Z.leb_le, H1|apply Z.eqb_eq, H2].
  - destruct (Hmain true p Hgt Hfz He) as [H1 H2].
    cbn [Zdigits2 Z.abs]. apply andb_true_iff.
    split; [apply Z.leb_le, H1|apply Z.eqb_eq, H2].
Qed.

Lemma py_int_round0_float (f : float) :
  is_binary64 f = true -> is_finite f = true ->
  py_int (py_round0 (NFloat f)) = Ok (nearest_even_of_float f).
Proof.
  intros Hv Hfin. destruct f as [s|s| |s m e]; try discriminate.
  - reflexivity.
  - cbn [py_round0 py_int nearest_even_of_float]. unfold float_round0.
    destruct (Z.leb_spec 0 e) as [He|He].
    + cbn [int_of_float]. destruct (Z.leb_spec 0 e); [reflexivity|lia].
    + pose proof (is_binary64_mantissa s m e Hv) as Hm.
      assert (Hb : 2 <= 2 ^ (- e)).
      { change 2 with (2 ^ 1) at 1. apply Z.pow_le_mono_r; lia. }
      pose proof (round_half_even_range (Zpos m) (2 ^ (- e))
                    ltac:(lia) ltac:(lia)) as [Hlo Hhi].
      assert (Hdiv : Zpos m / 2 ^ (- e) < 2 ^ prec - 1).
      { apply Z.div_lt_upper_bound; [lia|].
        assert (2 <= 2 ^ prec) by (unfold prec; lia).
        nia. }
      destruct (round_half_even (Zpos m) (2 ^ (- e))) as [|q|q] eqn:Hq.
      * destruct s; reflexivity.
      * destruct (int_of_binary_round s q) as (Hi & _);
          [apply (small_int_exact (Zpos q)); cbn [Z.abs]; lia|].
        rewrite <- Hi. destruct s; reflexivity.
      * lia.
Qed.

(** * The constructors *)

Lemma check_number_num (n : num) : check_number (VNum n) = Ok n.
Proof. destruct n; reflexivity. Qed.

Lemma check_number_not_number (v : pyval) :
  not_number v -> check_number v = Raise RuntimeError.
Proof. destruct v; simpl; [contradiction|reflexivity..]. Qed.

Lemma init2_both_forms (a b : num) :
  both_forms2 (VNum a) (VNum b)
    (Point2D._set_types (VNum a) (VNum b)).
Proof. split; reflexivity. Qed.

Lemma init3_both_forms (a b c : num) :
  both_forms3 (VNum a) (VNum b) (VNum c)
    (Point3D._set_types (VNum a) (VNum b) (VNum c)).
Proof. split; reflexivity. Qed.

Lemma py_float_promoted (c : num) :
  fits_float c -> exists f, py_float c = Ok f /\ promoted c f.
Proof.
  destruct c as [z|b|f]; simpl; intros H.
  - destruct (py_float_of_int_exact z H) as (f & Hf & He & _).
    exists f. split; assumption.
  - destruct b; eexists; split; reflexivity.
  - exists f. split; reflexivity.
Qed.

Lemma py_float_raises (c : num) (e : exn) :
  py_float c = Raise e -> e = OverflowError.
Proof.
  assert (H : forall z, py_float_of_int z = Raise e -> e = OverflowError).
  { intros z. unfold py_float_of_int.
    destruct (float_of_Z z); intros [=]; congruence. }
  destruct c as [z|b|f]; simpl; [apply H|apply H|discriminate].
Qed.

Lemma check_number_raises (v : pyval) (e : exn) :
  check_number v = Raise e -> e = RuntimeError.
Proof.
  destruct v as [n| | |]; [rewrite check_number_num|simpl..];
    intros [=]; congruence.
Qed.

(** Case analysis on a check or a conversion: the failing case is left with
    the exception it raises. *)
Ltac case_check v :=
  let n := fresh "n" in
  let e := fresh "e" in
  let H := fresh "H" in
  destruct (check_number v) as [n|e] eqn:H;
  [|rewrite (check_number_raises v e H)].

Ltac case_float c :=
  let f := fresh "f" in
  let e := fresh "e" in
  let H := fresh "H" in
  destruct (py_float c) as [f|e] eqn:H;
  [|rewrite (py_float_raises c e H)].

(** The invariant of the data model: a constructed point has dtype "int"
    and integer components, or dtype "float" and float components. *)
Lemma set_types2_invariant (a b : pyval) (p : Point2D.t) :
  Point2D._set_types a b = Ok p ->
  (Point2D.dtype p = "int"
   /\ isinstance_int (Point2D.x p) && isinstance_int (Point2D.y p) = true)
  \/ (Point2D.dtype p = "float"
      /\ isinstance_float (Point2D.x p) && isinstance_float (Point2D.y p)
         = true).
Proof.
  unfold Point2D._set_types.
  destruct (check_number a) as [na|]; [|discriminate].
  destruct (check_number b) as [nb|]; [|discriminate].
  cbn [bind].
  destruct (isinstance_int na && isinstance_int nb) eqn:Hi.
  - intros [= <-]. left. split; [reflexivity|exact Hi].
  - destruct (py_float na); [|discriminate].
    destruct (py_float nb); [|discriminate].
    intros [= <-]. right. split; reflexivity.
Qed.

Lemma init2_invariant (a1 a2 : pyval) (p : Point2D.t) :
  Point2D.__init__ a1 a2 = Ok p ->
  (Point2D.dtype p = "int"
   /\ isinstance_int (Point2D.x p) && isinstance_int (Point2D.y p) = true)
  \/ (Point2D.dtype p = "float"
      /\ isinstance_float (Point2D.x p) && isinstance_float (Point2D.y p)
         = true).
Proof.
  unfold Point2D.__init__.
  destruct (is_None a2); [|apply set_types2_invariant].
  destruct (unpack 2 a1) as [l|]; [|discriminate]. cbn [bind].
  destruct l as [|a [|b [|c l]]]; try discriminate.
  apply set_types2_invariant.
Qed.

Lemma set_types3_invariant (a b c : pyval) (p : Point3D.t) :
  Point3D._set_types a b c = Ok p ->
  (Point3D.dtype p = "int"
   /\ isinstance_int (Point3D.x p) && isinstance_int (Point3D.y p)
      && isinstance_int (Point3D.z p) = true)
  \/ (Point3D.dtype p = "float"
      /\ isinstance_float (Point3D.x p) && isinstance_float (Point3D.y p)
         && isinstance_float (Point3D.z p) = true).
Proof.
  unfold Point3D._set_types.
  destruct (check_number a) as [na|]; [|discriminate].
  destruct (check_number b) as [nb|]; [|discriminate].
  destruct (check_number c) as [nc|]; [|discriminate].
  cbn [bind].
  destruct (isinstance_int na && isinstance_int nb && isinstance_int nc)
    eqn:Hi.
  - intros [= <-]. left. split; [reflexivity|exact Hi].
  - destruct (py_float na); [|discriminate].
    destruct (py_float nb); [|discriminate].
    destruct (py_float nc); [|discriminate].
    intros [= <-]. right. split; reflexivity.
Qed.

Lemma init3_invariant (a1 a2 a3 : pyval) (p : Point3D.t) :
  Point3D.__init__ a1 a2 a3 = Ok p ->
  (Point3D.dtype p = "int"
   /\ isinstance_int (Point3D.x p) && isinstance_int (Point3D.y p)
      && isinstance_int (Point3D.z p) = true)
  \/ (Point3D.dtype p = "float"
      /\ isinstance_float (Point3D.x p) && isinstance_float (Point3D.y p)
         && isinstance_float (Point3D.z p) = true).
Proof.
  unfold Point3D.__init__.
  destruct (negb (is_None a2) && negb (is_None a3));
    [apply set_types3_invariant|].
  destruct (unpack 3 a1) as [l|]; [|discriminate]. cbn [bind].
  destruct l as [|a [|b [|c [|d l]]]]; try discriminate.
  apply set_types3_invariant.
Qed.

(** [C1] (amended): when every component is an [int], both constructor
    forms give a point of dtype "int" that stores the components as given;
    when a component is a [float] and every integer one is exactly
    representable as a float, both forms give a point of dtype "float"
    whose components are floats of the same values. An integer of absolute
    value at most [2^53] is exactly representable, and an integer stored
    next to a float with its value kept is exactly representable. *)
Theorem type_unification :
  (forall a b : num,
      isinstance_int a = true -> isinstance_int b = true ->
      both_forms2 (VNum a) (VNum b) (Ok (Point2D.Point a b "int")))
  /\ (forall a b : num,
      isinstance_float a || isinstance_float b = true ->
      fits_float a -> fits_float b ->
      exists fa fb,
        both_forms2 (VNum a) (VNum b) (Ok (F2 fa fb))
        /\ promoted a fa /\ promoted b fb)
  /\ (forall a b c : num,
      isinstance_int a = true -> isinstance_int b = true ->
      isinstance_int c = true ->
      both_forms3 (VNum a) (VNum b) (VNum c)
        (Ok (Point3D.Point a b c "int")))
  /\ (forall a b c : num,
      isinstance_float a || isinstance_float b || isinstance_float c = true ->
      fits_float a -> fits_float b -> fits_float c ->
      exists fa fb fc,
        both_forms3 (VNum a) (VNum b) (VNum c) (Ok (F3 fa fb fc))
        /\ promoted a fa /\ promoted b fb /\ promoted c fc)
  /\ (forall z : Z, Z.abs z <= 2 ^ prec -> fits_float (NInt z))
  /\ (forall (z : Z) (g fa fb : float),
      Point2D.__init__ (VInt z) (VFloat g) = Ok (F2 fa fb) ->
      promoted (NInt z) fa -> fits_float (NInt z)).
Proof.
  split; [|split; [|split; [|split; [|split; [exact small_int_exact|]]]]];
    cycle 4.
  { intros z g fa fb Hi Hp.
    unfold Point2D.__init__, Point2D._set_types in Hi.
    cbn [is_None VFloat VInt check_number isinstance_int isinstance_float
         orb andb bind py_float] in Hi.
    destruct (py_float_of_int z) as [f|] eqn:Hf; [|discriminate].
    cbn [bind] in Hi. injection Hi as -> _.
    exact (py_float_of_int_exact_inv z fa Hf Hp). }
  - intros a b Ha Hb.
    destruct a, b; try discriminate; split; reflexivity.
  - intros a b Hf Fa Fb.
    destruct (py_float_promoted a Fa) as (fa & Ha & Pa).
    destruct (py_float_promoted b Fb) as (fb & Hb & Pb).
    exists fa, fb. split; [|split; assumption].
    replace (Ok (F2 fa fb))
      with (Point2D._set_types (VNum a) (VNum b));
      [apply init2_both_forms|].
    unfold Point2D._set_types. rewrite !check_number_num. cbn [bind].
    replace (isinstance_int a && isinstance_int b) with false
      by (destruct a, b; try discriminate; reflexivity).
    rewrite Ha, Hb. reflexivity.
  - intros a b c Ha Hb Hc.
    destruct a, b, c; try discriminate; split; reflexivity.
  - intros a b c Hf Fa Fb Fc.
    destruct (py_float_promoted a Fa) as (fa & Ha & Pa).
    destruct (py_float_promoted b Fb) as (fb & Hb & Pb).
    destruct (py_float_promoted c Fc) as (fc & Hc & Pc).
    exists fa, fb, fc. split; [|repeat split; assumption].
    replace (Ok (F3 fa fb fc))
      with (Point3D._set_types (VNum a) (VNum b) (VNum c));
      [apply init3_both_forms|].
    unfold Point3D._set_types. rewrite !check_number_num. cbn [bind].
    replace (isinstance_int a && isinstance_int b && isinstance_int c)
      with false
      by (destruct a, b, c; try discriminate; reflexivity).
    rewrite Ha, Hb, Hc. reflexivity.
Qed.

Lemma type_unification_witness :
  exists fa fb fc,
    both_forms3 (VInt 1) (VFloat (literal 2 1)) (VInt 3) (Ok (F3 fa fb fc))
    /\ promoted (NInt 1) fa /\ promoted (NFloat (literal 2 1)) fb
    /\ promoted (NInt 3) fc.
Proof.
  apply (proj1 (proj2 (proj2 (proj2 type_unification)))
           (NInt 1) (NFloat (literal 2 1)) (NInt 3)).
  - reflexivity.
  - reflexivity.
  - exact I.
  - reflexivity.
Defined.

(** [C1] as stated fails: next to a float, the integer [2^53 + 1] is stored
    as the float [2^53], and an integer beyond the largest float makes the
    construction raise. *)
Lemma large_int_not_promoted_exactly :
  Point2D.__init__ (VInt (two53 + 1)) (VFloat half)
  = Ok (F2 (float_of_Z two53) half)
  /\ float_eq_Z (float_of_Z two53) (two53 + 1) = false
  /\ exact_in_float (two53 + 1) = false
  /\ Point2D.__init__ (VInt (10 ^ 400)) (VFloat half) = Raise OverflowError.
Proof. repeat split; vm_compute; reflexivity. Qed.

(** [C2] (amended): a component that is neither an [int] nor a [float]
    (a [bool] is an [int]) makes the construction raise [RuntimeError], in
    the sequence form and, when no later argument is [None], in the
    separate-argument form. *)
Theorem non_numeric_rejected :
  (forall a b : pyval,
      b <> VNone -> not_number a \/ not_number b ->
      Point2D.__init__ a b = Raise RuntimeError)
  /\ (forall a b : pyval,
      not_number a \/ not_number b ->
      Point2D.__init__ (VSeq [a; b]) VNone = Raise RuntimeError)
  /\ (forall a b c : pyval,
      b <> VNone -> c <> VNone ->
      not_number a \/ not_number b \/ not_number c ->
      Point3D.__init__ a b c = Raise RuntimeError)
  /\ (forall a b c : pyval,
      not_number a \/ not_number b \/ not_number c ->
      Point3D.__init__ (VSeq [a; b; c]) VNone VNone = Raise RuntimeError).
Proof.
  assert (S2 : forall a b, not_number a \/ not_number b ->
                 Point2D._set_types a b = Raise RuntimeError).
  { intros a b H. unfold Point2D._set_types.
    case_check a; [|reflexivity].
    case_check b; [|reflexivity].
    destruct H as [H|H]; apply check_number_not_number in H; congruence. }
  assert (S3 : forall a b c, not_number a \/ not_number b \/ not_number c ->
                 Point3D._set_types a b c = Raise RuntimeError).
  { intros a b c H. unfold Point3D._set_types.
    case_check a; [|reflexivity].
    case_check b; [|reflexivity].
    case_check c; [|reflexivity].
    destruct H as [H|[H|H]];
      apply check_number_not_number in H; congruence. }
  split; [|split; [|split]].
  - intros a b Hb H. unfold Point2D.__init__.
    destruct b; try (now apply S2). contradiction.
  - intros a b H. apply S2, H.
  - intros a b c Hb Hc H. unfold Point3D.__init__.
    destruct b; try contradiction; destruct c; try contradiction;
      now apply S3.
  - intros a b c H. apply S3, H.
Qed.

Lemma non_numeric_rejected_witness :
  Point3D.__init__ (VStr "1") (VFloat (literal 2 1)) (VInt 3)
  = Raise RuntimeError.
Proof.
  apply (proj1 (proj2 (proj2 non_numeric_rejected))).
  - discriminate.
  - discriminate.
  - left. exact I.
Defined.

(** [C2] as stated fails: a boolean component is accepted as an [int], and
    [None] in the place of the last argument selects the sequence form,
    which raises [TypeError] on a number. *)
Lemma bool_component_accepted :
  Point2D.__init__ (VBool true) (VInt 2)
  = Ok (Point2D.Point (NBool true) (NInt 2) "int")
  /\ Point3D.__init__ (VBool true) (VBool false) (VFloat half)
     = Ok (F3 one (S754_zero false) half)
  /\ Point2D.__init__ (VBool true) (VInt 2) <> Raise RuntimeError
  /\ Point2D.__init__ (VInt 1) VNone = Raise TypeError.
Proof. repeat split. discriminate. Qed.

(** [C5]: [Point3D] called with a number first and [None] for [a2] or [a3]
    (an argument left out takes that default) raises [TypeError]; the
    sequence form, on a list, a tuple or a string, never raises it. *)
Theorem missing_component :
  (forall (n : num) (a2 a3 : pyval),
      a2 = VNone \/ a3 = VNone ->
      Point3D.__init__ (VNum n) a2 a3 = Raise TypeError)
  /\ (forall l : list pyval,
      Point3D.__init__ (VSeq l) VNone VNone <> Raise TypeError)
  /\ (forall s : string,
      Point3D.__init__ (VStr s) VNone VNone <> Raise TypeError).
Proof.
  assert (S3 : forall a b c,
                 Point3D._set_types a b c <> Raise TypeError).
  { intros a b c. unfold Point3D._set_types.
    case_check a; [|discriminate].
    case_check b; [|discriminate].
    case_check c; [|discriminate].
    cbn [bind].
    destruct (isinstance_int _ && isinstance_int _ && isinstance_int _);
      [discriminate|].
    case_float n; [|discriminate].
    case_float n0; [|discriminate].
    case_float n1; discriminate. }
  split; [|split].
  - intros n a2 a3 [->| ->]; unfold Point3D.__init__.
    + reflexivity.
    + destruct a2; reflexivity.
  - intros l. unfold Point3D.__init__. cbn [is_None negb andb unpack].
    destruct (Nat.eqb (List.length l) 3); [|discriminate].
    destruct l as [|a [|b [|c [|d l]]]]; try discriminate.
    apply S3.
  - intros s. unfold Point3D.__init__. cbn [is_None negb andb unpack].
    destruct (Nat.eqb (String.length s) 3); [|discriminate].
    cbn [bind].
    destruct (chars s) as [|a [|b [|c [|d l]]]]; try discriminate.
    apply S3.
Qed.

Lemma missing_component_witness :
  Point3D.__init__ (VInt 1) (VInt 2) VNone = Raise TypeError.
Proof.
  apply (proj1 missing_component (NInt 1) (VInt 2) VNone).
  right. reflexivity.
Defined.

(** * Indexed access *)

(** [C7]: index 0 is [x], index 1 is [y], index 2 is [z] on a [Point3D];
    every other integer index raises [IndexError]. *)
Theorem indexed_access :
  (forall p : Point2D.t,
      Point2D.__getitem__ p (VInt 0) = Ok (Point2D.x p)
      /\ Point2D.__getitem__ p (VInt 1) = Ok (Point2D.y p))
  /\ (forall (p : Point2D.t) (k : Z),
      k <> 0 -> k <> 1 -> Point2D.__getitem__ p (VInt k) = Raise IndexError)
  /\ (forall p : Point3D.t,
      Point3D.__getitem__ p (VInt 0) = Ok (Point3D.x p)
      /\ Point3D.__getitem__ p (VInt 1) = Ok (Point3D.y p)
      /\ Point3D.__getitem__ p (VInt 2) = Ok (Point3D.z p))
  /\ (forall (p : Point3D.t) (k : Z),
      k <> 0 -> k <> 1 -> k <> 2 ->
      Point3D.__getitem__ p (VInt k) = Raise IndexError)
  /\ Point3D.__getitem__ (P3 2 3 4) (VInt 3) = Raise IndexError.
Proof.
  split; [|split; [|split; [|split]]];
    [intros p; repeat split| |intros p; repeat split| |reflexivity].
  - intros p k H0 H1. unfold Point2D.__getitem__, key_eqb, VInt, num_eqb.
    destruct (Z.eqb_spec k 0); [contradiction|].
    destruct (Z.eqb_spec k 1); [contradiction|]. reflexivity.
  - intros p k H0 H1 H2.
    unfold Point3D.__getitem__, key_eqb, VInt, num_eqb.
    destruct (Z.eqb_spec k 0); [contradiction|].
    destruct (Z.eqb_spec k 1); [contradiction|].
    destruct (Z.eqb_spec k 2); [contradiction|]. reflexivity.
Qed.

Lemma indexed_access_witness :
  Point2D.__getitem__ (P2 2 3) (VInt (-1)) = Raise IndexError
  /\ Point2D.__getitem__ (P2 2 3) (VInt 2) = Raise IndexError.
Proof.
  split; apply (proj1 (proj2 indexed_access)); lia.
Defined.

(** * Division by zero *)

(** [C9]: dividing a point by a zero scalar ([0], [0.0], [-0.0], [False])
    raises [ZeroDivisionError]. *)
Theorem division_by_zero :
  (forall (p : Point2D.t) (s : num),
      is_zero_num s = true ->
      Point2D.__truediv__ p s = Raise ZeroDivisionError)
  /\ (forall (p : Point3D.t) (s : num),
      is_zero_num s = true ->
      Point3D.__truediv__ p s = Raise ZeroDivisionError).
Proof.
  assert (H : forall s, is_zero_num s = true ->
                exists d, py_float s = Ok d /\ is_zero d = true).
  { intros [z|b|f]; simpl; intros Hs.
    - apply Z.eqb_eq in Hs. subst z. eexists. split; reflexivity.
    - destruct b; [discriminate|]. eexists. split; reflexivity.
    - exists f. split; [reflexivity|assumption]. }
  split; intros p s Hs; destruct (H s Hs) as (d & Hd & Hz).
  - unfold Point2D.__truediv__, Point2D.__div__, truediv_float.
    rewrite Hd. cbn [bind]. rewrite Hz. reflexivity.
  - unfold Point3D.__truediv__, Point3D.__div__, truediv_float.
    rewrite Hd. cbn [bind]. rewrite Hz. reflexivity.
Qed.

Lemma division_by_zero_witness :
  Point2D.__truediv__ (P2 3 0) (NInt 0) = Raise ZeroDivisionError
  /\ Point3D.__truediv__ (F3 half half half) (NFloat (S754_zero false))
     = Raise ZeroDivisionError.
Proof.
  split.
  - apply (proj1 division_by_zero). reflexivity.
  - apply (proj2 division_by_zero). reflexivity.
Defined.

(** [C10]: the unit vector of a point whose components are all zero raises
    [ZeroDivisionError]. *)
Theorem unit_vector_of_zero :
  (forall p : Point2D.t,
      is_zero_num (Point2D.x p) && is_zero_num (Point2D.y p) = true ->
      Point2D.unit_vector p = Raise ZeroDivisionError)
  /\ (forall p : Point3D.t,
      is_zero_num (Point3D.x p) && is_zero_num (Point3D.y p)
      && is_zero_num (Point3D.z p) = true ->
      Point3D.unit_vector p = Raise ZeroDivisionError).
Proof.
  assert (Z0 : forall c, is_zero_num c = true ->
                 c = NInt 0 \/ c = NBool false
                 \/ exists s, c = NFloat (S754_zero s)).
  { intros [z|b|f]; simpl; intros H.
    - apply Z.eqb_eq in H. subst. auto.
    - destruct b; [discriminate|auto].
    - destruct f; try discriminate. right. right. eexists. reflexivity. }
  split.
  - intros [cx cy d]. cbn [Point2D.x Point2D.y]. intros H.
    apply andb_prop in H. destruct H as [Hx Hy].
    destruct (Z0 cx Hx) as [->|[->|[sx ->]]];
      destruct (Z0 cy Hy) as [->|[->|[sy ->]]];
      try destruct sx; try destruct sy; reflexivity.
  - intros [cx cy cz d]. cbn [Point3D.x Point3D.y Point3D.z]. intros H.
    apply andb_prop in H. destruct H as [H Hz].
    apply andb_prop in H. destruct H as [Hx Hy].
    destruct (Z0 cx Hx) as [->|[->|[sx ->]]];
      destruct (Z0 cy Hy) as [->|[->|[sy ->]]];
      destruct (Z0 cz Hz) as [->|[->|[sz ->]]];
      try destruct sx; try destruct sy; try destruct sz; reflexivity.
Qed.

Lemma unit_vector_of_zero_witness :
  Point2D.unit_vector (P2 0 0) = Raise ZeroDivisionError
  /\ Point3D.unit_vector (F3 (S754_zero false) (S754_zero true)
                            (S754_zero false))
     = Raise ZeroDivisionError.
Proof.
  split.
  - apply (proj1 unit_vector_of_zero). reflexivity.
  - apply (proj2 unit_vector_of_zero). reflexivity.
Defined.

(** * Scalar division *)

Lemma num_mul_float (c : num) (fc r : float) :
  py_float c = Ok fc -> num_mul c (NFloat r) = Ok (NFloat (fmul fc r)).
Proof.
  intros H. unfold num_mul, num_arith.
  destruct c; cbn [int_value py_float]; cbn [py_float] in H;
    rewrite H; reflexivity.
Qed.

Lemma reciprocal (s : num) (d : float) :
  py_float s = Ok d -> is_zero d = false ->
  (d' <- py_float s ;; truediv_float (NInt 1) d') = Ok (fdiv one d).
Proof.
  intros Hs Hz. rewrite Hs. cbn [bind]. unfold truediv_float.
  change (py_float (NInt 1)) with (Ok one). cbn [bind].
  rewrite Hz. reflexivity.
Qed.

(** [C3] (amended): when the components of [p] and the scalar [s] convert
    to floats and [s] is not zero, [p / s] is the point of dtype "float"
    whose components are those of [p] multiplied by the float [1.0 / s]:
    [3 / 2] gives [1.5], and an exact quotient is still a float. *)
Theorem scalar_division :
  (forall (p : Point2D.t) (s : num) (fx fy d : float),
      py_float (Point2D.x p) = Ok fx -> py_float (Point2D.y p) = Ok fy ->
      py_float s = Ok d -> is_zero d = false ->
      Point2D.__truediv__ p s
      = Ok (F2 (fmul fx (fdiv one d)) (fmul fy (fdiv one d))))
  /\ (forall (p : Point3D.t) (s : num) (fx fy fz d : float),
      py_float (Point3D.x p) = Ok fx -> py_float (Point3D.y p) = Ok fy ->
      py_float (Point3D.z p) = Ok fz ->
      py_float s = Ok d -> is_zero d = false ->
      Point3D.__truediv__ p s
      = Ok (F3 (fmul fx (fdiv one d)) (fmul fy (fdiv one d))
              (fmul fz (fdiv one d))))
  /\ Point2D.__truediv__ (P2 3 0) (NInt 2)
     = Ok (F2 (literal 15 10) (S754_zero false))
  /\ Point2D.__truediv__ (P2 4 2) (NInt 2)
     = Ok (F2 (float_of_Z 2) (float_of_Z 1))
  /\ Point3D.__truediv__ (P3 2 3 4) (NInt 3)
     = Ok (F3 (literal 2 3) (literal 3 3) (literal 4 3)).
Proof.
  split; [|split; [|repeat split]].
  - intros p s fx fy d Hx Hy Hs Hz.
    unfold Point2D.__truediv__, Point2D.__div__.
    pose proof (reciprocal s d Hs Hz) as Hr. rewrite Hs in Hr |- *.
    cbn [bind] in Hr |- *. rewrite Hr. cbn [bind].
    unfold Point2D.__mul__.
    rewrite (num_mul_float _ fx _ Hx), (num_mul_float _ fy _ Hy).
    reflexivity.
  - intros p s fx fy fz d Hx Hy Hzc Hs Hz.
    unfold Point3D.__truediv__, Point3D.__div__.
    pose proof (reciprocal s d Hs Hz) as Hr. rewrite Hs in Hr |- *.
    cbn [bind] in Hr |- *. rewrite Hr. cbn [bind].
    unfold Point3D.__mul__.
    rewrite (num_mul_float _ fx _ Hx), (num_mul_float _ fy _ Hy),
      (num_mul_float _ fz _ Hzc).
    reflexivity.
Qed.

Lemma scalar_division_witness :
  Point2D.__truediv__ (P2 49 7) (NFloat (literal 7 1))
  = Ok (F2 (fmul (float_of_Z 49) (fdiv one (literal 7 1)))
          (fmul (float_of_Z 7) (fdiv one (literal 7 1)))).
Proof.
  apply (proj1 scalar_division (P2 49 7) (NFloat (literal 7 1)));
    reflexivity.
Defined.

(** [C3] as stated fails: [49 / 49] computed by the code is the float just
    below [1.0], which one true division does not give, and a component
    beyond the largest float makes the division raise. *)
Lemma division_multiplies_by_reciprocal :
  Point2D.__truediv__ (P2 49 0) (NInt 49)
  = Ok (F2 (S754_finite false 9007199254740991 (-53)) (S754_zero false))
  /\ true_quotient (NInt 49) (NInt 49) = Ok one
  /\ SFeqb (S754_finite false 9007199254740991 (-53)) one = false
  /\ Point2D.__truediv__ (P2 (10 ^ 400) 0) (NInt 2) = Raise OverflowError.
Proof. repeat split; vm_compute; reflexivity. Qed.

(** * Conversion to "int" *)

Lemma nearest_even_round_half_even (s : bool) (m : positive) (b : Z) :
  0 < b ->
  nearest_even (cond_Zopp s (Zpos m)) b
    (cond_Zopp s (round_half_even (Zpos m) b)).
Proof.
  intros Hb.
  destruct (round_half_even_nearest (Zpos m) b Hb) as [Hn He].
  unfold nearest_even. destruct s; cbn [cond_Zopp].
  - replace (- round_half_even (Zpos m) b * b - - Zpos m)
      with (- (round_half_even (Zpos m) b * b - Zpos m)) by ring.
    rewrite Z.abs_opp, Z.even_opp. split; assumption.
  - split; assumption.
Qed.

Lemma py_int_round0_rounds (c : num) :
  finite_component c ->
  exists n, py_int (py_round0 c) = Ok n /\ rounds_to c n.
Proof.
  destruct c as [z|b|f]; intros H.
  - exists z. split; reflexivity.
  - exists (Z.b2z b). split; reflexivity.
  - destruct H as [Hv Hfin].
    exists (nearest_even_of_float f).
    split; [apply py_int_round0_float; assumption|].
    destruct f as [s|s| |s m e]; try discriminate.
    + reflexivity.
    + cbn [rounds_to nearest_even_of_float].
      destruct (Z.leb_spec 0 e) as [He|He]; [reflexivity|].
      apply nearest_even_round_half_even.
      apply Z.pow_pos_nonneg; lia.
Qed.

(** [C4] (amended): for a point whose float components are finite,
    [astype("int")] returns the point of dtype "int" whose components are
    those of the point rounded to the nearest integer, ties to even; on
    [Point3D(5.9, 8.2, 9.5)] it gives [Point3D(6, 8, 10)]. *)
Theorem astype_int_rounds :
  (forall p : Point2D.t,
      finite_component (Point2D.x p) -> finite_component (Point2D.y p) ->
      exists a b,
        Point2D.astype p "int" = Ok (P2 a b)
        /\ rounds_to (Point2D.x p) a /\ rounds_to (Point2D.y p) b)
  /\ (forall p : Point3D.t,
      finite_component (Point3D.x p) -> finite_component (Point3D.y p) ->
      finite_component (Point3D.z p) ->
      exists a b c,
        Point3D.astype p "int" = Ok (P3 a b c)
        /\ rounds_to (Point3D.x p) a /\ rounds_to (Point3D.y p) b
        /\ rounds_to (Point3D.z p) c)
  /\ (Point3D.__init__ (VFloat (literal 59 10)) (VFloat (literal 82 10))
        (VFloat (literal 95 10))
      = Ok (F3 (literal 59 10) (literal 82 10) (literal 95 10))
      /\ Point3D.astype (F3 (literal 59 10) (literal 82 10) (literal 95 10))
           "int" = Ok (P3 6 8 10)
      /\ Point3D.__init__ (VInt 6) (VInt 8) (VInt 10) = Ok (P3 6 8 10)
      /\ Point3D.__eq__ (P3 6 8 10) (P3 6 8 10) = true).
Proof.
  split; [|split].
  - intros p Hx Hy.
    destruct (py_int_round0_rounds _ Hx) as (a & Ha & Ra).
    destruct (py_int_round0_rounds _ Hy) as (b & Hb & Rb).
    exists a, b. split; [|split; assumption].
    unfold Point2D.astype. cbn [String.eqb Ascii.eqb Bool.eqb].
    rewrite Ha, Hb. reflexivity.
  - intros p Hx Hy Hz.
    destruct (py_int_round0_rounds _ Hx) as (a & Ha & Ra).
    destruct (py_int_round0_rounds _ Hy) as (b & Hb & Rb).
    destruct (py_int_round0_rounds _ Hz) as (c & Hc & Rc).
    exists a, b, c. split; [|repeat split; assumption].
    unfold Point3D.astype. cbn [String.eqb Ascii.eqb Bool.eqb].
    rewrite Ha, Hb, Hc. reflexivity.
  - repeat split; vm_compute; reflexivity.
Qed.

Lemma astype_int_rounds_witness :
  exists a b,
    Point2D.astype (F2 (literal 85 10) (literal (-15) 10)) "int"
    = Ok (P2 a b)
    /\ rounds_to (NFloat (literal 85 10)) a
    /\ rounds_to (NFloat (literal (-15) 10)) b.
Proof.
  apply (proj1 astype_int_rounds
           (F2 (literal 85 10) (literal (-15) 10)));
    split; reflexivity.
Defined.

(** [C4] as stated fails: a point with an infinite or a NaN component is
    constructed, and its conversion to "int" raises. *)
Lemma astype_int_of_infinity_raises :
  Point2D.__init__ (VFloat pos_inf) (VFloat (S754_zero false))
  = Ok (F2 pos_inf (S754_zero false))
  /\ Point2D.astype (F2 pos_inf (S754_zero false)) "int"
     = Raise OverflowError
  /\ Point2D.astype (F2 S754_nan (S754_zero false)) "int"
     = Raise ValueError.
Proof. repeat split. Qed.

(** * The round trip through "float" *)

Lemma int_round_trip (c : num) :
  isinstance_int c = true -> fits_float c ->
  exists f n,
    py_float c = Ok f
    /\ py_int (py_round0 (NFloat f)) = Ok n
    /\ py_int (py_round0 c) = Ok n.
Proof.
  destruct c as [z|b|f]; intros Hi Hf; [| |discriminate].
  - destruct (py_float_of_int_exact z Hf) as (f & H1 & _ & H2).
    exists f, z. repeat split; assumption.
  - destruct b; eexists; eexists; repeat split.
Qed.

(** [C8] (amended): for a point whose components are integers that a
    float holds exactly (every integer of absolute value at most [2^53] is
    one), casting to "float" and then to "int" gives the point that casting
    to "int" gives. *)
Theorem cast_round_trip :
  (forall p : Point2D.t,
      isinstance_int (Point2D.x p) = true ->
      isinstance_int (Point2D.y p) = true ->
      fits_float (Point2D.x p) -> fits_float (Point2D.y p) ->
      exists f q,
        Point2D.astype p "float" = Ok f
        /\ Point2D.astype f "int" = Ok q
        /\ Point2D.astype p "int" = Ok q
        /\ Point2D.__eq__ q q = true)
  /\ (forall p : Point3D.t,
      isinstance_int (Point3D.x p) = true ->
      isinstance_int (Point3D.y p) = true ->
      isinstance_int (Point3D.z p) = true ->
      fits_float (Point3D.x p) -> fits_float (Point3D.y p) ->
      fits_float (Point3D.z p) ->
      exists f q,
        Point3D.astype p "float" = Ok f
        /\ Point3D.astype f "int" = Ok q
        /\ Point3D.astype p "int" = Ok q
        /\ Point3D.__eq__ q q = true).
Proof.
  split.
  - intros p Ix Iy Fx Fy.
    destruct (int_round_trip _ Ix Fx) as (fx & a & Hx1 & Hx2 & Hx3).
    destruct (int_round_trip _ Iy Fy) as (fy & b & Hy1 & Hy2 & Hy3).
    exists (F2 fx fy), (P2 a b).
    unfold Point2D.astype. cbn [String.eqb Ascii.eqb Bool.eqb].
    rewrite Hx1, Hy1, Hx3, Hy3. cbn [bind F2 Point2D.x Point2D.y].
    rewrite Hx2, Hy2.
    repeat split.
    unfold Point2D.__eq__, P2. cbn. rewrite !Z.eqb_refl. reflexivity.
  - intros p Ix Iy Iz Fx Fy Fz.
    destruct (int_round_trip _ Ix Fx) as (fx & a & Hx1 & Hx2 & Hx3).
    destruct (int_round_trip _ Iy Fy) as (fy & b & Hy1 & Hy2 & Hy3).
    destruct (int_round_trip _ Iz Fz) as (fz & c & Hz1 & Hz2 & Hz3).
    exists (F3 fx fy fz), (P3 a b c).
    unfold Point3D.astype. cbn [String.eqb Ascii.eqb Bool.eqb].
    rewrite Hx1, Hy1, Hz1, Hx3, Hy3, Hz3.
    cbn [bind F3 Point3D.x Point3D.y Point3D.z].
    rewrite Hx2, Hy2, Hz2.
    repeat split.
    unfold Point3D.__eq__, P3. cbn. rewrite !Z.eqb_refl. reflexivity.
Qed.

Lemma cast_round_trip_witness :
  exists f q,
    Point3D.astype (P3 5 8 10) "float" = Ok f
    /\ Point3D.astype f "int" = Ok q
    /\ Point3D.astype (P3 5 8 10) "int" = Ok q
    /\ Point3D.__eq__ q q = true.
Proof.
  apply (proj2 cast_round_trip (P3 5 8 10));
    reflexivity.
Defined.

(** [C8] as stated fails: through "float" the integer [2^53 + 1] comes back
    as [2^53]. *)
Lemma round_trip_loses_large_int :
  Point2D.astype (P2 (two53 + 1) 0) "float"
  = Ok (F2 (float_of_Z two53) (S754_zero false))
  /\ Point2D.astype (F2 (float_of_Z two53) (S754_zero false)) "int"
     = Ok (P2 two53 0)
  /\ Point2D.astype (P2 (two53 + 1) 0) "int" = Ok (P2 (two53 + 1) 0)
  /\ Point2D.__eq__ (P2 two53 0) (P2 (two53 + 1) 0) = false.
Proof. repeat split; vm_compute; reflexivity. Qed.

(** * Textual representation *)

Lemma int_of_str_decimal_str (z : Z) : int_of_str (decimal_str z) = Some z.
Proof.
  unfold int_of_str, decimal_str.
  rewrite NilZero.isi.
  - simpl. rewrite DecimalZ.of_to. reflexivity.
  - destruct z; simpl; try discriminate.
    intros [= H]. revert H. apply DecimalPos.Unsigned.to_uint_nonnil.
  - destruct z; simpl; try discriminate.
    intros [= H]. revert H. apply DecimalPos.Unsigned.to_uint_nonnil.
Qed.

(** ** The number of digits of a decimal numeral *)

Lemma usize_revapp (d d' : Decimal.uint) :
  DecimalPos.Unsigned.usize (Decimal.revapp d d')
  = (DecimalPos.Unsigned.usize d + DecimalPos.Unsigned.usize d')%N.
Proof.
  revert d'. induction d; intros d'; cbn [Decimal.revapp];
    try (rewrite IHd); cbn [DecimalPos.Unsigned.usize]; lia.
Qed.

Lemma usize_rev (d : Decimal.uint) :
  DecimalPos.Unsigned.usize (Decimal.rev d) = DecimalPos.Unsigned.usize d.
Proof.
  unfold Decimal.rev. rewrite usize_revapp.
  cbn [DecimalPos.Unsigned.usize]. lia.
Qed.

Lemma of_lu_bound (d : Decimal.uint) :
  (DecimalPos.Unsigned.of_lu d < 10 ^ DecimalPos.Unsigned.usize d)%N.
Proof.
  induction d; cbn [DecimalPos.Unsigned.of_lu DecimalPos.Unsigned.usize];
    try (rewrite N.pow_succ_r'; lia).
  simpl. lia.
Qed.

Lemma usize_length (d : Decimal.uint) :
  DecimalPos.Unsigned.usize d
  = N.of_nat (String.length (NilEmpty.string_of_uint d)).
Proof.
  induction d; cbn [DecimalPos.Unsigned.usize NilEmpty.string_of_uint
                    String.length]; try (rewrite IHd); lia.
Qed.

Lemma to_uint_normal (p : positive) :
  Decimal.unorm (Pos.to_uint p) = Pos.to_uint p.
Proof.
  rewrite <- DecimalPos.Unsigned.to_of, DecimalPos.Unsigned.of_to.
  reflexivity.
Qed.

(** The numeral of a positive number starts with a digit that is not zero. *)
Lemma pos_digits_bounds (p : positive) :
  (10 ^ (N.of_nat (String.length (NilEmpty.string_of_uint (Pos.to_uint p)))
         - 1) <= Npos p
   < 10 ^ N.of_nat (String.length (NilEmpty.string_of_uint (Pos.to_uint p))))%N.
Proof.
  rewrite <- usize_length.
  pose proof (DecimalPos.Unsigned.of_to p) as Hv.
  pose proof (to_uint_normal p) as Hn.
  pose proof (DecimalPos.Unsigned.to_uint_nonzero p) as Hz.
  pose proof (DecimalPos.Unsigned.to_uint_nonnil p) as Hnil.
  destruct (Pos.to_uint p) as [|d|d|d|d|d|d|d|d|d|d] eqn:E;
    [contradiction| |
     cbn [Pos.of_uint] in Hv; injection Hv as Hv;
     apply (f_equal Npos) in Hv;
     rewrite DecimalPos.Unsigned.of_uint_acc_rev in Hv;
     pose proof (of_lu_bound (Decimal.rev d)) as Hb;
     rewrite usize_rev in Hb;
     cbn [DecimalPos.Unsigned.usize];
     rewrite N.pow_succ_r';
     replace (N.succ (DecimalPos.Unsigned.usize d) - 1)%N
       with (DecimalPos.Unsigned.usize d) by lia;
     lia ..].
  exfalso. unfold Decimal.unorm in Hn. cbn [Decimal.nzhead] in Hn.
  pose proof (DecimalFacts.nb_digits_nzhead d) as Hle.
  destruct (Decimal.nzhead d) eqn:En; try discriminate.
  - apply Hz. symmetry. exact Hn.
  - injection Hn as Hn. subst d. cbn [Decimal.nb_digits] in Hle. lia.
Qed.

Lemma num_digits_bounds (z : Z) :
  z <> 0 ->
  10 ^ (Z.of_nat (num_digits z) - 1) <= Z.abs z < 10 ^ Z.of_nat (num_digits z).
Proof.
  intros Hz.
  assert (E : exists p, Z.abs z = Zpos p)
    by (destruct z; [contradiction|eexists; reflexivity ..]).
  destruct E as [p Hp]. unfold num_digits. rewrite Hp.
  unfold decimal_str. cbn [Z.to_int NilZero.string_of_int].
  pose proof (pos_digits_bounds p) as [Hlo Hhi].
  pose proof (DecimalPos.Unsigned.to_uint_nonnil p) as Hnil.
  assert (Es : NilZero.string_of_uint (Pos.to_uint p)
               = NilEmpty.string_of_uint (Pos.to_uint p))
    by (destruct (Pos.to_uint p); [contradiction|reflexivity ..]).
  rewrite Es.
  set (n := String.length (NilEmpty.string_of_uint (Pos.to_uint p))) in *.
  assert (Hn : (1 <= n)%nat).
  { destruct n; [|lia]. simpl in Hhi. lia. }
  split.
  - apply N2Z.inj_le in Hlo. rewrite N2Z.inj_pow, N2Z.inj_sub in Hlo by lia.
    rewrite nat_N_Z in Hlo. exact Hlo.
  - apply N2Z.inj_lt in Hhi. rewrite N2Z.inj_pow in Hhi.
    rewrite nat_N_Z in Hhi. exact Hhi.
Qed.

Lemma num_digits_le (z : Z) (n : nat) :
  (1 <= n)%nat ->
  ((num_digits z <= n)%nat <-> Z.abs z < 10 ^ Z.of_nat n).
Proof.
  intros Hn. destruct (Z.eq_dec z 0) as [->|Hz].
  - split; intros _.
    + apply Z.pow_pos_nonneg; lia.
    + exact Hn.
  - pose proof (num_digits_bounds z Hz) as [Hlo Hhi]. split; intros H.
    + apply Z.lt_le_trans with (1 := Hhi).
      apply Z.pow_le_mono_r; lia.
    + assert (Hlt : 10 ^ (Z.of_nat (num_digits z) - 1) < 10 ^ Z.of_nat n)
        by lia.
      apply Z.pow_lt_mono_r_iff in Hlt; lia.
Qed.

Lemma str_fits_iff (z : Z) : str_fits (NInt z) <-> Z.abs z < 10 ^ 4300.
Proof.
  unfold str_fits.
  rewrite num_digits_le by (apply Nat.leb_le; reflexivity).
  change (Z.of_nat int_max_str_digits) with 4300. reflexivity.
Qed.

(** ** [str] of an integer *)

Lemma py_str_int_fits (z : Z) :
  (num_digits z <= int_max_str_digits)%nat ->
  py_str_int z = Ok (decimal_str z).
Proof.
  intros H. unfold py_str_int.
  apply Nat.leb_le in H. rewrite H. reflexivity.
Qed.

Lemma py_str_int_too_long (z : Z) :
  ~ (num_digits z <= int_max_str_digits)%nat ->
  py_str_int z = Raise ValueError.
Proof.
  intros H. unfold py_str_int.
  destruct (Nat.leb_spec (num_digits z) int_max_str_digits) as [Hle|Hlt].
  - contradiction.
  - reflexivity.
Qed.

Lemma str_fits_dec (c : num) : str_fits c \/ ~ str_fits c.
Proof.
  destruct c as [z|b|f]; simpl; try (left; exact I).
  destruct (Nat.leb_spec (num_digits z) int_max_str_digits) as [Hle|Hlt].
  - left. exact Hle.
  - right. intros H. apply (Nat.lt_irrefl (num_digits z)).
    apply Nat.le_lt_trans with (1 := H). exact Hlt.
Qed.

Lemma hundredths_is_hundredths (m : positive) (e : Z) :
  is_hundredths m e (hundredths m e) /\ 0 <= hundredths m e.
Proof.
  unfold is_hundredths, hundredths.
  destruct (Z.leb_spec 0 e) as [He|He].
  - split; [reflexivity|].
    assert (0 < 2 ^ e) by (apply Z.pow_pos_nonneg; lia). nia.
  - assert (Hb : 0 < 2 ^ (- e)) by (apply Z.pow_pos_nonneg; lia).
    split.
    + apply (round_half_even_nearest (100 * Zpos m) (2 ^ (- e)) Hb).
    + apply round_half_even_range; lia.
Qed.

Lemma fixed2_digits_shape (n : Z) :
  exists d1 d2,
    fixed2_digits n
    = decimal_str (n / 100) ++ "." ++
      String (digit_char d1) (String (digit_char d2) "")
    /\ 0 <= d1 <= 9 /\ 0 <= d2 <= 9
    /\ n = 100 * (n / 100) + 10 * d1 + d2.
Proof.
  exists (n mod 100 / 10), (n mod 10).
  split; [reflexivity|].
  Z.div_mod_to_equations. lia.
Qed.

Section Representation.

Variable float_repr : float -> string.

(** The text of an integer component, or [ValueError]. *)
Lemma py_str_fits (c : num) :
  isinstance_int c = true -> str_fits c ->
  py_str float_repr (ANum c) = Ok (int_text c).
Proof.
  destruct c as [z|b|f]; simpl; intros Hi Hf.
  - apply py_str_int_fits. exact Hf.
  - reflexivity.
  - discriminate.
Qed.

Lemma py_str_too_long (c : num) :
  ~ str_fits c -> py_str float_repr (ANum c) = Raise ValueError.
Proof.
  destruct c as [z|b|f]; simpl; intros Hn.
  - apply py_str_int_too_long. exact Hn.
  - exfalso. apply Hn. exact I.
  - exfalso. apply Hn. exact I.
Qed.

Lemma py_str_total (c : num) :
  (exists s, py_str float_repr (ANum c) = Ok s)
  \/ py_str float_repr (ANum c) = Raise ValueError.
Proof.
  destruct c as [z|b|f]; simpl.
  - unfold py_str_int.
    destruct (num_digits z <=? int_max_str_digits)%nat;
      [left; eexists; reflexivity | right; reflexivity].
  - left. eexists. reflexivity.
  - left. eexists. reflexivity.
Qed.

(** [repr] of a point of dtype "int" converts the components to text from
    left to right and stops at the first that fails. *)
Lemma repr2_int (cx cy : num) :
  Point2D.__repr__ float_repr (Point2D.Point cx cy "int")
  = (sx <- py_str float_repr (ANum cx) ;;
     sy <- py_str float_repr (ANum cy) ;;
     Ok ("<Point2D(x=" ++ sx ++ ", y=" ++ sy ++ ", dtype=int)>")).
Proof.
  unfold Point2D.__repr__, format.
  cbn -[py_str].
  destruct (py_str float_repr (ANum cx)) as [sx|ex]; [|reflexivity].
  cbn -[py_str].
  destruct (py_str float_repr (ANum cy)) as [sy|ey]; reflexivity.
Qed.

Lemma repr3_int (cx cy cz : num) :
  Point3D.__repr__ float_repr (Point3D.Point cx cy cz "int")
  = (sx <- py_str float_repr (ANum cx) ;;
     sy <- py_str float_repr (ANum cy) ;;
     sz <- py_str float_repr (ANum cz) ;;
     Ok ("<Point3D(x=" ++ sx ++ ", y=" ++ sy ++ ", z=" ++ sz
         ++ ", dtype=int)>")).
Proof.
  unfold Point3D.__repr__, format.
  cbn -[py_str].
  destruct (py_str float_repr (ANum cx)) as [sx|ex]; [|reflexivity].
  cbn -[py_str].
  destruct (py_str float_repr (ANum cy)) as [sy|ey]; [|reflexivity].
  cbn -[py_str].
  destruct (py_str float_repr (ANum cz)) as [sz|ez]; reflexivity.
Qed.

(** [C6] (amended): a point of dtype "int" whose components are integers
    of at most 4300 decimal digits prints as [<Point2D(x=X, y=Y,
    dtype=int)>], or [<Point3D(x=X, y=Y, z=Z, dtype=int)>], where an [int]
    is written as its decimal numeral, from which it can be read back, and
    a [bool] as [True] or [False]; when an [int] component has more digits,
    which is when its absolute value is [10 ^ 4300] or more, [repr] raises
    [ValueError]. A point of dtype "float" prints each component with
    [format_2f], in the same layout after the class name, and [format_2f]
    prints a finite non-zero float as its sign, the integer part and
    exactly two decimals of its value rounded to the nearest hundredth,
    ties to even. *)
Theorem repr_layout :
  (forall cx cy : num,
      isinstance_int cx = true -> isinstance_int cy = true ->
      str_fits cx -> str_fits cy ->
      Point2D.__repr__ float_repr (Point2D.Point cx cy "int")
      = Ok ("<Point2D(x=" ++ int_text cx ++ ", y=" ++ int_text cy
            ++ ", dtype=int)>"))
  /\ (forall cx cy cz : num,
      isinstance_int cx = true -> isinstance_int cy = true ->
      isinstance_int cz = true ->
      str_fits cx -> str_fits cy -> str_fits cz ->
      Point3D.__repr__ float_repr (Point3D.Point cx cy cz "int")
      = Ok ("<Point3D(x=" ++ int_text cx ++ ", y=" ++ int_text cy
            ++ ", z=" ++ int_text cz ++ ", dtype=int)>"))
  /\ (forall z : Z,
      int_text (NInt z) = decimal_str z
      /\ int_of_str (decimal_str z) = Some z)
  /\ (int_text (NBool true) = "True" /\ int_text (NBool false) = "False")
  /\ (forall cx cy : num,
      ~ str_fits cx \/ ~ str_fits cy ->
      Point2D.__repr__ float_repr (Point2D.Point cx cy "int")
      = Raise ValueError)
  /\ (forall cx cy cz : num,
      ~ str_fits cx \/ ~ str_fits cy \/ ~ str_fits cz ->
      Point3D.__repr__ float_repr (Point3D.Point cx cy cz "int")
      = Raise ValueError)
  /\ (forall z : Z, str_fits (NInt z) <-> Z.abs z < 10 ^ 4300)
  /\ (forall fx fy : float,
      Point2D.__repr__ float_repr (F2 fx fy)
      = Ok ("<Point2D(x=" ++ format_2f fx ++ ", y=" ++ format_2f fy
            ++ ", dtype=float)>"))
  /\ (forall fx fy fz : float,
      exists name : string,
        Point3D.__repr__ float_repr (F3 fx fy fz)
        = Ok ("<" ++ name ++ "(x=" ++ format_2f fx ++ ", y=" ++ format_2f fy
              ++ ", z=" ++ format_2f fz ++ ", dtype=float)>"))
  /\ (forall s : bool, format_2f (S754_zero s) = sign_str s ++ "0.00")
  /\ (forall (s : bool) (m : positive) (e : Z),
      exists n d1 d2 : Z,
        format_2f (S754_finite s m e)
        = sign_str s ++ decimal_str (n / 100) ++ "." ++
          String (digit_char d1) (String (digit_char d2) "")
        /\ 0 <= d1 <= 9 /\ 0 <= d2 <= 9
        /\ n = 100 * (n / 100) + 10 * d1 + d2
        /\ 0 <= n /\ is_hundredths m e n).
Proof.
  split; [|split; [|split; [|split; [|split; [|split; [|split;
    [|split; [|split; [|split]]]]]]]]].
  - intros cx cy Hx Hy Fx Fy.
    rewrite repr2_int, (py_str_fits cx Hx Fx), (py_str_fits cy Hy Fy).
    reflexivity.
  - intros cx cy cz Hx Hy Hz Fx Fy Fz.
    rewrite repr3_int, (py_str_fits cx Hx Fx), (py_str_fits cy Hy Fy),
      (py_str_fits cz Hz Fz).
    reflexivity.
  - intros z. split; [reflexivity|apply int_of_str_decimal_str].
  - split; reflexivity.
  - intros cx cy H. rewrite repr2_int.
    destruct (str_fits_dec cx) as [Fx|Nx].
    + destruct H as [Nx|Ny]; [contradiction|].
      rewrite (py_str_too_long cy Ny).
      destruct (py_str_total cx) as [[sx ->]| ->]; reflexivity.
    + rewrite (py_str_too_long cx Nx). reflexivity.
  - intros cx cy cz H. rewrite repr3_int.
    destruct (str_fits_dec cx) as [Fx|Nx];
      [|rewrite (py_str_too_long cx Nx); reflexivity].
    destruct (py_str_total cx) as [[sx ->]| ->]; [|reflexivity].
    destruct (str_fits_dec cy) as [Fy|Ny];
      [|rewrite (py_str_too_long cy Ny); reflexivity].
    destruct (py_str_total cy) as [[sy ->]| ->]; [|reflexivity].
    destruct H as [Nx|[Ny|Nz]]; try contradiction.
    rewrite (py_str_too_long cz Nz). reflexivity.
  - exact str_fits_iff.
  - intros fx fy. reflexivity.
  - intros fx fy fz. exists "Point2D". reflexivity.
  - intros s. reflexivity.
  - intros s m e.
    destruct (fixed2_digits_shape (hundredths m e)) as (d1 & d2 & Hs & H).
    destruct (hundredths_is_hundredths m e) as [Hh H0].
    exists (hundredths m e), d1, d2.
    split; [|tauto].
    unfold format_2f. rewrite Hs. reflexivity.
Qed.

End Representation.

Lemma repr_layout_witness :
  Point2D.__repr__ (fun _ => EmptyString)
    (Point2D.Point (NInt (-4)) (NBool true) "int")
  = Ok "<Point2D(x=-4, y=True, dtype=int)>".
Proof.
  apply (proj1 (repr_layout (fun _ => EmptyString))
           (NInt (-4)) (NBool true)).
  - reflexivity.
  - reflexivity.
  - apply Nat.leb_le. reflexivity.
  - exact I.
Defined.

(** [C6] as stated fails: [0.125] lies halfway between [0.12] and [0.13]
    and prints as [0.12], where rounding half away from zero gives
    [0.13]. *)
Lemma two_decimals_tie_goes_to_even :
  (forall float_repr : float -> string,
      Point2D.__repr__ float_repr (F2 (literal 125 1000) (S754_zero false))
      = Ok "<Point2D(x=0.12, y=0.00, dtype=float)>")
  /\ format_2f (literal 125 1000) = "0.12"
  /\ format_2f_half_away (literal 125 1000) = "0.13"
  /\ format_2f (literal 125 1000) <> format_2f_half_away (literal 125 1000)
  /\ format_2f (literal 375 1000) = format_2f_half_away (literal 375 1000).
Proof. repeat split; vm_compute; try reflexivity. discriminate. Qed.

(** * Further properties of the constructors *)

(** [X1]: the sequence form raises [ValueError] on a list or tuple of
    another length than the arity; a string is unpacked into its characters
    and never read as a number: it raises [RuntimeError] when its length is
    the arity and [ValueError] otherwise; [Point2D] of a number or of
    [None] alone raises [TypeError]. *)
Theorem sequence_form_errors :
  (forall l : list pyval,
      List.length l <> 2%nat ->
      Point2D.__init__ (VSeq l) VNone = Raise ValueError)
  /\ (forall l : list pyval,
      List.length l <> 3%nat ->
      Point3D.__init__ (VSeq l) VNone VNone = Raise ValueError)
  /\ (forall s : string,
      Point2D.__init__ (VStr s) VNone
      = if Nat.eqb (String.length s) 2 then Raise RuntimeError
        else Raise ValueError)
  /\ (forall s : string,
      Point3D.__init__ (VStr s) VNone VNone
      = if Nat.eqb (String.length s) 3 then Raise RuntimeError
        else Raise ValueError)
  /\ (forall n : num, Point2D.__init__ (VNum n) VNone = Raise TypeError)
  /\ Point2D.__init__ VNone VNone = Raise TypeError.
Proof.
  split; [|split; [|split; [|split; [|split]]]].
  - intros l Hl. unfold Point2D.__init__. cbn [is_None unpack].
    destruct (Nat.eqb_spec (List.length l) 2); [contradiction|reflexivity].
  - intros l Hl. unfold Point3D.__init__. cbn [is_None negb andb unpack].
    destruct (Nat.eqb_spec (List.length l) 3); [contradiction|reflexivity].
  - intros s. destruct s as [|c1 [|c2 [|c3 s]]]; reflexivity.
  - intros s. destruct s as [|c1 [|c2 [|c3 [|c4 s]]]]; reflexivity.
  - intros n. reflexivity.
  - reflexivity.
Qed.

Lemma sequence_form_errors_witness :
  Point2D.__init__ (VSeq [VInt 1; VInt 2; VInt 3]) VNone = Raise ValueError
  /\ Point3D.__init__ (VSeq [VInt 1; VInt 2]) VNone VNone
     = Raise ValueError.
Proof.
  split.
  - apply (proj1 sequence_form_errors). discriminate.
  - apply (proj1 (proj2 sequence_form_errors)). discriminate.
Defined.

(** [X2]: [Point3D] reads its first argument as a sequence as soon as [a2]
    or [a3] is [None], and then ignores the other one: [Point3D(s, a2)] is
    [Point3D(s)]. [Point2D] given a list and a second argument takes the
    list for a coordinate and raises [RuntimeError]. *)
Theorem point3d_ignores_lone_argument :
  (forall a1 a2 : pyval,
      Point3D.__init__ a1 a2 VNone = Point3D.__init__ a1 VNone VNone)
  /\ (forall a1 a3 : pyval,
      Point3D.__init__ a1 VNone a3 = Point3D.__init__ a1 VNone VNone)
  /\ (forall (a b c : Z) (a2 : pyval),
      Point3D.__init__ (VSeq [VInt a; VInt b; VInt c]) a2 VNone
      = Ok (P3 a b c))
  /\ (forall (l : list pyval) (a2 : pyval),
      a2 <> VNone -> Point2D.__init__ (VSeq l) a2 = Raise RuntimeError).
Proof.
  split; [|split; [|split]].
  - intros a1 a2. unfold Point3D.__init__. destruct a2; reflexivity.
  - intros a1 a3. reflexivity.
  - intros a b c a2. unfold Point3D.__init__. destruct a2; reflexivity.
  - intros l a2 H. unfold Point2D.__init__.
    destruct a2; try contradiction; reflexivity.
Qed.

Lemma point3d_ignores_lone_argument_witness :
  Point2D.__init__ (VSeq [VInt 1; VInt 2]) (VInt 5) = Raise RuntimeError.
Proof.
  apply (proj2 (proj2 (proj2 point3d_ignores_lone_argument))).
  discriminate.
Defined.

(** * The invariant through the operations *)

Lemma bind_ok {A B : Type} (r : result A) (k : A -> result B) (v : B) :
  (x <- r ;; k x) = Ok v -> exists a, r = Ok a /\ k a = Ok v.
Proof.
  destruct r as [a|e]; cbn [bind]; [|discriminate].
  intros H. exists a. split; [reflexivity|exact H].
Qed.

(** Peels the binds of a computation known to return. *)
Ltac peel H :=
  repeat
    match type of H with
    | bind _ _ = Ok _ =>
        let a := fresh "v" in
        let E := fresh "E" in
        apply bind_ok in H; destruct H as (a & E & H)
    end.

Lemma init2_consistent (a1 a2 : pyval) (p : Point2D.t) :
  Point2D.__init__ a1 a2 = Ok p -> consistent2 p.
Proof. exact (init2_invariant a1 a2 p). Qed.

Lemma init3_consistent (a1 a2 a3 : pyval) (p : Point3D.t) :
  Point3D.__init__ a1 a2 a3 = Ok p -> consistent3 p.
Proof. exact (init3_invariant a1 a2 a3 p). Qed.

(** [X3]: whatever the operands, a point returned by a constructor, by
    [+], [-], [*], [/], by [unit_vector] or by [astype] has dtype "int" and
    integer components or dtype "float" and float components. *)
Theorem results_keep_invariant :
  (forall (p q r : Point2D.t),
      Point2D.__add__ p q = Ok r \/ Point2D.__sub__ p q = Ok r ->
      consistent2 r)
  /\ (forall (p r : Point2D.t) (s : num),
      Point2D.__mul__ p s = Ok r \/ Point2D.__truediv__ p s = Ok r ->
      consistent2 r)
  /\ (forall (p r : Point2D.t) (d : string),
      Point2D.unit_vector p = Ok r \/ Point2D.astype p d = Ok r ->
      consistent2 r)
  /\ (forall (p q r : Point3D.t),
      Point3D.__add__ p q = Ok r \/ Point3D.__sub__ p q = Ok r ->
      consistent3 r)
  /\ (forall (p r : Point3D.t) (s : num),
      Point3D.__mul__ p s = Ok r \/ Point3D.__truediv__ p s = Ok r ->
      consistent3 r)
  /\ (forall (p r : Point3D.t) (d : string),
      Point3D.unit_vector p = Ok r \/ Point3D.astype p d = Ok r ->
      consistent3 r).
Proof.
  assert (M2 : forall p s r, Point2D.__mul__ p s = Ok r -> consistent2 r).
  { intros p s r H. unfold Point2D.__mul__ in H. peel H.
    exact (init2_consistent _ _ _ H). }
  assert (M3 : forall p s r, Point3D.__mul__ p s = Ok r -> consistent3 r).
  { intros p s r H. unfold Point3D.__mul__ in H. peel H.
    exact (init3_consistent _ _ _ _ H). }
  split; [|split; [|split; [|split; [|split]]]].
  - intros p q r [H|H];
      [unfold Point2D.__add__ in H|unfold Point2D.__sub__ in H];
      peel H; exact (init2_consistent _ _ _ H).
  - intros p r s [H|H]; [exact (M2 _ _ _ H)|].
    unfold Point2D.__truediv__, Point2D.__div__ in H. peel H.
    exact (M2 _ _ _ H).
  - intros p r d [H|H].
    + unfold Point2D.unit_vector in H. peel H.
      exact (init2_consistent _ _ _ H).
    + unfold Point2D.astype in H.
      destruct (String.eqb d "int");
        [|destruct (String.eqb d "float"); [|discriminate]];
        peel H; exact (init2_consistent _ _ _ H).
  - intros p q r [H|H];
      [unfold Point3D.__add__ in H|unfold Point3D.__sub__ in H];
      peel H; exact (init3_consistent _ _ _ _ H).
  - intros p r s [H|H]; [exact (M3 _ _ _ H)|].
    unfold Point3D.__truediv__, Point3D.__div__ in H. peel H.
    exact (M3 _ _ _ H).
  - intros p r d [H|H].
    + unfold Point3D.unit_vector in H. peel H.
      exact (init3_consistent _ _ _ _ H).
    + unfold Point3D.astype in H.
      destruct (String.eqb d "int");
        [|destruct (String.eqb d "float"); [|discriminate]];
        peel H; exact (init3_consistent _ _ _ _ H).
Qed.

Lemma results_keep_invariant_witness :
  consistent2 (F2 (literal 15 10) (S754_zero false)).
Proof.
  apply (proj1 (proj2 results_keep_invariant) (P2 3 0) _ (NInt 2)).
  right. vm_compute. reflexivity.
Defined.

(** * Arithmetic on integer points *)

(** [X4]: on points of integer components [+], [-] and [*] by an integer
    are exact and give integer points; subtracting what was added gives the
    first point back, and [*] distributes over [+]. *)
Theorem int_arithmetic_laws :
  (forall a b c d k : Z,
      Point2D.__add__ (P2 a b) (P2 c d) = Ok (P2 (a + c) (b + d))
      /\ Point2D.__sub__ (P2 a b) (P2 c d) = Ok (P2 (a - c) (b - d))
      /\ Point2D.__mul__ (P2 a b) (NInt k) = Ok (P2 (a * k) (b * k))
      /\ (s <- Point2D.__add__ (P2 a b) (P2 c d) ;;
          Point2D.__sub__ s (P2 c d)) = Ok (P2 a b)
      /\ (s <- Point2D.__add__ (P2 a b) (P2 c d) ;;
          Point2D.__mul__ s (NInt k))
         = (u <- Point2D.__mul__ (P2 a b) (NInt k) ;;
            v <- Point2D.__mul__ (P2 c d) (NInt k) ;;
            Point2D.__add__ u v))
  /\ (forall a b c a' b' c' k : Z,
      Point3D.__add__ (P3 a b c) (P3 a' b' c')
      = Ok (P3 (a + a') (b + b') (c + c'))
      /\ Point3D.__sub__ (P3 a b c) (P3 a' b' c')
         = Ok (P3 (a - a') (b - b') (c - c'))
      /\ Point3D.__mul__ (P3 a b c) (NInt k)
         = Ok (P3 (a * k) (b * k) (c * k))
      /\ (s <- Point3D.__add__ (P3 a b c) (P3 a' b' c') ;;
          Point3D.__sub__ s (P3 a' b' c')) = Ok (P3 a b c)
      /\ (s <- Point3D.__add__ (P3 a b c) (P3 a' b' c') ;;
          Point3D.__mul__ s (NInt k))
         = (u <- Point3D.__mul__ (P3 a b c) (NInt k) ;;
            v <- Point3D.__mul__ (P3 a' b' c') (NInt k) ;;
            Point3D.__add__ u v)).
Proof.
  split.
  - intros a b c d k.
    assert (A : forall a b c d,
               Point2D.__add__ (P2 a b) (P2 c d) = Ok (P2 (a + c) (b + d)))
      by reflexivity.
    assert (S : forall a b c d,
               Point2D.__sub__ (P2 a b) (P2 c d) = Ok (P2 (a - c) (b - d)))
      by reflexivity.
    assert (M : forall a b k,
               Point2D.__mul__ (P2 a b) (NInt k) = Ok (P2 (a * k) (b * k)))
      by reflexivity.
    repeat split; try reflexivity.
    + rewrite A. cbn [bind]. rewrite S. do 2 f_equal; lia.
    + rewrite A, !M. cbn [bind]. rewrite M, A. do 2 f_equal; lia.
  - intros a b c a' b' c' k.
    assert (A : forall a b c a' b' c',
               Point3D.__add__ (P3 a b c) (P3 a' b' c')
               = Ok (P3 (a + a') (b + b') (c + c')))
      by reflexivity.
    assert (S : forall a b c a' b' c',
               Point3D.__sub__ (P3 a b c) (P3 a' b' c')
               = Ok (P3 (a - a') (b - b') (c - c')))
      by reflexivity.
    assert (M : forall a b c k,
               Point3D.__mul__ (P3 a b c) (NInt k)
               = Ok (P3 (a * k) (b * k) (c * k)))
      by reflexivity.
    repeat split; try reflexivity.
    + rewrite A. cbn [bind]. rewrite S. do 2 f_equal; lia.
    + rewrite A, !M. cbn [bind]. rewrite M, A. do 2 f_equal; lia.
Qed.

(** * Addition *)

Lemma fadd_comm (f g : float) : fadd f g = fadd g f.
Proof.
  unfold fadd.
  destruct f as [s|s| |s m e], g as [s'|s'| |s' m' e'];
    try reflexivity;
    try (destruct s, s'; reflexivity).
  cbn [SFadd]. rewrite (Z.min_comm e' e).
  rewrite (Z.add_comm (cond_Zopp s' _)). reflexivity.
Qed.

Lemma num_add_comm (a b : num) : num_add a b = num_add b a.
Proof.
  unfold num_add, num_arith.
  destruct (int_value a) as [z|] eqn:Ia, (int_value b) as [w|] eqn:Ib.
  - rewrite Z.add_comm. reflexivity.
  - case_float a; case_float b; cbn [bind]; try reflexivity.
    rewrite fadd_comm. reflexivity.
  - case_float a; case_float b; cbn [bind]; try reflexivity.
    rewrite fadd_comm. reflexivity.
  - case_float a; case_float b; cbn [bind]; try reflexivity.
    rewrite fadd_comm. reflexivity.
Qed.

(** [X5]: addition of points commutes, the exception raised included. *)
Theorem addition_commutes :
  (forall p q : Point2D.t, Point2D.__add__ p q = Point2D.__add__ q p)
  /\ (forall p q : Point3D.t, Point3D.__add__ p q = Point3D.__add__ q p).
Proof.
  split; intros p q.
  - unfold Point2D.__add__.
    rewrite (num_add_comm (Point2D.x p)), (num_add_comm (Point2D.y p)).
    reflexivity.
  - unfold Point3D.__add__.
    rewrite (num_add_comm (Point3D.x p)), (num_add_comm (Point3D.y p)),
      (num_add_comm (Point3D.z p)).
    reflexivity.
Qed.

(** * The dtype of a sum, a difference and a product *)

Lemma num_arith_class (fz : Z -> Z -> Z) (ff : float -> float -> float)
    (a b v : num) :
  num_arith fz ff a b = Ok v ->
  isinstance_int v = isinstance_int a && isinstance_int b.
Proof.
  unfold num_arith.
  destruct a, b; cbn [int_value]; intros H;
    try (injection H as <-; reflexivity);
    peel H; injection H as <-; reflexivity.
Qed.

Lemma set_types2_dtype (u v : num) (r : Point2D.t) :
  Point2D.__init__ (VNum u) (VNum v) = Ok r ->
  Point2D.dtype r
  = if isinstance_int u && isinstance_int v then "int" else "float".
Proof.
  unfold Point2D.__init__. cbn [is_None]. unfold Point2D._set_types.
  rewrite !check_number_num. cbn [bind].
  destruct (isinstance_int u && isinstance_int v).
  - intros [= <-]. reflexivity.
  - intros H. peel H. injection H as <-. reflexivity.
Qed.

Lemma set_types3_dtype (u v w : num) (r : Point3D.t) :
  Point3D.__init__ (VNum u) (VNum v) (VNum w) = Ok r ->
  Point3D.dtype r
  = if isinstance_int u && isinstance_int v && isinstance_int w
    then "int" else "float".
Proof.
  unfold Point3D.__init__. cbn [is_None negb andb].
  unfold Point3D._set_types.
  rewrite !check_number_num. cbn [bind].
  destruct (isinstance_int u && isinstance_int v && isinstance_int w).
  - intros [= <-]. reflexivity.
  - intros H. peel H. injection H as <-. reflexivity.
Qed.

Lemma consistent2_int (p : Point2D.t) :
  consistent2 p ->
  isinstance_int (Point2D.x p) = String.eqb (Point2D.dtype p) "int"
  /\ isinstance_int (Point2D.y p) = String.eqb (Point2D.dtype p) "int".
Proof.
  intros [[-> H]|[-> H]]; apply andb_prop in H; destruct H as [Hx Hy].
  - rewrite Hx, Hy. split; reflexivity.
  - destruct (Point2D.x p), (Point2D.y p); try discriminate.
    split; reflexivity.
Qed.

Lemma consistent3_int (p : Point3D.t) :
  consistent3 p ->
  isinstance_int (Point3D.x p) = String.eqb (Point3D.dtype p) "int"
  /\ isinstance_int (Point3D.y p) = String.eqb (Point3D.dtype p) "int"
  /\ isinstance_int (Point3D.z p) = String.eqb (Point3D.dtype p) "int".
Proof.
  intros [[-> H]|[-> H]]; apply andb_prop in H; destruct H as [H Hz];
    apply andb_prop in H; destruct H as [Hx Hy].
  - rewrite Hx, Hy, Hz. repeat split; reflexivity.
  - destruct (Point3D.x p), (Point3D.y p), (Point3D.z p);
      try discriminate.
    repeat split; reflexivity.
Qed.

(** [X6]: for operands that keep the invariant, a sum or a difference that
    is returned has dtype "int" when both operands have, and dtype "float"
    otherwise; a product by a scalar has dtype "int" when the point has and
    the scalar is an integer, and dtype "float" otherwise. *)
Theorem arithmetic_dtype_rule :
  (forall p q r : Point2D.t,
      consistent2 p -> consistent2 q ->
      Point2D.__add__ p q = Ok r \/ Point2D.__sub__ p q = Ok r ->
      Point2D.dtype r
      = if String.eqb (Point2D.dtype p) "int"
           && String.eqb (Point2D.dtype q) "int"
        then "int" else "float")
  /\ (forall (p r : Point2D.t) (s : num),
      consistent2 p -> Point2D.__mul__ p s = Ok r ->
      Point2D.dtype r
      = if String.eqb (Point2D.dtype p) "int" && isinstance_int s
        then "int" else "float")
  /\ (forall p q r : Point3D.t,
      consistent3 p -> consistent3 q ->
      Point3D.__add__ p q = Ok r \/ Point3D.__sub__ p q = Ok r ->
      Point3D.dtype r
      = if String.eqb (Point3D.dtype p) "int"
           && String.eqb (Point3D.dtype q) "int"
        then "int" else "float")
  /\ (forall (p r : Point3D.t) (s : num),
      consistent3 p -> Point3D.__mul__ p s = Ok r ->
      Point3D.dtype r
      = if String.eqb (Point3D.dtype p) "int" && isinstance_int s
        then "int" else "float").
Proof.
  split; [|split; [|split]].
  - intros p q r Cp Cq H.
    destruct (consistent2_int p Cp) as [Px Py].
    destruct (consistent2_int q Cq) as [Qx Qy].
    assert (G : forall fz ff,
               (ax <- num_arith fz ff (Point2D.x p) (Point2D.x q) ;;
                ay <- num_arith fz ff (Point2D.y p) (Point2D.y q) ;;
                Point2D.__init__ (VNum ax) (VNum ay)) = Ok r ->
               Point2D.dtype r
               = if String.eqb (Point2D.dtype p) "int"
                    && String.eqb (Point2D.dtype q) "int"
                 then "int" else "float").
    { intros fz ff G. peel G.
      rewrite (set_types2_dtype _ _ _ G).
      rewrite (num_arith_class _ _ _ _ _ E), (num_arith_class _ _ _ _ _ E0).
      rewrite Px, Py, Qx, Qy.
      destruct (String.eqb (Point2D.dtype p) "int"),
        (String.eqb (Point2D.dtype q) "int"); reflexivity. }
    destruct H as [H|H]; [exact (G _ _ H)|exact (G _ _ H)].
  - intros p r s Cp H.
    destruct (consistent2_int p Cp) as [Px Py].
    unfold Point2D.__mul__, num_mul in H. peel H.
    rewrite (set_types2_dtype _ _ _ H).
    rewrite (num_arith_class _ _ _ _ _ E), (num_arith_class _ _ _ _ _ E0).
    rewrite Px, Py.
    destruct (String.eqb (Point2D.dtype p) "int"), (isinstance_int s);
      reflexivity.
  - intros p q r Cp Cq H.
    destruct (consistent3_int p Cp) as (Px & Py & Pz).
    destruct (consistent3_int q Cq) as (Qx & Qy & Qz).
    assert (G : forall fz ff,
               (ax <- num_arith fz ff (Point3D.x p) (Point3D.x q) ;;
                ay <- num_arith fz ff (Point3D.y p) (Point3D.y q) ;;
                az <- num_arith fz ff (Point3D.z p) (Point3D.z q) ;;
                Point3D.__init__ (VNum ax) (VNum ay) (VNum az)) = Ok r ->
               Point3D.dtype r
               = if String.eqb (Point3D.dtype p) "int"
                    && String.eqb (Point3D.dtype q) "int"
                 then "int" else "float").
    { intros fz ff G. peel G.
      rewrite (set_types3_dtype _ _ _ _ G).
      rewrite (num_arith_class _ _ _ _ _ E), (num_arith_class _ _ _ _ _ E0),
        (num_arith_class _ _ _ _ _ E1).
      rewrite Px, Py, Pz, Qx, Qy, Qz.
      destruct (String.eqb (Point3D.dtype p) "int"),
        (String.eqb (Point3D.dtype q) "int"); reflexivity. }
    destruct H as [H|H]; [exact (G _ _ H)|exact (G _ _ H)].
  - intros p r s Cp H.
    destruct (consistent3_int p Cp) as (Px & Py & Pz).
    unfold Point3D.__mul__, num_mul in H. peel H.
    rewrite (set_types3_dtype _ _ _ _ H).
    rewrite (num_arith_class _ _ _ _ _ E), (num_arith_class _ _ _ _ _ E0),
      (num_arith_class _ _ _ _ _ E1).
    rewrite Px, Py, Pz.
    destruct (String.eqb (Point3D.dtype p) "int"), (isinstance_int s);
      reflexivity.
Qed.

Lemma arithmetic_dtype_rule_witness :
  Point3D.dtype (F3 (float_of_Z 4) (float_of_Z 6) (float_of_Z 10))
  = "float".
Proof.
  apply (proj1 (proj2 (proj2 arithmetic_dtype_rule))
           (P3 2 3 5)
           (F3 (float_of_Z 2) (float_of_Z 3) (float_of_Z 5))).
  - left. split; reflexivity.
  - right. split; reflexivity.
  - left. vm_compute. reflexivity.
Defined.

(** [X7]: adding a float point to an integer point, subtracting it, or
    scaling an integer point by a float, is doing so with the integer point
    cast to "float", the exception raised included. *)
Theorem mixed_arithmetic_promotes :
  (forall p q : Point2D.t,
      isinstance_int (Point2D.x p) && isinstance_int (Point2D.y p) = true ->
      isinstance_float (Point2D.x q) && isinstance_float (Point2D.y q)
      = true ->
      Point2D.__add__ p q
      = (p' <- Point2D.astype p "float" ;; Point2D.__add__ p' q)
      /\ Point2D.__sub__ p q
         = (p' <- Point2D.astype p "float" ;; Point2D.__sub__ p' q))
  /\ (forall (p : Point2D.t) (g : float),
      isinstance_int (Point2D.x p) && isinstance_int (Point2D.y p) = true ->
      Point2D.__mul__ p (NFloat g)
      = (p' <- Point2D.astype p "float" ;; Point2D.__mul__ p' (NFloat g)))
  /\ (forall (p : Point3D.t) (g : float),
      isinstance_int (Point3D.x p) && isinstance_int (Point3D.y p)
      && isinstance_int (Point3D.z p) = true ->
      Point3D.__mul__ p (NFloat g)
      = (p' <- Point3D.astype p "float" ;; Point3D.__mul__ p' (NFloat g)))
  /\ (forall p q : Point3D.t,
      isinstance_int (Point3D.x p) && isinstance_int (Point3D.y p)
      && isinstance_int (Point3D.z p) = true ->
      isinstance_float (Point3D.x q) && isinstance_float (Point3D.y q)
      && isinstance_float (Point3D.z q) = true ->
      Point3D.__add__ p q
      = (p' <- Point3D.astype p "float" ;; Point3D.__add__ p' q)
      /\ Point3D.__sub__ p q
         = (p' <- Point3D.astype p "float" ;; Point3D.__sub__ p' q)).
Proof.
  assert (A : forall fz ff (c : num) (g : float),
             isinstance_int c = true ->
             num_arith fz ff c (NFloat g)
             = (fc <- py_float c ;; Ok (NFloat (ff fc g)))).
  { intros fz ff c g Hc. destruct c; try discriminate; reflexivity. }
  split; [|split; [|split]].
  - intros [px py pd] [qx qy qd]. cbn [Point2D.x Point2D.y]. intros Hp Hq.
    apply andb_prop in Hp. destruct Hp as [Hpx Hpy].
    destruct qx as [| |gx]; try discriminate.
    destruct qy as [| |gy]; try discriminate.
    unfold Point2D.__add__, Point2D.__sub__, Point2D.astype,
      num_add, num_sub.
    cbn [Point2D.x Point2D.y String.eqb Ascii.eqb Bool.eqb].
    rewrite !A by assumption.
    case_float px; cbn [bind]; [|split; reflexivity].
    case_float py; cbn [bind]; split; reflexivity.
  - intros [px py pd] g. cbn [Point2D.x Point2D.y]. intros Hp.
    apply andb_prop in Hp. destruct Hp as [Hpx Hpy].
    unfold Point2D.__mul__, Point2D.astype, num_mul.
    cbn [Point2D.x Point2D.y String.eqb Ascii.eqb Bool.eqb].
    rewrite !A by assumption.
    case_float px; cbn [bind]; [|reflexivity].
    case_float py; cbn [bind]; reflexivity.
  - intros [px py pz pd] g. cbn [Point3D.x Point3D.y Point3D.z].
    intros Hp.
    apply andb_prop in Hp. destruct Hp as [Hp Hpz].
    apply andb_prop in Hp. destruct Hp as [Hpx Hpy].
    unfold Point3D.__mul__, Point3D.astype, num_mul.
    cbn [Point3D.x Point3D.y Point3D.z String.eqb Ascii.eqb Bool.eqb].
    rewrite !A by assumption.
    case_float px; cbn [bind]; [|reflexivity].
    case_float py; cbn [bind]; [|reflexivity].
    case_float pz; cbn [bind]; reflexivity.
  - intros [px py pz pd] [qx qy qz qd].
    cbn [Point3D.x Point3D.y Point3D.z]. intros Hp Hq.
    apply andb_prop in Hp. destruct Hp as [Hp Hpz].
    apply andb_prop in Hp. destruct Hp as [Hpx Hpy].
    destruct qx as [| |gx]; try discriminate.
    destruct qy as [| |gy]; try discriminate.
    destruct qz as [| |gz]; try discriminate.
    unfold Point3D.__add__, Point3D.__sub__, Point3D.astype,
      num_add, num_sub.
    cbn [Point3D.x Point3D.y Point3D.z String.eqb Ascii.eqb Bool.eqb].
    rewrite !A by assumption.
    case_float px; cbn [bind]; [|split; reflexivity].
    case_float py; cbn [bind]; [|split; reflexivity].
    case_float pz; cbn [bind]; split; reflexivity.
Qed.

Lemma mixed_arithmetic_promotes_witness :
  Point2D.__add__ (P2 2 3) (F2 half half)
  = (p' <- Point2D.astype (P2 2 3) "float" ;;
     Point2D.__add__ p' (F2 half half)).
Proof.
  apply (proj1 mixed_arithmetic_promotes (P2 2 3) (F2 half half));
    reflexivity.
Defined.

(** * Distance *)

Lemma fsub_self (f : float) :
  is_finite f = true -> fsub f f = S754_zero false.
Proof.
  unfold fsub. destruct f as [s|s| |s m e]; try discriminate; intros _.
  - destruct s; reflexivity.
  - cbn [SFsub]. rewrite Z.min_id. unfold shl_align.
    rewrite Z.sub_diag. reflexivity.
Qed.

Lemma num_sub_self (c : num) :
  finite_num c ->
  num_sub c c = Ok (NInt 0)
  \/ num_sub c c = Ok (NFloat (S754_zero false)).
Proof.
  destruct c as [z|b|f]; intros H.
  - left. unfold num_sub, num_arith. cbn [int_value].
    rewrite Z.sub_diag. reflexivity.
  - left. destruct b; reflexivity.
  - right. unfold num_sub, num_arith. cbn [int_value py_float bind].
    rewrite (fsub_self f H). reflexivity.
Qed.

(** [X8]: for a point whose components are integers or finite floats,
    [p - p] is a point of zero components and the distance from [p] to
    itself is [0.0]. *)
Theorem distance_to_itself :
  (forall p : Point2D.t,
      finite_num (Point2D.x p) -> finite_num (Point2D.y p) ->
      (exists r,
          Point2D.__sub__ p p = Ok r
          /\ is_zero_num (Point2D.x r) && is_zero_num (Point2D.y r) = true)
      /\ Point2D.distance p p = Ok (S754_zero false))
  /\ (forall p : Point3D.t,
      finite_num (Point3D.x p) -> finite_num (Point3D.y p) ->
      finite_num (Point3D.z p) ->
      (exists r,
          Point3D.__sub__ p p = Ok r
          /\ is_zero_num (Point3D.x r) && is_zero_num (Point3D.y r)
             && is_zero_num (Point3D.z r) = true)
      /\ Point3D.distance p p = Ok (S754_zero false)).
Proof.
  split.
  - intros p Hx Hy. unfold Point2D.distance, Point2D.__sub__.
    destruct (num_sub_self _ Hx) as [-> | ->];
      destruct (num_sub_self _ Hy) as [-> | ->];
      (split; [eexists; split; reflexivity|reflexivity]).
  - intros p Hx Hy Hz. unfold Point3D.distance, Point3D.__sub__.
    destruct (num_sub_self _ Hx) as [-> | ->];
      destruct (num_sub_self _ Hy) as [-> | ->];
      destruct (num_sub_self _ Hz) as [-> | ->];
      (split; [eexists; split; reflexivity|reflexivity]).
Qed.

Lemma distance_to_itself_witness :
  (exists r,
      Point2D.__sub__ (F2 half (literal 59 10)) (F2 half (literal 59 10))
      = Ok r
      /\ is_zero_num (Point2D.x r) && is_zero_num (Point2D.y r) = true)
  /\ Point2D.distance (F2 half (literal 59 10)) (F2 half (literal 59 10))
     = Ok (S754_zero false).
Proof.
  apply (proj1 distance_to_itself (F2 half (literal 59 10)));
    reflexivity.
Defined.

Lemma result_rel_bind {A B : Type} (R : A -> A -> Prop)
    (S : B -> B -> Prop) (r r' : result A) (k k' : A -> result B) :
  result_rel R r r' ->
  (forall a a', R a a' -> result_rel S (k a) (k' a')) ->
  result_rel S (bind r k) (bind r' k').
Proof.
  destruct r as [a|e], r' as [a'|e']; cbn [result_rel bind];
    intros H K; try contradiction; [apply K, H|exact H].
Qed.

Lemma result_rel_eq {A : Type} (r r' : result A) :
  result_rel eq r r' -> r = r'.
Proof.
  destruct r, r'; cbn [result_rel]; intros H;
    try contradiction; congruence.
Qed.

Lemma binary_round_opp (s : bool) (m : positive) (e : Z) :
  binary_round prec emax (negb s) m e
  = SFopp (binary_round prec emax s m e).
Proof.
  unfold binary_round.
  destruct (shl_align m e _) as [mz ez].
  unfold binary_round_aux.
  destruct (shr_fexp prec emax (Zpos mz) ez loc_Exact) as [mrs e'].
  destruct (shr_fexp prec emax _ e' loc_Exact) as [mrs' e''].
  destruct (shr_m mrs'); [reflexivity| |reflexivity].
  destruct (e'' <=? emax - prec); reflexivity.
Qed.

Lemma binary_normalize_opp (z e : Z) :
  mirror_float (binary_normalize prec emax z e false)
    (binary_normalize prec emax (- z) e false).
Proof.
  destruct z as [|p|p]; cbn [Z.opp binary_normalize].
  - right. split; reflexivity.
  - left. apply (binary_round_opp false).
  - left. apply (binary_round_opp true).
Qed.

Lemma SFopp_involutive (f : float) : SFopp (SFopp f) = f.
Proof. destruct f; cbn [SFopp]; rewrite ?negb_involutive; reflexivity. Qed.

Lemma mirror_float_sym (u v : float) : mirror_float u v -> mirror_float v u.
Proof.
  intros [->|[-> H]].
  - left. rewrite SFopp_involutive. reflexivity.
  - right. split; [reflexivity|exact H].
Qed.

Lemma fsub_mirror (f g : float) : mirror_float (fsub f g) (fsub g f).
Proof.
  unfold fsub.
  destruct f as [s|s| |s m e], g as [s'|s'| |s' m' e'];
    try (left; reflexivity);
    try (destruct s, s'; (left; reflexivity) || (right; split; reflexivity)).
  cbn [SFsub]. rewrite (Z.min_comm e' e).
    set (A := cond_Zopp s (Zpos (fst (shl_align m e (Z.min e e'))))).
    set (B := cond_Zopp s' (Zpos (fst (shl_align m' e' (Z.min e e'))))).
    replace (B - A) with (- (A - B)) by ring.
    apply binary_normalize_opp.
Qed.

Lemma py_float_of_int_opp (z : Z) :
  result_rel mirror_float (py_float_of_int z) (py_float_of_int (- z)).
Proof.
  unfold py_float_of_int, float_of_Z.
  destruct (binary_normalize_opp z 0) as [->|[<- H]].
  - destruct (binary_normalize prec emax z 0 false);
      cbn [SFopp result_rel]; try reflexivity; left; reflexivity.
  - destruct (binary_normalize prec emax z 0 false); try discriminate.
    right. split; reflexivity.
Qed.

Lemma py_float_mirror (u v : num) :
  mirror_num u v -> result_rel mirror_float (py_float u) (py_float v).
Proof.
  destruct u as [z| |f], v as [w| |g]; cbn [mirror_num]; try contradiction.
  - intros ->. apply py_float_of_int_opp.
  - intros H. exact H.
Qed.

Lemma num_sub_mirror (a b : num) :
  result_rel mirror_num (num_sub a b) (num_sub b a).
Proof.
  assert (F : result_rel mirror_num
                (x <- py_float a ;; y <- py_float b ;; Ok (NFloat (fsub x y)))
                (y <- py_float b ;; x <- py_float a ;;
                 Ok (NFloat (fsub y x)))).
  { case_float a; case_float b; cbn [bind result_rel mirror_num];
      try reflexivity.
    apply fsub_mirror. }
  unfold num_sub, num_arith.
  destruct (int_value a) as [z|], (int_value b) as [w|]; try exact F.
  cbn [result_rel mirror_num]. ring.
Qed.

Lemma fmul_opp_opp (f : float) : fmul (SFopp f) (SFopp f) = fmul f f.
Proof.
  unfold fmul. destruct f as [s|s| |s m e]; cbn [SFopp SFmul];
    try reflexivity; destruct s; reflexivity.
Qed.

Lemma num_pow2_mirror (u v : num) :
  mirror_num u v -> num_pow2 u = num_pow2 v.
Proof.
  destruct u as [z| |f], v as [w| |g]; cbn [mirror_num]; try contradiction.
  - intros ->. unfold num_pow2. cbn [int_value]. do 2 f_equal. ring.
  - intros [->|[-> _]]; [|reflexivity].
    unfold num_pow2. cbn [int_value py_float bind].
    rewrite fmul_opp_opp.
    replace (is_finite (SFopp f)) with (is_finite f)
      by (destruct f; reflexivity).
    reflexivity.
Qed.

Lemma mirror_num_class (u v : num) :
  mirror_num u v -> isinstance_int u = isinstance_int v.
Proof.
  destruct u, v; cbn [mirror_num]; try contradiction; reflexivity.
Qed.

Lemma init2_mirror (u v u' v' : num) :
  mirror_num u u' -> mirror_num v v' ->
  result_rel mirror_point2
    (Point2D.__init__ (VNum u) (VNum v))
    (Point2D.__init__ (VNum u') (VNum v')).
Proof.
  intros Hu Hv. unfold Point2D.__init__. cbn [is_None].
  unfold Point2D._set_types. rewrite !check_number_num. cbn [bind].
  rewrite <- (mirror_num_class _ _ Hu), <- (mirror_num_class _ _ Hv).
  destruct (isinstance_int u && isinstance_int v).
  - split; assumption.
  - apply (result_rel_bind mirror_float); [apply py_float_mirror, Hu|].
    intros fx fx' Hx.
    apply (result_rel_bind mirror_float); [apply py_float_mirror, Hv|].
    intros fy fy' Hy. split; assumption.
Qed.

Lemma init3_mirror (u v w u' v' w' : num) :
  mirror_num u u' -> mirror_num v v' -> mirror_num w w' ->
  result_rel mirror_point3
    (Point3D.__init__ (VNum u) (VNum v) (VNum w))
    (Point3D.__init__ (VNum u') (VNum v') (VNum w')).
Proof.
  intros Hu Hv Hw. unfold Point3D.__init__. cbn [is_None negb andb].
  unfold Point3D._set_types. rewrite !check_number_num. cbn [bind].
  rewrite <- (mirror_num_class _ _ Hu), <- (mirror_num_class _ _ Hv),
    <- (mirror_num_class _ _ Hw).
  destruct (isinstance_int u && isinstance_int v && isinstance_int w).
  - repeat split; assumption.
  - apply (result_rel_bind mirror_float); [apply py_float_mirror, Hu|].
    intros fx fx' Hx.
    apply (result_rel_bind mirror_float); [apply py_float_mirror, Hv|].
    intros fy fy' Hy.
    apply (result_rel_bind mirror_float); [apply py_float_mirror, Hw|].
    intros fz fz' Hz. repeat split; assumption.
Qed.

(** [X9]: the distance is symmetric: [p.distance(q)] and [q.distance(p)]
    return the same float or raise the same exception, for all points. *)
Theorem distance_symmetric :
  (forall p q : Point2D.t, Point2D.distance p q = Point2D.distance q p)
  /\ (forall p q : Point3D.t, Point3D.distance p q = Point3D.distance q p).
Proof.
  split; intros p q; apply result_rel_eq.
  - unfold Point2D.distance.
    apply (result_rel_bind mirror_point2).
    + unfold Point2D.__sub__.
      apply (result_rel_bind mirror_num); [apply num_sub_mirror|].
      intros ax ax' Hx.
      apply (result_rel_bind mirror_num); [apply num_sub_mirror|].
      intros ay ay' Hy. apply init2_mirror; assumption.
    + intros r r' [Hx Hy]. unfold Point2D.magnitude.
      rewrite (num_pow2_mirror _ _ Hx), (num_pow2_mirror _ _ Hy).
      destruct (x2 <- num_pow2 (Point2D.x r') ;; _); reflexivity.
  - unfold Point3D.distance.
    apply (result_rel_bind mirror_point3).
    + unfold Point3D.__sub__.
      apply (result_rel_bind mirror_num); [apply num_sub_mirror|].
      intros ax ax' Hx.
      apply (result_rel_bind mirror_num); [apply num_sub_mirror|].
      intros ay ay' Hy.
      apply (result_rel_bind mirror_num); [apply num_sub_mirror|].
      intros az az' Hz. apply init3_mirror; assumption.
    + intros r r' (Hx & Hy & Hz). unfold Point3D.magnitude.
      rewrite (num_pow2_mirror _ _ Hx), (num_pow2_mirror _ _ Hy),
        (num_pow2_mirror _ _ Hz).
      destruct (x2 <- num_pow2 (Point3D.x r') ;; _); reflexivity.
Qed.

(** * Magnitude *)

Lemma overflow_or_bind {A B : Type} (P : A -> Prop) (Q : B -> Prop)
    (r : result A) (k : A -> result B) :
  overflow_or P r -> (forall a, P a -> overflow_or Q (k a)) ->
  overflow_or Q (bind r k).
Proof.
  destruct r as [a|e]; cbn [overflow_or bind]; intros H K;
    [apply K, H|exact H].
Qed.

Lemma binary_round_aux_sign_clear (mx ex : Z) (lx : location) :
  sign_clear (binary_round_aux prec emax false mx ex lx) = true.
Proof.
  unfold binary_round_aux.
  destruct (shr_fexp prec emax mx ex lx) as [mrs e'].
  destruct (shr_fexp prec emax _ e' loc_Exact) as [mrs' e''].
  destruct (shr_m mrs'); [reflexivity| |reflexivity].
  destruct (e'' <=? emax - prec); reflexivity.
Qed.

Lemma binary_normalize_sign_clear (z e : Z) :
  0 <= z -> sign_clear (binary_normalize prec emax z e false) = true.
Proof.
  intros Hz. destruct z as [|p|p]; [reflexivity| |lia].
  cbn [binary_normalize]. unfold binary_round.
  destruct (shl_align p e _) as [mz ez].
  apply binary_round_aux_sign_clear.
Qed.

Lemma py_float_sign_clear (c : num) :
  nonneg_num c -> overflow_or (fun f => sign_clear f = true) (py_float c).
Proof.
  assert (H : forall z, 0 <= z ->
                overflow_or (fun f => sign_clear f = true)
                  (py_float_of_int z)).
  { intros z Hz. unfold py_float_of_int, float_of_Z.
    pose proof (binary_normalize_sign_clear z 0 Hz) as Hs.
    destruct (binary_normalize prec emax z 0 false);
      cbn [overflow_or]; try exact Hs; reflexivity. }
  destruct c as [z|b|f]; cbn [nonneg_num py_float].
  - apply H.
  - intros _. apply H. destruct b; cbn; lia.
  - intros Hf. exact Hf.
Qed.

Lemma fmul_self_sign_clear (f : float) : sign_clear (fmul f f) = true.
Proof.
  unfold fmul. destruct f as [s|s| |s m e]; cbn [SFmul];
    try reflexivity; try (destruct s; reflexivity).
  replace (xorb s s) with false by (destruct s; reflexivity).
  apply binary_round_aux_sign_clear.
Qed.

Lemma fadd_sign_clear (f g : float) :
  sign_clear f = true -> sign_clear g = true ->
  sign_clear (fadd f g) = true.
Proof.
  unfold fadd.
  destruct f as [s|s| |s m e], g as [s'|s'| |s' m' e'];
    try (destruct s; try discriminate);
    try (destruct s'; try discriminate);
    try reflexivity.
  intros _ _. cbn [SFadd cond_Zopp].
  apply binary_normalize_sign_clear. lia.
Qed.

Lemma fsqrt_sign_clear (f : float) :
  sign_clear f = true -> sign_clear (fsqrt f) = true.
Proof.
  unfold fsqrt.
  destruct f as [s|s| |s m e]; try (destruct s; try discriminate);
    try reflexivity.
  intros _. cbn [SFsqrt].
  destruct (SFsqrt_core_binary prec emax (Zpos m) e) as [[mz ez] lz].
  apply binary_round_aux_sign_clear.
Qed.

Lemma num_pow2_nonneg (c : num) : overflow_or nonneg_num (num_pow2 c).
Proof.
  destruct c as [z|b|f]; unfold num_pow2; cbn [int_value py_float bind].
  - cbn [overflow_or nonneg_num]. nia.
  - cbn [overflow_or nonneg_num]. destruct b; cbn; lia.
  - destruct (is_finite f && negb (is_finite (fmul f f)));
      [reflexivity|apply fmul_self_sign_clear].
Qed.

Lemma num_add_nonneg (a b : num) :
  nonneg_num a -> nonneg_num b -> overflow_or nonneg_num (num_add a b).
Proof.
  intros Ha Hb.
  assert (F : overflow_or nonneg_num
                (x <- py_float a ;; y <- py_float b ;;
                 Ok (NFloat (fadd x y)))).
  { apply (overflow_or_bind (fun f => sign_clear f = true));
      [apply py_float_sign_clear, Ha|].
    intros x Hx.
    apply (overflow_or_bind (fun f => sign_clear f = true));
      [apply py_float_sign_clear, Hb|].
    intros y Hy. apply fadd_sign_clear; assumption. }
  unfold num_add, num_arith.
  destruct a as [z|c|f], b as [w|d|g]; cbn [int_value]; try exact F;
    cbn [overflow_or nonneg_num] in *;
    try destruct c; try destruct d; cbn [Z.b2z]; lia.
Qed.

Lemma math_sqrt_nonneg (v : num) :
  nonneg_num v ->
  overflow_or (fun f => sign_clear f = true) (math_sqrt v).
Proof.
  intros Hv. unfold math_sqrt.
  apply (overflow_or_bind (fun f => sign_clear f = true));
    [apply py_float_sign_clear, Hv|].
  intros x Hx. pose proof (fsqrt_sign_clear x Hx) as Hs.
  destruct x as [s|s| |s m e]; try (destruct s; try discriminate);
    exact Hs.
Qed.

(** [X10]: the magnitude of any point, when it is returned, is a float
    whose sign bit is clear or a NaN, never a negative float and never
    [-0.0]; the only exception [magnitude] raises is [OverflowError], the
    square root never being taken of a negative number. *)
Theorem magnitude_never_negative :
  (forall p : Point2D.t,
      (forall e, Point2D.magnitude p = Raise e -> e = OverflowError)
      /\ (forall m, Point2D.magnitude p = Ok m -> sign_clear m = true))
  /\ (forall p : Point3D.t,
      (forall e, Point3D.magnitude p = Raise e -> e = OverflowError)
      /\ (forall m, Point3D.magnitude p = Ok m -> sign_clear m = true)).
Proof.
  assert (M2 : forall p,
             overflow_or (fun f => sign_clear f = true)
               (Point2D.magnitude p)).
  { intros p. unfold Point2D.magnitude.
    apply (overflow_or_bind nonneg_num); [apply num_pow2_nonneg|].
    intros x2 Hx.
    apply (overflow_or_bind nonneg_num); [apply num_pow2_nonneg|].
    intros y2 Hy.
    apply (overflow_or_bind nonneg_num);
      [apply num_add_nonneg; assumption|].
    intros s Hs. apply math_sqrt_nonneg, Hs. }
  assert (M3 : forall p,
             overflow_or (fun f => sign_clear f = true)
               (Point3D.magnitude p)).
  { intros p. unfold Point3D.magnitude.
    apply (overflow_or_bind nonneg_num); [apply num_pow2_nonneg|].
    intros x2 Hx.
    apply (overflow_or_bind nonneg_num); [apply num_pow2_nonneg|].
    intros y2 Hy.
    apply (overflow_or_bind nonneg_num);
      [apply num_add_nonneg; assumption|].
    intros s Hs.
    apply (overflow_or_bind nonneg_num); [apply num_pow2_nonneg|].
    intros z2 Hz.
    apply (overflow_or_bind nonneg_num);
      [apply num_add_nonneg; assumption|].
    intros s' Hs'. apply math_sqrt_nonneg, Hs'. }
  split; intros p.
  - specialize (M2 p). destruct (Point2D.magnitude p) as [m|e];
      cbn [overflow_or] in M2; split; intros ? [=]; congruence.
  - specialize (M3 p). destruct (Point3D.magnitude p) as [m|e];
      cbn [overflow_or] in M3; split; intros ? [=]; congruence.
Qed.

Lemma magnitude_never_negative_witness :
  sign_clear (float_of_Z 5) = true.
Proof.
  apply (proj2 (proj1 magnitude_never_negative (P2 (-3) 4))).
  vm_compute. reflexivity.
Defined.

(** * Equality *)

Lemma SFcompare_antisym (f g : float) :
  SFcompare g f = option_map CompOpp (SFcompare f g).
Proof.
  destruct f as [s|s| |s m e], g as [s'|s'| |s' m' e'];
    cbn [SFcompare option_map];
    try reflexivity;
    try (destruct s, s'; reflexivity);
    try (destruct s; reflexivity);
    try (destruct s'; reflexivity).
  destruct s, s'; cbn [option_map CompOpp]; try reflexivity;
    rewrite (Z.compare_antisym e e');
    destruct (e ?= e'); cbn [CompOpp]; try reflexivity;
    change (Pos.compare_cont Eq m' m)
      with (Pos.compare_cont (CompOpp Eq) m' m);
    rewrite <- (Pos.compare_cont_antisym m m' Eq);
    rewrite ?CompOpp_involutive; reflexivity.
Qed.

Lemma SFeqb_sym (f g : float) : SFeqb f g = SFeqb g f.
Proof.
  unfold SFeqb. rewrite (SFcompare_antisym f g).
  destruct (SFcompare f g) as [[| |]|]; reflexivity.
Qed.

Lemma SFeqb_refl (f : float) : f <> S754_nan -> SFeqb f f = true.
Proof.
  unfold SFeqb. destruct f as [s|s| |s m e]; cbn [SFcompare];
    intros H; try reflexivity; try (destruct s; reflexivity).
  - contradiction.
  - destruct s; rewrite Z.compare_refl, Pos.compare_cont_refl; reflexivity.
Qed.

Lemma num_eqb_sym (a b : num) : num_eqb a b = num_eqb b a.
Proof.
  destruct a as [z|c|f], b as [w|d|g]; cbn [num_eqb];
    try reflexivity.
  - apply Z.eqb_sym.
  - destruct c, d; reflexivity.
  - apply SFeqb_sym.
Qed.

Lemma num_eqb_refl (c : num) : num_eqb c c = negb (is_nan c).
Proof.
  destruct c as [z|b|f]; cbn [num_eqb is_nan].
  - apply Z.eqb_refl.
  - destruct b; reflexivity.
  - destruct f; try (apply SFeqb_refl; discriminate). reflexivity.
Qed.

(** [X11]: [==] on points is symmetric; it is false between points of
    different dtype, whatever their components; between points of integer
    components it holds exactly when the components are the same
    integers. *)
Theorem equality_symmetric :
  (forall p q : Point2D.t, Point2D.__eq__ p q = Point2D.__eq__ q p)
  /\ (forall p q : Point2D.t,
      Point2D.dtype p <> Point2D.dtype q -> Point2D.__eq__ p q = false)
  /\ (forall a b c d : Z,
      Point2D.__eq__ (P2 a b) (P2 c d) = true <-> P2 a b = P2 c d)
  /\ (forall p q : Point3D.t, Point3D.__eq__ p q = Point3D.__eq__ q p)
  /\ (forall p q : Point3D.t,
      Point3D.dtype p <> Point3D.dtype q -> Point3D.__eq__ p q = false)
  /\ (forall a b c a' b' c' : Z,
      Point3D.__eq__ (P3 a b c) (P3 a' b' c') = true
      <-> P3 a b c = P3 a' b' c').
Proof.
  split; [|split; [|split; [|split; [|split]]]].
  - intros p q. unfold Point2D.__eq__.
    rewrite (String.eqb_sym (Point2D.dtype q)),
      (num_eqb_sym (Point2D.x q)), (num_eqb_sym (Point2D.y q)).
    reflexivity.
  - intros p q H. unfold Point2D.__eq__.
    apply String.eqb_neq in H. rewrite H. reflexivity.
  - intros a b c d. unfold Point2D.__eq__, P2.
    cbn [Point2D.dtype Point2D._dtype Point2D.x Point2D.y num_eqb].
    rewrite String.eqb_refl. cbn [negb]. rewrite andb_true_iff.
    rewrite !Z.eqb_eq. split.
    + intros [-> ->]. reflexivity.
    + intros [= -> ->]. split; reflexivity.
  - intros p q. unfold Point3D.__eq__.
    rewrite (String.eqb_sym (Point3D.dtype q)),
      (num_eqb_sym (Point3D.x q)), (num_eqb_sym (Point3D.y q)),
      (num_eqb_sym (Point3D.z q)).
    reflexivity.
  - intros p q H. unfold Point3D.__eq__.
    apply String.eqb_neq in H. rewrite H. reflexivity.
  - intros a b c a' b' c'. unfold Point3D.__eq__, P3.
    cbn [Point3D.dtype Point3D._dtype Point3D.x Point3D.y Point3D.z
         num_eqb].
    rewrite String.eqb_refl. cbn [negb]. rewrite !andb_true_iff.
    rewrite !Z.eqb_eq. split.
    + intros [[-> ->] ->]. reflexivity.
    + intros [= -> -> ->]. repeat split; reflexivity.
Qed.

Lemma equality_symmetric_witness :
  Point2D.__eq__ (P2 1 2) (F2 (float_of_Z 1) (float_of_Z 2)) = false.
Proof.
  apply (proj1 (proj2 equality_symmetric)). discriminate.
Defined.

(** [X12]: a point is equal to itself exactly when none of its components
    is a NaN. *)
Theorem equality_reflexive_unless_nan :
  (forall p : Point2D.t,
      Point2D.__eq__ p p
      = negb (is_nan (Point2D.x p) || is_nan (Point2D.y p)))
  /\ (forall p : Point3D.t,
      Point3D.__eq__ p p
      = negb (is_nan (Point3D.x p) || is_nan (Point3D.y p)
              || is_nan (Point3D.z p))).
Proof.
  split; intros p.
  - unfold Point2D.__eq__. rewrite String.eqb_refl, !num_eqb_refl.
    cbn [negb]. rewrite negb_orb. reflexivity.
  - unfold Point3D.__eq__. rewrite String.eqb_refl, !num_eqb_refl.
    cbn [negb]. rewrite !negb_orb. reflexivity.
Qed.

(** * The sequence protocol *)

(** [X13]: [__getitem__] at an integer index returns a component exactly
    when the index is from 0 to the length less one, and the component is
    then the one iteration yields at that place; the length is the number
    of components iteration yields, which are those of [astuple], in
    order. *)
Theorem sequence_protocol :
  (forall (p : Point2D.t) (k : Z) (c : num),
      Point2D.__getitem__ p (VInt k) = Ok c
      <-> 0 <= k < Point2D.__len__ p
          /\ nth_error (Point2D.__iter__ p) (Z.to_nat k) = Some c)
  /\ (forall p : Point2D.t,
      Z.of_nat (List.length (Point2D.__iter__ p)) = Point2D.__len__ p
      /\ Point2D.__iter__ p
         = [fst (Point2D.astuple p); snd (Point2D.astuple p)])
  /\ (forall (p : Point3D.t) (k : Z) (c : num),
      Point3D.__getitem__ p (VInt k) = Ok c
      <-> 0 <= k < Point3D.__len__ p
          /\ nth_error (Point3D.__iter__ p) (Z.to_nat k) = Some c)
  /\ (forall p : Point3D.t,
      Z.of_nat (List.length (Point3D.__iter__ p)) = Point3D.__len__ p
      /\ Point3D.__iter__ p
         = [fst (fst (Point3D.astuple p)); snd (fst (Point3D.astuple p));
            snd (Point3D.astuple p)]).
Proof.
  split; [|split; [|split]].
  - intros p k c.
    unfold Point2D.__getitem__, Point2D.__len__, Point2D.__iter__,
      key_eqb, VInt, num_eqb.
    destruct (Z.eqb_spec k 0) as [->|H0];
      [cbn; split; [intros [= ->]; split; [lia|reflexivity]
                   |intros [_ [= ->]]; reflexivity]|].
    destruct (Z.eqb_spec k 1) as [->|H1];
      [cbn; split; [intros [= ->]; split; [lia|reflexivity]
                   |intros [_ [= ->]]; reflexivity]|].
    split; [discriminate|]. intros [Hk _]. lia.
  - intros p. split; reflexivity.
  - intros p k c.
    unfold Point3D.__getitem__, Point3D.__len__, Point3D.__iter__,
      key_eqb, VInt, num_eqb.
    destruct (Z.eqb_spec k 0) as [->|H0];
      [cbn; split; [intros [= ->]; split; [lia|reflexivity]
                   |intros [_ [= ->]]; reflexivity]|].
    destruct (Z.eqb_spec k 1) as [->|H1];
      [cbn; split; [intros [= ->]; split; [lia|reflexivity]
                   |intros [_ [= ->]]; reflexivity]|].
    destruct (Z.eqb_spec k 2) as [->|H2];
      [cbn; split; [intros [= ->]; split; [lia|reflexivity]
                   |intros [_ [= ->]]; reflexivity]|].
    split; [discriminate|]. intros [Hk _]. lia.
  - intros p. split; reflexivity.
Qed.

(** * Conversion *)

(** [X14]: [astype] returns a point only for the dtypes "int" and "float",
    and raises [RuntimeError] for any other; the point it returns has the
    dtype asked for and is left unchanged by a second conversion to that
    dtype, as is a point of integers by "int", however large they are, and
    a point of floats by "float". *)
Theorem astype_idempotent :
  (forall (p q : Point2D.t) (d : string),
      Point2D.astype p d = Ok q ->
      Point2D.dtype q = d /\ Point2D.astype q d = Ok q)
  /\ (forall (p : Point2D.t) (d : string),
      d <> "int" -> d <> "float" ->
      Point2D.astype p d = Raise RuntimeError)
  /\ (forall (a b : Z) (fx fy : float),
      Point2D.astype (P2 a b) "int" = Ok (P2 a b)
      /\ Point2D.astype (F2 fx fy) "float" = Ok (F2 fx fy))
  /\ (forall (p q : Point3D.t) (d : string),
      Point3D.astype p d = Ok q ->
      Point3D.dtype q = d /\ Point3D.astype q d = Ok q)
  /\ (forall (p : Point3D.t) (d : string),
      d <> "int" -> d <> "float" ->
      Point3D.astype p d = Raise RuntimeError)
  /\ (forall (a b c : Z) (fx fy fz : float),
      Point3D.astype (P3 a b c) "int" = Ok (P3 a b c)
      /\ Point3D.astype (F3 fx fy fz) "float" = Ok (F3 fx fy fz)).
Proof.
  split; [|split; [|split; [|split; [|split]]]].
  - intros p q d H. unfold Point2D.astype in H.
    destruct (String.eqb_spec d "int") as [Hd|Hi].
    { subst d. peel H. injection H as <-. split; reflexivity. }
    destruct (String.eqb_spec d "float") as [Hd|Hf]; [subst d|discriminate].
    peel H. injection H as <-. split; reflexivity.
  - intros p d Hi Hf. unfold Point2D.astype.
    apply String.eqb_neq in Hi, Hf. rewrite Hi, Hf. reflexivity.
  - intros a b fx fy. split; reflexivity.
  - intros p q d H. unfold Point3D.astype in H.
    destruct (String.eqb_spec d "int") as [Hd|Hi].
    { subst d. peel H. injection H as <-. split; reflexivity. }
    destruct (String.eqb_spec d "float") as [Hd|Hf]; [subst d|discriminate].
    peel H. injection H as <-. split; reflexivity.
  - intros p d Hi Hf. unfold Point3D.astype.
    apply String.eqb_neq in Hi, Hf. rewrite Hi, Hf. reflexivity.
  - intros a b c fx fy fz. split; reflexivity.
Qed.

Lemma astype_idempotent_witness :
  Point3D.dtype (P3 6 8 10) = "int"
  /\ Point3D.astype (P3 6 8 10) "int" = Ok (P3 6 8 10).
Proof.
  apply (proj1 (proj2 (proj2 (proj2 astype_idempotent)))
           (F3 (literal 59 10) (literal 82 10) (literal 95 10))).
  vm_compute. reflexivity.
Defined.

(** * Representation of a consistent point *)

Section ReprTotal.

Variable float_repr : float -> string.

(** [X15]: on a point that keeps the invariant, as every point returned
    by a constructor or an operation does, [repr] returns a text when each
    [int] component has at most 4300 decimal digits, and on a point of
    dtype "float" whatever the components, infinities and NaN included;
    when an [int] component has more digits, as in [Point2D(10 ** 4300,
    0)], it raises [ValueError]. *)
Theorem repr_of_consistent_point :
  (forall p : Point2D.t,
      consistent2 p ->
      str_fits (Point2D.x p) -> str_fits (Point2D.y p) ->
      exists s, Point2D.__repr__ float_repr p = Ok s)
  /\ (forall p : Point3D.t,
      consistent3 p ->
      str_fits (Point3D.x p) -> str_fits (Point3D.y p) ->
      str_fits (Point3D.z p) ->
      exists s, Point3D.__repr__ float_repr p = Ok s)
  /\ (forall p : Point2D.t,
      consistent2 p -> Point2D.dtype p = "float" ->
      exists s, Point2D.__repr__ float_repr p = Ok s)
  /\ (forall p : Point3D.t,
      consistent3 p -> Point3D.dtype p = "float" ->
      exists s, Point3D.__repr__ float_repr p = Ok s)
  /\ (forall p : Point2D.t,
      consistent2 p ->
      ~ str_fits (Point2D.x p) \/ ~ str_fits (Point2D.y p) ->
      Point2D.__repr__ float_repr p = Raise ValueError)
  /\ (forall p : Point3D.t,
      consistent3 p ->
      ~ str_fits (Point3D.x p) \/ ~ str_fits (Point3D.y p)
      \/ ~ str_fits (Point3D.z p) ->
      Point3D.__repr__ float_repr p = Raise ValueError)
  /\ (consistent2 (P2 (10 ^ 4300) 0)
      /\ Point2D.__init__ (VInt (10 ^ 4300)) (VInt 0)
         = Ok (P2 (10 ^ 4300) 0)
      /\ Point2D.__repr__ float_repr (P2 (10 ^ 4300) 0) = Raise ValueError).
Proof.
  assert (F2ok : forall p : Point2D.t,
             consistent2 p -> Point2D.dtype p = "float" ->
             exists s, Point2D.__repr__ float_repr p = Ok s).
  { intros [cx cy d] [[Hd Hc]|[Hd Hc]] Hf;
      cbn [Point2D.dtype Point2D._dtype Point2D.x Point2D.y] in Hd, Hc, Hf;
      subst d; try discriminate.
    destruct cx, cy; try discriminate. eexists. reflexivity. }
  assert (F3ok : forall p : Point3D.t,
             consistent3 p -> Point3D.dtype p = "float" ->
             exists s, Point3D.__repr__ float_repr p = Ok s).
  { intros [cx cy cz d] [[Hd Hc]|[Hd Hc]] Hf;
      cbn [Point3D.dtype Point3D._dtype Point3D.x Point3D.y Point3D.z]
        in Hd, Hc, Hf;
      subst d; try discriminate.
    destruct cx, cy, cz; try discriminate. eexists. reflexivity. }
  assert (E2 : forall cx cy : num,
             ~ str_fits cx \/ ~ str_fits cy ->
             Point2D.__repr__ float_repr (Point2D.Point cx cy "int")
             = Raise ValueError).
  { intros cx cy H. rewrite repr2_int.
    destruct (str_fits_dec cx) as [Fx|Nx];
      [|rewrite (py_str_too_long float_repr cx Nx); reflexivity].
    destruct H as [Nx|Ny]; [contradiction|].
    rewrite (py_str_too_long float_repr cy Ny).
    destruct (py_str_total float_repr cx) as [[sx ->]| ->]; reflexivity. }
  split; [|split; [|split; [|split; [|split; [|split]]]]].
  - intros [cx cy d] Hp Fx Fy.
    cbn [Point2D.x Point2D.y] in Fx, Fy.
    destruct Hp as [[Hd Hc]|[Hd Hc]];
      cbn [Point2D.dtype Point2D._dtype Point2D.x Point2D.y] in Hd, Hc;
      subst d.
    + apply andb_prop in Hc. destruct Hc as [Hx Hy].
      rewrite repr2_int, (py_str_fits float_repr cx Hx Fx),
        (py_str_fits float_repr cy Hy Fy).
      eexists. reflexivity.
    + apply F2ok; [right; split; [reflexivity|exact Hc] | reflexivity].
  - intros [cx cy cz d] Hp Fx Fy Fz.
    cbn [Point3D.x Point3D.y Point3D.z] in Fx, Fy, Fz.
    destruct Hp as [[Hd Hc]|[Hd Hc]];
      cbn [Point3D.dtype Point3D._dtype Point3D.x Point3D.y Point3D.z]
        in Hd, Hc;
      subst d.
    + apply andb_prop in Hc. destruct Hc as [Hc Hz].
      apply andb_prop in Hc. destruct Hc as [Hx Hy].
      rewrite repr3_int, (py_str_fits float_repr cx Hx Fx),
        (py_str_fits float_repr cy Hy Fy), (py_str_fits float_repr cz Hz Fz).
      eexists. reflexivity.
    + apply F3ok; [right; split; [reflexivity|exact Hc] | reflexivity].
  - exact F2ok.
  - exact F3ok.
  - intros [cx cy d] Hp H.
    cbn [Point2D.x Point2D.y] in H.
    destruct Hp as [[Hd Hc]|[Hd Hc]];
      cbn [Point2D.dtype Point2D._dtype Point2D.x Point2D.y] in Hd, Hc;
      subst d.
    + apply E2. exact H.
    + exfalso. destruct cx, cy; try discriminate.
      destruct H as [H|H]; apply H; exact I.
  - intros [cx cy cz d] Hp H.
    cbn [Point3D.x Point3D.y Point3D.z] in H.
    destruct Hp as [[Hd Hc]|[Hd Hc]];
      cbn [Point3D.dtype Point3D._dtype Point3D.x Point3D.y Point3D.z]
        in Hd, Hc;
      subst d.
    + rewrite repr3_int.
      destruct (str_fits_dec cx) as [Fx|Nx];
        [|rewrite (py_str_too_long float_repr cx Nx); reflexivity].
      destruct (py_str_total float_repr cx) as [[sx ->]| ->];
        [|reflexivity].
      destruct (str_fits_dec cy) as [Fy|Ny];
        [|rewrite (py_str_too_long float_repr cy Ny); reflexivity].
      destruct (py_str_total float_repr cy) as [[sy ->]| ->];
        [|reflexivity].
      destruct H as [Nx|[Ny|Nz]]; try contradiction.
      rewrite (py_str_too_long float_repr cz Nz). reflexivity.
    + exfalso. destruct cx, cy, cz; try discriminate.
      destruct H as [H|[H|H]]; apply H; exact I.
  - split; [|split].
    + left. split; reflexivity.
    + reflexivity.
    + apply E2. left. unfold str_fits. intros H.
      apply Nat.leb_le in H. vm_compute in H. discriminate.
Qed.

End ReprTotal.

Lemma repr_of_consistent_point_witness :
  exists s, Point2D.__repr__ (fun _ => EmptyString) (P2 3 (-4)) = Ok s.
Proof.
  apply (proj1 (repr_of_consistent_point (fun _ => EmptyString))).
  - left. split; reflexivity.
  - apply Nat.leb_le. reflexivity.
  - apply Nat.leb_le. reflexivity.
Defined.

(** * From "float" to "int" and back *)

Lemma is_binary64_finite (s : bool) (m : positive) (e : Z) :
  is_binary64 (S754_finite s m e) = true ->
  fexp prec emax (Zpos (digits2_pos m) + e) = e /\ e <= emax - prec.
Proof.
  unfold is_binary64, valid_binary, bounded, canonical_mantissa.
  intros H. apply andb_prop in H. destruct H as [H1 H2].
  split; [apply Z.eqb_eq, H1|apply Z.leb_le, H2].
Qed.

Lemma exact_in_float_cond_Zopp (s : bool) (z : Z) :
  exact_in_float (cond_Zopp s z) = exact_in_float z.
Proof. destruct s, z; reflexivity. Qed.

Lemma nearest_even_of_float_fits (f : float) :
  is_binary64 f = true -> exact_in_float (nearest_even_of_float f) = true.
Proof.
  destruct f as [s|s| |s m e]; try reflexivity.
  intros Hv. cbn [nearest_even_of_float].
  rewrite exact_in_float_cond_Zopp.
  pose proof (is_binary64_mantissa s m e Hv) as Hm.
  destruct (is_binary64_finite s m e Hv) as [Hc He].
  assert (Hd : Zpos (digits2_pos m) <= prec)
    by (unfold fexp, emin, prec, emax in *; lia).
  destruct (Z.leb_spec 0 e) as [H0|H0].
  - destruct e as [|k|k]; [| |lia].
    + rewrite Z.pow_0_r, Z.mul_1_r.
      unfold exact_in_float. cbn [Zdigits2].
      apply orb_true_iff. left. apply Z.leb_le, Hd.
    + rewrite <- Zpos_iter_xO.
      unfold exact_in_float. cbn [Zdigits2 Z.abs].
      rewrite digits2_pos_iter_xO, Pos2Z.inj_add.
      apply orb_true_iff.
      destruct (Z.le_gt_cases (Zpos (digits2_pos m) + Zpos k) prec)
        as [Hle|Hgt]; [left; apply Z.leb_le, Hle|right].
      apply andb_true_iff. split.
      * apply Z.leb_le. unfold prec, emax in *. lia.
      * apply Z.eqb_eq. rewrite Zpos_iter_xO.
        set (j := Zpos (digits2_pos m) + Zpos k - prec).
        replace (Zpos k) with (Zpos k - j + j) by lia.
        rewrite Z.pow_add_r by (subst j; lia).
        rewrite Z.mul_assoc. apply Z.mod_mul.
        apply Z.pow_nonzero; subst j; lia.
  - assert (Hb : 2 <= 2 ^ (- e)).
    { change 2 with (2 ^ 1) at 1. apply Z.pow_le_mono_r; lia. }
    pose proof (round_half_even_range (Zpos m) (2 ^ (- e))
                  ltac:(lia) ltac:(lia)) as [Hlo Hhi].
    assert (Hdiv : Zpos m / 2 ^ (- e) < 2 ^ prec - 1).
    { apply Z.div_lt_upper_bound; [lia|].
      assert (2 <= 2 ^ prec) by (unfold prec; lia).
      nia. }
    apply small_int_exact. lia.
Qed.

(** [X16]: for a point of finite machine floats, the integers that
    [astype("int")] returns are floats exactly: the cast back to "float"
    keeps their values and a second cast to "int" returns them. *)
Theorem rounded_point_survives_float :
  (forall fx fy : float,
      is_binary64 fx = true -> is_finite fx = true ->
      is_binary64 fy = true -> is_finite fy = true ->
      exists a b fa fb,
        Point2D.astype (F2 fx fy) "int" = Ok (P2 a b)
        /\ Point2D.astype (P2 a b) "float" = Ok (F2 fa fb)
        /\ float_eq_Z fa a = true /\ float_eq_Z fb b = true
        /\ Point2D.astype (F2 fa fb) "int" = Ok (P2 a b))
  /\ (forall fx fy fz : float,
      is_binary64 fx = true -> is_finite fx = true ->
      is_binary64 fy = true -> is_finite fy = true ->
      is_binary64 fz = true -> is_finite fz = true ->
      exists a b c fa fb fc,
        Point3D.astype (F3 fx fy fz) "int" = Ok (P3 a b c)
        /\ Point3D.astype (P3 a b c) "float" = Ok (F3 fa fb fc)
        /\ float_eq_Z fa a = true /\ float_eq_Z fb b = true
        /\ float_eq_Z fc c = true
        /\ Point3D.astype (F3 fa fb fc) "int" = Ok (P3 a b c)).
Proof.
  assert (K : forall f, is_binary64 f = true -> is_finite f = true ->
                exists a fa,
                  py_int (py_round0 (NFloat f)) = Ok a
                  /\ py_float_of_int a = Ok fa
                  /\ float_eq_Z fa a = true
                  /\ py_int (py_round0 (NFloat fa)) = Ok a).
  { intros f Hv Hf.
    destruct (py_float_of_int_exact _ (nearest_even_of_float_fits f Hv))
      as (fa & H1 & H2 & H3).
    exists (nearest_even_of_float f), fa.
    split; [apply py_int_round0_float; assumption|].
    repeat split; assumption. }
  split.
  - intros fx fy Vx Fx Vy Fy.
    destruct (K fx Vx Fx) as (a & fa & A1 & A2 & A3 & A4).
    destruct (K fy Vy Fy) as (b & fb & B1 & B2 & B3 & B4).
    exists a, b, fa, fb.
    unfold Point2D.astype.
    cbn [String.eqb Ascii.eqb Bool.eqb F2 P2 Point2D.x Point2D.y
         py_round0 py_int py_float].
    cbn [py_round0 py_int] in A1, B1, A4, B4.
    rewrite A1, B1, A2, B2, A4, B4.
    repeat split; assumption.
  - intros fx fy fz Vx Fx Vy Fy Vz Fz.
    destruct (K fx Vx Fx) as (a & fa & A1 & A2 & A3 & A4).
    destruct (K fy Vy Fy) as (b & fb & B1 & B2 & B3 & B4).
    destruct (K fz Vz Fz) as (c & fc & C1 & C2 & C3 & C4).
    exists a, b, c, fa, fb, fc.
    unfold Point3D.astype.
    cbn [String.eqb Ascii.eqb Bool.eqb F3 P3 Point3D.x Point3D.y
         Point3D.z py_round0 py_int py_float].
    cbn [py_round0 py_int] in A1, B1, C1, A4, B4, C4.
    rewrite A1, B1, C1, A2, B2, C2, A4, B4, C4.
    repeat split; assumption.
Qed.

Lemma rounded_point_survives_float_witness :
  exists a b fa fb,
    Point2D.astype (F2 (literal 59 10) (literal 95 10)) "int" = Ok (P2 a b)
    /\ Point2D.astype (P2 a b) "float" = Ok (F2 fa fb)
    /\ float_eq_Z fa a = true /\ float_eq_Z fb b = true
    /\ Point2D.astype (F2 fa fb) "int" = Ok (P2 a b).
Proof.
  apply (proj1 rounded_point_survives_float); reflexivity.
Defined.

(** * Scaling by one *)

Lemma fmul_one (f : float) : is_binary64 f = true -> fmul f one = f.
Proof.
  destruct f as [s|s| |s m e]; try (intros _; destruct s; reflexivity);
    [intros _; reflexivity|].
  intros Hv. destruct (is_binary64_finite s m e Hv) as [Hc He].
  unfold fmul, one.
  change (float_of_Z 1) with (S754_finite false 4503599627370496 (-52)).
  cbn [SFmul]. rewrite xorb_false_r, Pos.mul_comm.
  change (4503599627370496 * m)%positive with (Pos.iter xO m 52).
  unfold binary_round_aux, shr_fexp.
  cbn [Zdigits2 shr_record_of_loc].
  rewrite digits2_pos_iter_xO, Pos2Z.inj_add.
  replace (fexp prec emax (Zpos (digits2_pos m) + 52 + (e + -52))
           - (e + -52)) with 52
    by (replace (Zpos (digits2_pos m) + 52 + (e + -52))
          with (Zpos (digits2_pos m) + e) by lia; lia).
  cbn [shr]. rewrite iter_shr_1_exact.
  cbn [shr_m loc_of_shr_record round_nearest_even Zdigits2
       shr_record_of_loc].
  replace (fexp prec emax (Zpos (digits2_pos m) + (e + -52 + 52))
           - (e + -52 + 52)) with 0
    by (replace (e + -52 + 52) with e by lia; lia).
  cbn [shr shr_m].
  replace (e + -52 + 52) with e by lia.
  replace (e <=? emax - prec) with true
    by (symmetry; apply Z.leb_le, He).
  reflexivity.
Qed.

(** [X17]: multiplying a point of machine floats by [1], by [1.0] or by
    [True], or dividing it by one of them, returns the same point; so does
    multiplying a point of integers by [1]. *)
Theorem scaling_by_one :
  (forall (fx fy : float) (s : num),
      is_binary64 fx = true -> is_binary64 fy = true ->
      py_float s = Ok one ->
      Point2D.__mul__ (F2 fx fy) s = Ok (F2 fx fy)
      /\ Point2D.__truediv__ (F2 fx fy) s = Ok (F2 fx fy))
  /\ (forall a b : Z, Point2D.__mul__ (P2 a b) (NInt 1) = Ok (P2 a b))
  /\ (forall (fx fy fz : float) (s : num),
      is_binary64 fx = true -> is_binary64 fy = true ->
      is_binary64 fz = true -> py_float s = Ok one ->
      Point3D.__mul__ (F3 fx fy fz) s = Ok (F3 fx fy fz)
      /\ Point3D.__truediv__ (F3 fx fy fz) s = Ok (F3 fx fy fz))
  /\ (forall a b c : Z,
      Point3D.__mul__ (P3 a b c) (NInt 1) = Ok (P3 a b c)).
Proof.
  assert (N : forall f s, is_binary64 f = true -> py_float s = Ok one ->
                num_mul (NFloat f) s = Ok (NFloat f)).
  { intros f s Hv Hs. unfold num_mul, num_arith.
    cbn [int_value py_float bind]. rewrite Hs. cbn [bind].
    rewrite (fmul_one f Hv). reflexivity. }
  split; [|split; [|split]].
  - intros fx fy s Vx Vy Hs.
    assert (M : forall s', py_float s' = Ok one ->
                  Point2D.__mul__ (F2 fx fy) s' = Ok (F2 fx fy)).
    { intros s' Hs'. unfold Point2D.__mul__. cbn [F2 Point2D.x Point2D.y].
      rewrite (N fx s' Vx Hs'), (N fy s' Vy Hs'). reflexivity. }
    split; [exact (M s Hs)|].
    unfold Point2D.__truediv__, Point2D.__div__. rewrite Hs. cbn [bind].
    change (truediv_float (NInt 1) one) with (Ok one). cbn [bind].
    apply (M (NFloat one)). reflexivity.
  - intros a b. unfold Point2D.__mul__, P2, num_mul, num_arith.
    cbn [Point2D.x Point2D.y int_value bind]. rewrite !Z.mul_1_r.
    reflexivity.
  - intros fx fy fz s Vx Vy Vz Hs.
    assert (M : forall s', py_float s' = Ok one ->
                  Point3D.__mul__ (F3 fx fy fz) s' = Ok (F3 fx fy fz)).
    { intros s' Hs'. unfold Point3D.__mul__.
      cbn [F3 Point3D.x Point3D.y Point3D.z].
      rewrite (N fx s' Vx Hs'), (N fy s' Vy Hs'), (N fz s' Vz Hs').
      reflexivity. }
    split; [exact (M s Hs)|].
    unfold Point3D.__truediv__, Point3D.__div__. rewrite Hs. cbn [bind].
    change (truediv_float (NInt 1) one) with (Ok one). cbn [bind].
    apply (M (NFloat one)). reflexivity.
  - intros a b c. unfold Point3D.__mul__, P3, num_mul, num_arith.
    cbn [Point3D.x Point3D.y Point3D.z int_value bind].
    rewrite !Z.mul_1_r. reflexivity.
Qed.

Lemma scaling_by_one_witness :
  Point2D.__mul__ (F2 half (literal 59 10)) (NInt 1)
  = Ok (F2 half (literal 59 10))
  /\ Point2D.__truediv__ (F2 half (literal 59 10)) (NInt 1)
     = Ok (F2 half (literal 59 10)).
Proof.
  apply (proj1 scaling_by_one); reflexivity.
Defined.

(** * Keys and components *)

Lemma float_eq_Z_functional (f : float) (z w : Z) :
  float_eq_Z f z = true -> float_eq_Z f w = true -> z = w.
Proof.
  destruct f as [s|s| |s m e]; cbn [float_eq_Z]; try discriminate.
  - intros Hz Hw. apply Z.eqb_eq in Hz, Hw. congruence.
  - destruct (Z.leb_spec 0 e); intros Hz Hw; apply Z.eqb_eq in Hz, Hw.
    + congruence.
    + assert (0 < 2 ^ (- e)) by (apply Z.pow_pos_nonneg; lia). nia.
Qed.

Lemma key_eqb_functional (key : pyval) (j k : Z) :
  key_eqb key j = true -> key_eqb key k = true -> j = k.
Proof.
  destruct key as [[z|b|f]| | |]; cbn [key_eqb num_eqb]; try discriminate.
  - intros Hj Hk. apply Z.eqb_eq in Hj, Hk. congruence.
  - intros Hj Hk. apply Z.eqb_eq in Hj, Hk. congruence.
  - apply float_eq_Z_functional.
Qed.

(** [X18]: the key of [__getitem__] is compared with [==]: a boolean or a
    float equal to an index selects that component, and any other key, a
    string, [None] or a sequence included, raises [IndexError] and no other
    exception. *)
Theorem keys_compared_by_equality :
  (forall (p : Point2D.t) (key : pyval),
      (key_eqb key 0 = true -> Point2D.__getitem__ p key = Ok (Point2D.x p))
      /\ (key_eqb key 1 = true ->
          Point2D.__getitem__ p key = Ok (Point2D.y p))
      /\ (key_eqb key 0 = false -> key_eqb key 1 = false ->
          Point2D.__getitem__ p key = Raise IndexError)
      /\ (not_number key -> Point2D.__getitem__ p key = Raise IndexError))
  /\ (forall (p : Point3D.t) (key : pyval),
      (key_eqb key 0 = true -> Point3D.__getitem__ p key = Ok (Point3D.x p))
      /\ (key_eqb key 1 = true ->
          Point3D.__getitem__ p key = Ok (Point3D.y p))
      /\ (key_eqb key 2 = true ->
          Point3D.__getitem__ p key = Ok (Point3D.z p))
      /\ (key_eqb key 0 = false -> key_eqb key 1 = false ->
          key_eqb key 2 = false ->
          Point3D.__getitem__ p key = Raise IndexError)
      /\ (not_number key -> Point3D.__getitem__ p key = Raise IndexError))
  /\ (forall p : Point2D.t,
      Point2D.__getitem__ p (VBool true) = Ok (Point2D.y p)
      /\ Point2D.__getitem__ p (VFloat one) = Ok (Point2D.y p)
      /\ Point2D.__getitem__ p (VFloat (S754_zero true))
         = Ok (Point2D.x p)
      /\ Point2D.__getitem__ p (VFloat half) = Raise IndexError).
Proof.
  split; [|split].
  - intros p key. unfold Point2D.__getitem__. repeat split.
    + intros ->. reflexivity.
    + intros H1. destruct (key_eqb key 0) eqn:H0; [|rewrite H1; reflexivity].
      pose proof (key_eqb_functional key 0 1 H0 H1). discriminate.
    + intros -> ->. reflexivity.
    + intros H. destruct key; try contradiction; reflexivity.
  - intros p key. unfold Point3D.__getitem__. repeat split.
    + intros ->. reflexivity.
    + intros H1. destruct (key_eqb key 0) eqn:H0; [|rewrite H1; reflexivity].
      pose proof (key_eqb_functional key 0 1 H0 H1). discriminate.
    + intros H2.
      destruct (key_eqb key 0) eqn:H0;
        [pose proof (key_eqb_functional key 0 2 H0 H2); discriminate|].
      destruct (key_eqb key 1) eqn:H1;
        [pose proof (key_eqb_functional key 1 2 H1 H2); discriminate|].
      rewrite H2. reflexivity.
    + intros -> -> ->. reflexivity.
    + intros H. destruct key; try contradiction; reflexivity.
  - intros p. repeat split.
Qed.

Lemma keys_compared_by_equality_witness :
  Point3D.__getitem__ (P3 2 3 4) (VFloat (float_of_Z 2)) = Ok (NInt 4)
  /\ Point3D.__getitem__ (P3 2 3 4) (VStr "x") = Raise IndexError.
Proof.
  split.
  - apply (proj1 (proj2 (proj2
             (proj1 (proj2 keys_compared_by_equality) (P3 2 3 4)
                (VFloat (float_of_Z 2)))))).
    reflexivity.
  - apply (proj2 (proj2 (proj2 (proj2
             (proj1 (proj2 keys_compared_by_equality) (P3 2 3 4)
                (VStr "x")))))).
    exact I.
Defined.

(** [X19]: a point that keeps the invariant is rebuilt by either
    constructor form from the components it iterates over. *)
Theorem rebuilt_from_components :
  (forall p : Point2D.t,
      consistent2 p ->
      Point2D.__init__ (VSeq (map VNum (Point2D.__iter__ p))) VNone = Ok p
      /\ Point2D.__init__ (VNum (fst (Point2D.astuple p)))
           (VNum (snd (Point2D.astuple p))) = Ok p)
  /\ (forall p : Point3D.t,
      consistent3 p ->
      Point3D.__init__ (VSeq (map VNum (Point3D.__iter__ p))) VNone VNone
      = Ok p
      /\ Point3D.__init__ (VNum (Point3D.x p)) (VNum (Point3D.y p))
           (VNum (Point3D.z p)) = Ok p).
Proof.
  split.
  - intros [cx cy d] [[Hd Hc]|[Hd Hc]];
      cbn [Point2D.dtype Point2D._dtype Point2D.x Point2D.y] in Hd, Hc;
      subst d; destruct cx, cy; try discriminate; split; reflexivity.
  - intros [cx cy cz d] [[Hd Hc]|[Hd Hc]];
      cbn [Point3D.dtype Point3D._dtype Point3D.x Point3D.y Point3D.z]
        in Hd, Hc;
      subst d; destruct cx, cy, cz; try discriminate; split; reflexivity.
Qed.

Lemma rebuilt_from_components_witness :
  Point2D.__init__
    (VSeq (map VNum (Point2D.__iter__ (F2 half (literal 59 10))))) VNone
  = Ok (F2 half (literal 59 10))
  /\ Point2D.__init__
       (VNum (fst (Point2D.astuple (F2 half (literal 59 10)))))
       (VNum (snd (Point2D.astuple (F2 half (literal 59 10)))))
     = Ok (F2 half (literal 59 10)).
Proof.
  apply (proj1 rebuilt_from_components). right. split; reflexivity.
Defined.

(** * Overflow of the magnitude *)

(** A mantissa of more than 53 bits is cut to 53 bits at an exponent
    raised by the number of bits dropped at least; past the largest
    exponent the result is an infinity. *)
Lemma binary_round_aux_wide (s : bool) (p k : positive) (ex : Z) :
  Zpos k = Zpos (digits2_pos p) - prec ->
  3 - emax - prec <= ex + Zpos k ->
  exists (m : positive) (e : Z),
    ex + Zpos k <= e
    /\ binary_round_aux prec emax s (Zpos p) ex loc_Exact
       = if e <=? emax - prec then S754_finite s m e else S754_infinity s.
Proof.
  intros Hk Hex.
  pose proof (digits2_pos_bounds p) as [Plo Phi].
  assert (Hpk : 0 < 2 ^ Zpos k) by (apply Z.pow_pos_nonneg; lia).
  unfold binary_round_aux, shr_fexp.
  cbn [Zdigits2 shr_record_of_loc].
  replace (fexp prec emax (Zpos (digits2_pos p) + ex) - ex) with (Zpos k)
    by (unfold fexp, emin, prec, emax in *; lia).
  cbn [shr].
  set (mrs := iter_pos shr_1 k
                {| shr_m := Zpos p; shr_r := false; shr_s := false |}).
  assert (Hm1 : shr_m mrs = Zpos p / 2 ^ Zpos k).
  { subst mrs. rewrite iter_shr_1_m; cbn [shr_m]; [reflexivity|lia]. }
  assert (Hb1 : 2 ^ (prec - 1) <= shr_m mrs < 2 ^ prec).
  { rewrite Hm1.
    assert (E1 : 2 ^ (Zpos (digits2_pos p) - 1)
                 = 2 ^ (prec - 1) * 2 ^ Zpos k).
    { rewrite <- Z.pow_add_r by (unfold prec; lia). f_equal. lia. }
    assert (E2 : 2 ^ Zpos (digits2_pos p) = 2 ^ prec * 2 ^ Zpos k).
    { rewrite <- Z.pow_add_r by (unfold prec; lia). f_equal. lia. }
    split.
    - apply Z.div_le_lower_bound; lia.
    - apply Z.div_lt_upper_bound; lia. }
  set (m2 := round_nearest_even (shr_m mrs) (loc_of_shr_record mrs)).
  assert (Hm2 : m2 = shr_m mrs \/ m2 = shr_m mrs + 1).
  { subst m2. unfold round_nearest_even.
    destruct (loc_of_shr_record mrs) as [|[| |]]; auto.
    destruct (Z.even (shr_m mrs)); auto. }
  assert (Hpow : 2 ^ prec = 2 * 2 ^ (prec - 1)) by reflexivity.
  assert (Hcase : m2 < 2 ^ prec \/ m2 = 2 ^ prec) by lia.
  destruct Hcase as [Hlt|Heq].
  - destruct m2 as [|q|q] eqn:Eq; try lia.
    assert (Hq : Zpos (digits2_pos q) = prec)
      by (apply digits2_pos_eq; lia).
    cbn [Zdigits2]. rewrite Hq.
    replace (fexp prec emax (prec + (ex + Zpos k)) - (ex + Zpos k)) with 0
      by (unfold fexp, emin, prec, emax in *; lia).
    cbn [shr shr_m].
    exists q, (ex + Zpos k). split; [lia|reflexivity].
  - rewrite Heq.
    change (Zdigits2 (2 ^ prec)) with (prec + 1).
    replace (fexp prec emax (prec + 1 + (ex + Zpos k)) - (ex + Zpos k))
      with 1 by (unfold fexp, emin, prec, emax in *; lia).
    change (shr_record_of_loc (2 ^ prec) loc_Exact)
      with {| shr_m := 2 ^ prec; shr_r := false; shr_s := false |}.
    cbn [shr iter_pos].
    change (shr_1 {| shr_m := 2 ^ prec; shr_r := false; shr_s := false |})
      with {| shr_m := 2 ^ (prec - 1); shr_r := false; shr_s := false |}.
    cbn [shr_m].
    change (2 ^ (prec - 1)) with (Zpos 4503599627370496).
    exists 4503599627370496%positive, (ex + Zpos k + 1).
    split; [lia|reflexivity].
Qed.

Lemma num_pow2_huge (c : num) :
  huge c = true -> num_pow2 c = Raise OverflowError.
Proof.
  destruct c as [| |[| | |s m e]]; try discriminate.
  cbn [huge]. intros H. apply andb_prop in H. destruct H as [Hd He].
  apply Z.eqb_eq in Hd. apply Z.leb_le in He.
  unfold num_pow2. cbn [int_value py_float bind is_finite andb].
  replace (is_finite (fmul (S754_finite s m e) (S754_finite s m e)))
    with false; [reflexivity|].
  unfold fmul. cbn [SFmul].
  pose proof (digits2_pos_bounds m) as [Mlo Mhi]. rewrite Hd in Mlo, Mhi.
  pose proof (digits2_pos_bounds (m * m)) as [Plo Phi].
  rewrite Pos2Z.inj_mul in Plo, Phi.
  assert (Hsq : 2 ^ (prec - 1) * 2 ^ (prec - 1) <= Zpos m * Zpos m)
    by (unfold prec in *; nia).
  assert (HD : 2 * prec - 1 <= Zpos (digits2_pos (m * m))).
  { destruct (Z.le_gt_cases (2 * prec - 1) (Zpos (digits2_pos (m * m))))
      as [|Hgt]; [assumption|exfalso].
    assert (2 ^ Zpos (digits2_pos (m * m)) <= 2 ^ (2 * prec - 2))
      by (apply Z.pow_le_mono_r; lia).
    change (2 ^ (2 * prec - 2))
      with (2 ^ (prec - 1) * 2 ^ (prec - 1)) in *.
    lia. }
  destruct (Zpos (digits2_pos (m * m)) - prec) as [|k|k] eqn:Hk;
    try (unfold prec in *; lia).
  destruct (binary_round_aux_wide (xorb s s) (m * m) k (e + e)
              (eq_sym Hk)) as (m' & e' & He' & ->).
  { unfold prec, emax in *. lia. }
  replace (e' <=? emax - prec) with false; [reflexivity|].
  symmetry. apply Z.leb_gt. unfold prec, emax in *. lia.
Qed.

(** Among the floats of the format, [huge] selects the finite ones of
    absolute value [2^512] or more. *)
Lemma huge_iff (s : bool) (m : positive) (e : Z) :
  is_binary64 (S754_finite s m e) = true ->
  (huge (NFloat (S754_finite s m e)) = true
   <-> 0 <= e /\ 2 ^ 512 <= Zpos m * 2 ^ e).
Proof.
  intros Hv. destruct (is_binary64_finite s m e Hv) as [Hc He].
  pose proof (digits2_pos_bounds m) as [Mlo Mhi].
  unfold fexp, emin, prec, emax in Hc.
  cbn [huge]. rewrite andb_true_iff, Z.eqb_eq, Z.leb_le. unfold prec.
  split.
  - intros [Hd H460]. split; [lia|].
    rewrite Hd in Mlo.
    replace 512 with (52 + 460) by reflexivity.
    rewrite Z.pow_add_r by lia.
    assert (2 ^ 460 <= 2 ^ e) by (apply Z.pow_le_mono_r; lia).
    apply Z.mul_le_mono_nonneg; try assumption.
    + apply Z.pow_nonneg. lia.
    + apply Z.pow_nonneg. lia.
  - intros [H0 Hb].
    assert (Hlt : 2 ^ 512 < 2 ^ (Zpos (digits2_pos m) + e)).
    { rewrite Z.pow_add_r by lia.
      apply Z.le_lt_trans with (1 := Hb).
      apply Z.mul_lt_mono_pos_r; [|exact Mhi].
      apply Z.pow_pos_nonneg; lia. }
    apply Z.pow_lt_mono_r_iff in Hlt; lia.
Qed.

(** [X20]: [magnitude] squares each component before it adds: on a point
    with a finite float component of absolute value [2^512] or more it
    raises [OverflowError], and so does [unit_vector]. An infinite
    component does not raise: of the point of an infinity and a zero the
    magnitude is the positive infinity and the unit vector has a NaN. *)
Theorem magnitude_overflows :
  (forall p : Point2D.t,
      huge (Point2D.x p) || huge (Point2D.y p) = true ->
      Point2D.magnitude p = Raise OverflowError
      /\ Point2D.unit_vector p = Raise OverflowError)
  /\ (forall p : Point3D.t,
      huge (Point3D.x p) || huge (Point3D.y p) || huge (Point3D.z p)
      = true ->
      Point3D.magnitude p = Raise OverflowError
      /\ Point3D.unit_vector p = Raise OverflowError)
  /\ (forall (s : bool) (m : positive) (e : Z),
      is_binary64 (S754_finite s m e) = true ->
      (huge (NFloat (S754_finite s m e)) = true
       <-> 0 <= e /\ 2 ^ 512 <= Zpos m * 2 ^ e))
  /\ (forall s : bool,
      huge (NFloat (S754_infinity s)) = false
      /\ Point2D.magnitude (F2 (S754_infinity s) (S754_zero false))
         = Ok pos_inf
      /\ Point2D.unit_vector (F2 (S754_infinity s) (S754_zero false))
         = Ok (F2 S754_nan (S754_zero false))
      /\ Point3D.magnitude
           (F3 (S754_infinity s) (S754_zero false) (S754_zero false))
         = Ok pos_inf
      /\ Point3D.unit_vector
           (F3 (S754_infinity s) (S754_zero false) (S754_zero false))
         = Ok (F3 S754_nan (S754_zero false) (S754_zero false))).
Proof.
  assert (P : forall c, num_pow2 c = Raise OverflowError
                        \/ exists v, num_pow2 c = Ok v /\ nonneg_num v).
  { intros c. pose proof (num_pow2_nonneg c) as H.
    destruct (num_pow2 c) as [v|e]; cbn [overflow_or] in H.
    - right. exists v. split; [reflexivity|exact H].
    - left. rewrite H. reflexivity. }
  assert (A : forall a b, nonneg_num a -> nonneg_num b ->
                num_add a b = Raise OverflowError
                \/ exists v, num_add a b = Ok v /\ nonneg_num v).
  { intros a b Ha Hb. pose proof (num_add_nonneg a b Ha Hb) as H.
    destruct (num_add a b) as [v|e]; cbn [overflow_or] in H.
    - right. exists v. split; [reflexivity|exact H].
    - left. rewrite H. reflexivity. }
  split; [|split; [|split]].
  - intros p H.
    assert (M : Point2D.magnitude p = Raise OverflowError).
    { unfold Point2D.magnitude.
      destruct (P (Point2D.x p)) as [->|(x2 & Ex & Nx)]; [reflexivity|].
      destruct (huge (Point2D.x p)) eqn:Hx.
      { rewrite (num_pow2_huge _ Hx) in Ex. discriminate. }
      cbn [orb] in H. rewrite Ex, (num_pow2_huge _ H). reflexivity. }
    split; [exact M|]. unfold Point2D.unit_vector. rewrite M. reflexivity.
  - intros p H.
    assert (M : Point3D.magnitude p = Raise OverflowError).
    { unfold Point3D.magnitude.
      destruct (P (Point3D.x p)) as [->|(x2 & Ex & Nx)]; [reflexivity|].
      destruct (huge (Point3D.x p)) eqn:Hx.
      { rewrite (num_pow2_huge _ Hx) in Ex. discriminate. }
      rewrite Ex. cbn [bind orb] in *.
      destruct (P (Point3D.y p)) as [->|(y2 & Ey & Ny)]; [reflexivity|].
      destruct (huge (Point3D.y p)) eqn:Hy.
      { rewrite (num_pow2_huge _ Hy) in Ey. discriminate. }
      rewrite Ey. cbn [bind orb] in *.
      destruct (A x2 y2 Nx Ny) as [->|(s & Es & Ns)]; [reflexivity|].
      rewrite Es. cbn [bind]. rewrite (num_pow2_huge _ H). reflexivity. }
    split; [exact M|]. unfold Point3D.unit_vector. rewrite M. reflexivity.
  - exact huge_iff.
  - intros s. destruct s; repeat split; vm_compute; reflexivity.
Qed.

Lemma magnitude_overflows_witness :
  Point2D.magnitude (F2 (S754_zero false) (float_of_Z (2 ^ 512)))
  = Raise OverflowError
  /\ Point2D.unit_vector (F2 (S754_zero false) (float_of_Z (2 ^ 512)))
     = Raise OverflowError.
Proof.
  apply (proj1 magnitude_overflows). reflexivity.
Defined.

(** * Arithmetic on float points *)

(** [X21]: on points of floats [+], [-] and [*] by a float never raise:
    they return the point of the component-wise float results, an overflow
    giving an infinity and an undefined result a NaN. *)
Theorem float_arithmetic_never_raises :
  (forall a b c d g : float,
      Point2D.__add__ (F2 a b) (F2 c d) = Ok (F2 (fadd a c) (fadd b d))
      /\ Point2D.__sub__ (F2 a b) (F2 c d) = Ok (F2 (fsub a c) (fsub b d))
      /\ Point2D.__mul__ (F2 a b) (NFloat g)
         = Ok (F2 (fmul a g) (fmul b g)))
  /\ (forall a b c a' b' c' g : float,
      Point3D.__add__ (F3 a b c) (F3 a' b' c')
      = Ok (F3 (fadd a a') (fadd b b') (fadd c c'))
      /\ Point3D.__sub__ (F3 a b c) (F3 a' b' c')
         = Ok (F3 (fsub a a') (fsub b b') (fsub c c'))
      /\ Point3D.__mul__ (F3 a b c) (NFloat g)
         = Ok (F3 (fmul a g) (fmul b g) (fmul c g)))
  /\ Point2D.__add__ (F2 (float_of_Z (2 ^ 1023)) pos_inf)
       (F2 (float_of_Z (2 ^ 1023)) (S754_infinity true))
     = Ok (F2 pos_inf S754_nan).
Proof.
  split; [|split].
  - intros a b c d g. repeat split.
  - intros a b c a' b' c' g. repeat split.
  - vm_compute. reflexivity.
Qed.
